(** * Expense dashboard: formula cells and derived-expense aggregation

    A shallow embedding of [static/js/expenses.js]: the in-cell formula
    evaluator ([calculateFormula] and the cell's event handlers) and the
    aggregation functions behind the analysis views
    ([calculateNetEarn], [calculatePercentChange], [processExpenseData],
    [calculateTopExpenseUnits], the totals of [updatePnLStatement] and the
    rows of [updateROIAnalysis]); then the table of the [ExpensesManager]
    (rendering, building filter, export, the loaders of sales, repair and
    replacement amounts), the expense breakdown view ([updateAnalysis],
    [updateExpenseDisplay]), the year-on-year comparison and the income
    table.

    ECMAScript Numbers are IEEE 754 binary64 values: they are modelled by
    Rocq's primitive [float], so every arithmetic step rounds exactly as the
    script's does.  Strings are sequences of code units below 256.  JavaScript
    objects used as dictionaries are [gmap]s. *)

From Stdlib Require Import ZArith Lia List String Ascii Bool Floats Sorted.
From Stdlib Require Import DecimalString.
From stdpp Require Import gmap strings.

Local Open Scope Z_scope.

(** ** ECMAScript Numbers and their conversions from and to text *)

Module JSNumber.

(** The integer [n] as a Number (nearest double, ties to even). *)
Definition of_Z (n : Z) : float :=
  SF2Prim (binary_normalize prec emax n 0 false).

Definition dec_string (n : Z) : string :=
  NilZero.string_of_uint (N.to_uint (Z.to_N n)).

Definition dec_len (n : Z) : Z := Z.of_nat (String.length (dec_string n)).

(** The Number value of the decimal [digits * 10 ^ e10], for [0 <= digits]:
    exact rational, rounded once.  Far outside the binary64 range the
    result is decided without building the power of ten. *)
Definition of_decimal (digits e10 : Z) : float :=
  match digits with
  | Zpos p =>
      let mag := dec_len digits + e10 in
      if 400 <? mag then infinity
      else if mag <? -400 then zero
      else if 0 <=? e10
           then SF2Prim (binary_normalize prec emax (digits * 10 ^ e10) 0 false)
           else SF2Prim (SFdiv prec emax (S754_finite false p 0)
                           (S754_finite false (Z.to_pos (10 ^ (- e10))) 0))
  | _ => zero
  end.

(** The exact value [num / den] of a finite, non-zero double, sign apart. *)
Definition exact_abs (x : float) : option (Z * Z) :=
  match Prim2SF x with
  | S754_finite _ m e =>
      Some (if 0 <=? e then (Zpos m * 2 ^ e, 1) else (Zpos m, 2 ^ (- e)))
  | _ => None
  end.

(** [floor ((num / den) / 10 ^ k)] *)
Definition scaled_floor (num den k : Z) : Z :=
  if 0 <=? k then num / (den * 10 ^ k) else (num * 10 ^ (- k)) / den.

(** [n] with [10 ^ (n-1) <= num / den < 10 ^ n] *)
Definition magnitude (num den : Z) : Z :=
  let d := dec_len num - dec_len den in
  if 1 <=? scaled_floor num den d then d + 1 else d.

(** Twice the distance from [s * 10 ^ k] up to [num / den], against one
    unit of [10 ^ k]: [Lt] when [num / den] lies in the lower half. *)
Definition half_compare (num den k s : Z) : comparison :=
  let '(a, b) := if 0 <=? k then (num, den * 10 ^ k) else (num * 10 ^ (- k), den) in
  Z.compare (2 * (a - s * b)) b.

(** Number::toString, step 5: the shortest digit string [s] (of [k] digits)
    and exponent [n] with [s * 10 ^ (n - k)] reading back as [x]; among two
    the closer one, then the even one. *)
Fixpoint shortest (x : float) (num den n : Z) (k : Z) (fuel : nat) : Z * Z :=
  let sc := n - k in
  let lo := scaled_floor num den sc in
  let hi := lo + 1 in
  let ok_lo := PrimFloat.eqb (of_decimal lo sc) x in
  let ok_hi := PrimFloat.eqb (of_decimal hi sc) x in
  let pick_hi := match half_compare num den sc lo with
                 | Lt => false | Gt => true | Eq => Z.odd lo end in
  if ok_lo && ok_hi then (if pick_hi then (hi, sc) else (lo, sc))
  else if ok_lo then (lo, sc)
  else if ok_hi then (hi, sc)
  else match fuel with
       | O => (lo, sc)
       | S fuel' => shortest x num den n (k + 1) fuel'
       end.

Fixpoint zeros (n : nat) : string :=
  match n with O => EmptyString | S n' => String "0" (zeros n') end.

Definition strip_zeros (s e : Z) : Z * Z :=
  (fix go (fuel : nat) (s e : Z) : Z * Z :=
     match fuel with
     | O => (s, e)
     | S fuel' => if (s mod 10 =? 0) && negb (s =? 0) then go fuel' (s / 10) (e + 1) else (s, e)
     end) 400%nat s e.

(** Number::toString, steps 6 to 10: the layout of [k] digits at decimal
    exponent [n]. *)
Definition layout (digits : string) (n : Z) : string :=
  let k := Z.of_nat (String.length digits) in
  if (k <=? n) && (n <=? 21) then
    digits +:+ zeros (Z.to_nat (n - k))
  else if (0 <? n) && (n <=? 21) then
    substring 0 (Z.to_nat n) digits +:+ "." +:+
    substring (Z.to_nat n) (Z.to_nat (k - n)) digits
  else if (-6 <? n) && (n <=? 0) then
    "0." +:+ zeros (Z.to_nat (- n)) +:+ digits
  else
    let e := n - 1 in
    let es := (if e <? 0 then "-" else "+") +:+ dec_string (Z.abs e) in
    if k =? 1 then digits +:+ "e" +:+ es
    else substring 0 1 digits +:+ "." +:+ substring 1 (Z.to_nat (k - 1)) digits
         +:+ "e" +:+ es.

(** Number::toString (radix 10). *)
Definition toString (x : float) : string :=
  if is_nan x then "NaN"
  else if is_zero x then "0"
  else if is_infinity x then (if get_sign x then "-Infinity" else "Infinity")
  else match exact_abs x with
       | Some (num, den) =>
           let n := magnitude num den in
           let '(s, sc) := shortest (abs x) num den n 1 17 in
           let '(s', sc') := strip_zeros s sc in
           let digits := dec_string s' in
           (if get_sign x then "-" else "") +:+
           layout digits (sc' + Z.of_nat (String.length digits))
       | None => "NaN"
       end.

(** Number.prototype.toFixed(fractionDigits) for [0 <= fd <= 100]. *)
Definition toFixed (fd : nat) (x : float) : string :=
  if negb (is_finite x) then toString x
  else
    let neg := (x <? 0)%float in
    let ax := abs x in
    if (1e21 <=? ax)%float then (if neg then "-" else "") +:+ toString ax
    else
      let n := match exact_abs ax with
               | Some (num, den) =>
                   (2 * num * 10 ^ Z.of_nat fd + den) / (2 * den)
               | None => 0
               end in
      let m := dec_string n in
      let m := match fd with
               | O => m
               | _ =>
                   let k := String.length m in
                   let m := if (k <=? fd)%nat then zeros (fd + 1 - k) +:+ m else m in
                   let k := String.length m in
                   substring 0 (k - fd) m +:+ "." +:+ substring (k - fd) fd m
               end in
      (if neg then "-" else "") +:+ m.

(** Math.round: the nearest integer, halves towards +Infinity. *)
Definition round (x : float) : float :=
  if negb (is_finite x) || is_zero x then x
  else match Prim2SF x with
       | S754_finite s m e =>
           if 0 <=? e then x
           else
             let den := 2 ^ (- e) in
             let num := if s then Z.neg m else Z.pos m in
             let n := (2 * num + den) / (2 * den) in
             if (n =? 0) && s then neg_zero else of_Z n
       | _ => x
       end.

End JSNumber.

(** ** Strings: character classes, [parseFloat] and the script's [replace] calls *)

Module JSString.

Definition code (c : ascii) : nat := nat_of_ascii c.

Definition is_digit (c : ascii) : bool :=
  (48 <=? code c)%nat && (code c <=? 57)%nat.

Definition digit_val (c : ascii) : Z := Z.of_nat (code c) - 48.

(** LineTerminator and WhiteSpace code units; together they are
    StrWhiteSpaceChar, what [trim] strips and what [\s] matches. *)
Definition is_line_terminator (c : ascii) : bool :=
  (code c =? 10)%nat || (code c =? 13)%nat.

Definition is_white_space (c : ascii) : bool :=
  (code c =? 9)%nat || (code c =? 11)%nat || (code c =? 12)%nat
  || (code c =? 32)%nat || (code c =? 160)%nat.

Definition is_space (c : ascii) : bool :=
  is_white_space c || is_line_terminator c.

Fixpoint skip_space (s : string) : string :=
  match s with
  | String c s' => if is_space c then skip_space s' else s
  | EmptyString => s
  end.

(** The leading decimal digits of [s] and what follows them. *)
Fixpoint span_digits (s : string) : string * string :=
  match s with
  | String c s' =>
      if is_digit c
      then let '(ds, rest) := span_digits s' in (String c ds, rest)
      else (EmptyString, s)
  | EmptyString => (EmptyString, EmptyString)
  end.

Fixpoint digits_value_from (acc : Z) (ds : string) : Z :=
  match ds with
  | String c ds' => digits_value_from (10 * acc + digit_val c) ds'
  | EmptyString => acc
  end.

Definition digits_value (ds : string) : Z := digits_value_from 0 ds.

Definition is_empty (s : string) : bool :=
  match s with EmptyString => true | _ => false end.

(** An optional sign: whether it is [-], and the rest. *)
Definition take_sign (s : string) : bool * string :=
  match s with
  | String c r =>
      if Ascii.eqb c "-" then (true, r)
      else if Ascii.eqb c "+" then (false, r)
      else (false, s)
  | EmptyString => (false, s)
  end.

(** An optional [.] and the digits after it. *)
Definition fraction (s : string) : string * string :=
  match s with
  | String c r => if Ascii.eqb c "." then span_digits r else (EmptyString, s)
  | EmptyString => (EmptyString, s)
  end.

(** ExponentPart: [e] or [E], an optional sign and at least one digit;
    anything less is not part of the literal. *)
Definition exponent_part (s : string) : Z :=
  match s with
  | String c r =>
      if Ascii.eqb c "e" || Ascii.eqb c "E" then
        let '(eneg, r') := take_sign r in
        let '(ed, _) := span_digits r' in
        if is_empty ed then 0
        else if eneg then - digits_value ed else digits_value ed
      else 0
  | EmptyString => 0
  end.

(** The longest prefix of [s] that is a StrUnsignedDecimalLiteral, as a
    Number; [None] when there is none. *)
Definition unsigned_literal (s : string) : option float :=
  if String.prefix "Infinity" s then Some infinity
  else
    let '(ip, r1) := span_digits s in
    let '(fp, r2) := fraction r1 in
    if is_empty ip && is_empty fp then None
    else Some (JSNumber.of_decimal (digits_value (ip +:+ fp))
                 (exponent_part r2 - Z.of_nat (String.length fp))).

(** The global function parseFloat on a string argument. *)
Definition parseFloat (input : string) : float :=
  let '(neg, s) := take_sign (skip_space input) in
  match unsigned_literal s with
  | Some m => if neg then (- m)%float else m
  | None => nan
  end.

(** [s.replace(/c/g, '')] *)
Fixpoint remove_char (c : ascii) (s : string) : string :=
  match s with
  | String a s' => if Ascii.eqb a c then remove_char c s' else String a (remove_char c s')
  | EmptyString => EmptyString
  end.

(** [s.replace(/c{2,}/g, 'c')]: every maximal run of two or more [c]
    becomes one [c]. *)
Fixpoint collapse_runs (c : ascii) (s : string) : string :=
  match s with
  | String a s' =>
      match s' with
      | String b _ =>
          if Ascii.eqb a c && Ascii.eqb b c then collapse_runs c s'
          else String a (collapse_runs c s')
      | EmptyString => s
      end
  | EmptyString => EmptyString
  end.

(** [s.replace(/ab/g, 'r')]: matches are taken left to right and do not
    overlap; the result is not scanned again. *)
Fixpoint replace_pair (a b r : ascii) (s : string) : string :=
  match s with
  | String x s' =>
      match s' with
      | String y s'' =>
          if Ascii.eqb x a && Ascii.eqb y b
          then String r (replace_pair a b r s'')
          else String x (replace_pair a b r s')
      | EmptyString => s
      end
  | EmptyString => EmptyString
  end.

Fixpoint existsb (p : ascii -> bool) (s : string) : bool :=
  match s with
  | String c s' => p c || existsb p s'
  | EmptyString => false
  end.

(** String.prototype.trim *)
Fixpoint trim_end (s : string) : string :=
  match s with
  | String c s' =>
      match trim_end s' with
      | EmptyString => if is_space c then EmptyString else String c EmptyString
      | t => String c t
      end
  | EmptyString => EmptyString
  end.

Definition trim (s : string) : string := trim_end (skip_space s).

Definition tail (s : string) : string :=
  match s with String _ s' => s' | EmptyString => EmptyString end.

End JSString.

(** ** Evaluation of the text handed to [Function]

    [calculateFormula] runs [Function("'use strict'; return (" + text + ")")()]
    on a text it has checked to hold only digits, [+ - * / . ( )] and white
    space.  [JSEval] is the engine's reading of such a text: the lexical
    grammar (numeric literals, punctuators, comments, regular-expression
    literals), the expression grammar (unary and binary operators, grouping,
    call arguments) and the evaluation of the result.  Every error, early or
    at run time, is a throw to the caller.  A text input's value holds no line
    break; a line terminator is read as white space here (no automatic
    semicolon insertion). *)

Module JSEval.
Import JSString.

Inductive error :=
| SyntaxError
| TypeError
| Error (message : string).

Inductive completion (A : Type) :=
| Normal (a : A)
| Throw (e : error).
Arguments Normal {A} a.
Arguments Throw {A} e.

Inductive token :=
| TNum (x : float)
| TRegExp (body : string)
| TPlus | TMinus | TStar | TSlash | TLParen | TRParen.

(** What the lexer is in the middle of. *)
Inductive mode :=
| Start
| InNumber (text : string)
| AfterPlus
| AfterMinus
| AfterSlash
| InBlockComment (star : bool)
| InLineComment
| InRegExp (body : string)
| InFlags (body : string).

(** [operand]: the last token ends an operand, so that a [/] divides
    instead of opening a regular-expression literal. *)
Record lexer := Lexer { toks : list token; operand : bool; md : mode }.

Definition snoc (s : string) (c : ascii) : string := s +:+ String c EmptyString.

Definition emit (l : lexer) (t : token) (is_operand : bool) : lexer :=
  Lexer (toks l ++ [t]) is_operand Start.

(** DecimalLiteral in strict code: [digits], [digits.], [digits.digits] or
    [.digits]; an integer part of several digits must not start with 0. *)
Definition number_token (text : string) : option token :=
  let '(ip, r) := span_digits text in
  let fp := tail r in
  if is_empty ip && is_empty fp then None
  else if (2 <=? String.length ip)%nat && String.prefix "0" ip then None
  else Some (TNum (JSNumber.of_decimal (digits_value (ip +:+ fp))
                     (- Z.of_nat (String.length fp)))).

(** A pattern over the admitted characters is well formed when its
    parentheses match and every [*] or [+] follows an atom. *)
Fixpoint valid_pattern (depth : nat) (atom : bool) (body : string) : bool :=
  match body with
  | EmptyString => (depth =? 0)%nat
  | String c body' =>
      if Ascii.eqb c "(" then valid_pattern (S depth) false body'
      else if Ascii.eqb c ")" then
        match depth with
        | O => false
        | S d => valid_pattern d true body'
        end
      else if Ascii.eqb c "*" || Ascii.eqb c "+" then
        atom && valid_pattern depth false body'
      else valid_pattern depth true body'
  end.

Definition start_step (l : lexer) (c : ascii) : option lexer :=
  if is_space c then Some (Lexer (toks l) (operand l) Start)
  else if is_digit c || Ascii.eqb c "." then
    Some (Lexer (toks l) (operand l) (InNumber (String c EmptyString)))
  else if Ascii.eqb c "+" then Some (Lexer (toks l) (operand l) AfterPlus)
  else if Ascii.eqb c "-" then Some (Lexer (toks l) (operand l) AfterMinus)
  else if Ascii.eqb c "/" then Some (Lexer (toks l) (operand l) AfterSlash)
  else if Ascii.eqb c "*" then Some (emit l TStar false)
  else if Ascii.eqb c "(" then Some (emit l TLParen false)
  else if Ascii.eqb c ")" then Some (emit l TRParen true)
  else None.

Definition step (l : lexer) (c : ascii) : option lexer :=
  match md l with
  | Start => start_step l c
  | InNumber text =>
      if is_digit c || (Ascii.eqb c "." && negb (existsb (Ascii.eqb ".") text))
      then Some (Lexer (toks l) (operand l) (InNumber (snoc text c)))
      else match number_token text with
           | Some t => start_step (emit l t true) c
           | None => None
           end
  | AfterPlus =>
      (* [++] is the update operator: no operand here is a reference *)
      if Ascii.eqb c "+" then None else start_step (emit l TPlus false) c
  | AfterMinus =>
      if Ascii.eqb c "-" then None else start_step (emit l TMinus false) c
  | AfterSlash =>
      if Ascii.eqb c "*" then Some (Lexer (toks l) (operand l) (InBlockComment false))
      else if Ascii.eqb c "/" then Some (Lexer (toks l) (operand l) InLineComment)
      else if operand l then start_step (emit l TSlash false) c
      else if is_line_terminator c then None
      else Some (Lexer (toks l) (operand l) (InRegExp (String c EmptyString)))
  | InBlockComment star =>
      if star && Ascii.eqb c "/" then Some (Lexer (toks l) (operand l) Start)
      else Some (Lexer (toks l) (operand l) (InBlockComment (Ascii.eqb c "*")))
  | InLineComment =>
      Some (Lexer (toks l) (operand l)
              (if is_line_terminator c then Start else InLineComment))
  | InRegExp body =>
      if Ascii.eqb c "/" then Some (Lexer (toks l) (operand l) (InFlags body))
      else if is_line_terminator c then None
      else Some (Lexer (toks l) (operand l) (InRegExp (snoc body c)))
  | InFlags body =>
      (* a digit is an IdentifierPart, hence a flag, and no flag is a digit *)
      if is_digit c || negb (valid_pattern 0 false body) then None
      else start_step (emit l (TRegExp body) true) c
  end.

Fixpoint steps (l : lexer) (s : string) : option lexer :=
  match s with
  | EmptyString => Some l
  | String c s' =>
      match step l c with
      | Some l' => steps l' s'
      | None => None
      end
  end.

(** End of the source text. *)
Definition finish (l : lexer) : option (list token) :=
  match md l with
  | Start | InLineComment => Some (toks l)
  | InNumber text => option_map (fun t => toks l ++ [t]) (number_token text)
  | AfterPlus => Some (toks l ++ [TPlus])
  | AfterMinus => Some (toks l ++ [TMinus])
  | AfterSlash => if operand l then Some (toks l ++ [TSlash]) else None
  | InBlockComment _ | InRegExp _ => None
  | InFlags body =>
      if valid_pattern 0 false body then Some (toks l ++ [TRegExp body]) else None
  end.

Definition tokenize (s : string) : option (list token) :=
  match steps (Lexer [] false Start) s with
  | Some l => finish l
  | None => None
  end.

Inductive binop := Add | Sub | Mul | Div.

Inductive expr :=
| ENum (x : float)
| ERegExp (body : string)
| EUnary (negate : bool) (e : expr)
| EBin (op : binop) (e1 e2 : expr)
| ECall0 (f : expr)
| ECall1 (f arg : expr).

(** AdditiveExpression, MultiplicativeExpression, UnaryExpression and
    CallExpression of the ECMAScript grammar, over the tokens above.  Each
    call spends one unit of [fuel]; [parse] gives enough. *)
Fixpoint additive (fuel : nat) (ts : list token) : option (expr * list token) :=
  match fuel with
  | O => None
  | S fuel =>
      match multiplicative fuel ts with
      | Some (e, ts') => additive_rest fuel e ts'
      | None => None
      end
  end
with additive_rest (fuel : nat) (lhs : expr) (ts : list token) : option (expr * list token) :=
  match fuel with
  | O => None
  | S fuel =>
      match ts with
      | TPlus :: ts' =>
          match multiplicative fuel ts' with
          | Some (e, ts'') => additive_rest fuel (EBin Add lhs e) ts''
          | None => None
          end
      | TMinus :: ts' =>
          match multiplicative fuel ts' with
          | Some (e, ts'') => additive_rest fuel (EBin Sub lhs e) ts''
          | None => None
          end
      | _ => Some (lhs, ts)
      end
  end
with multiplicative (fuel : nat) (ts : list token) : option (expr * list token) :=
  match fuel with
  | O => None
  | S fuel =>
      match unary fuel ts with
      | Some (e, ts') => multiplicative_rest fuel e ts'
      | None => None
      end
  end
with multiplicative_rest (fuel : nat) (lhs : expr) (ts : list token) : option (expr * list token) :=
  match fuel with
  | O => None
  | S fuel =>
      match ts with
      | TStar :: ts' =>
          match unary fuel ts' with
          | Some (e, ts'') => multiplicative_rest fuel (EBin Mul lhs e) ts''
          | None => None
          end
      | TSlash :: ts' =>
          match unary fuel ts' with
          | Some (e, ts'') => multiplicative_rest fuel (EBin Div lhs e) ts''
          | None => None
          end
      | _ => Some (lhs, ts)
      end
  end
with unary (fuel : nat) (ts : list token) : option (expr * list token) :=
  match fuel with
  | O => None
  | S fuel =>
      match ts with
      | TPlus :: ts' =>
          match unary fuel ts' with
          | Some (e, ts'') => Some (EUnary false e, ts'')
          | None => None
          end
      | TMinus :: ts' =>
          match unary fuel ts' with
          | Some (e, ts'') => Some (EUnary true e, ts'')
          | None => None
          end
      | TNum x :: ts' => calls fuel (ENum x) ts'
      | TRegExp b :: ts' => calls fuel (ERegExp b) ts'
      | TLParen :: ts' =>
          match additive fuel ts' with
          | Some (e, TRParen :: ts'') => calls fuel e ts''
          | _ => None
          end
      | _ => None
      end
  end
with calls (fuel : nat) (f : expr) (ts : list token) : option (expr * list token) :=
  match fuel with
  | O => None
  | S fuel =>
      match ts with
      | TLParen :: TRParen :: ts' => calls fuel (ECall0 f) ts'
      | TLParen :: ts' =>
          match additive fuel ts' with
          | Some (a, TRParen :: ts'') => calls fuel (ECall1 f a) ts''
          | _ => None
          end
      | _ => Some (f, ts)
      end
  end.

Definition parse (ts : list token) : option expr :=
  match additive (4 * List.length ts + 4) ts with
  | Some (e, []) => Some e
  | _ => None
  end.

Inductive value :=
| VNum (x : float)
| VStr (s : string)
| VRegExp (body : string).

Definition ToString (v : value) : string :=
  match v with
  | VNum x => JSNumber.toString x
  | VStr s => s
  | VRegExp body => "/" +:+ body +:+ "/"
  end.

(** A string value arises only by concatenation with the source text of a
    regular expression; it holds a [/] and is no numeric literal. *)
Definition ToNumber (v : value) : float :=
  match v with
  | VNum x => x
  | VStr _ | VRegExp _ => nan
  end.

Definition apply_binop (op : binop) (a b : value) : value :=
  match op with
  | Add =>
      match a, b with
      | VNum x, VNum y => VNum (x + y)%float
      | _, _ => VStr (ToString a +:+ ToString b)
      end
  | Sub => VNum (ToNumber a - ToNumber b)%float
  | Mul => VNum (ToNumber a * ToNumber b)%float
  | Div => VNum (ToNumber a / ToNumber b)%float
  end.

Fixpoint eval (e : expr) : completion value :=
  match e with
  | ENum x => Normal (VNum x)
  | ERegExp body => Normal (VRegExp body)
  | EUnary negate e1 =>
      match eval e1 with
      | Normal v => Normal (VNum (if negate then - ToNumber v else ToNumber v)%float)
      | Throw err => Throw err
      end
  | EBin op e1 e2 =>
      match eval e1 with
      | Normal a =>
          match eval e2 with
          | Normal b => Normal (apply_binop op a b)
          | Throw err => Throw err
          end
      | Throw err => Throw err
      end
  | ECall0 f =>
      match eval f with
      | Normal _ => Throw TypeError   (* the callee is no function *)
      | Throw err => Throw err
      end
  | ECall1 f arg =>
      match eval f with
      | Normal _ =>
          match eval arg with
          | Normal _ => Throw TypeError
          | Throw err => Throw err
          end
      | Throw err => Throw err
      end
  end.

(** [Function("'use strict'; return (" + text + ")")()] *)
Definition run (text : string) : completion value :=
  match tokenize ("(" +:+ text +:+ ")") with
  | Some ts =>
      match parse ts with
      | Some e => eval e
      | None => Throw SyntaxError
      end
  | None => Throw SyntaxError
  end.

End JSEval.

(** ** Values stored in expense records *)

(** A field of an expense record as the server's JSON or a cell edit leaves
    it: absent, [null], a number or a string. *)
Inductive jsval :=
| JUndefined
| JNull
| JNum (x : float)
| JStr (s : string).

Definition truthy_number (x : float) : bool := negb (is_zero x || is_nan x).

Definition truthy (v : jsval) : bool :=
  match v with
  | JUndefined | JNull => false
  | JNum x => truthy_number x
  | JStr s => negb (JSString.is_empty s)
  end.

Definition ToString (v : jsval) : string :=
  match v with
  | JUndefined => "undefined"
  | JNull => "null"
  | JNum x => JSNumber.toString x
  | JStr s => s
  end.

(** [parseFloat(v)]: the argument is converted to a string first. *)
Definition parseFloat (v : jsval) : float := JSString.parseFloat (ToString v).

(** [v || 0] *)
Definition or_zero (v : jsval) : jsval := if truthy v then v else JNum 0.

(** [x || 0] on a Number *)
Definition number_or_zero (x : float) : float := if truthy_number x then x else 0%float.

(** One unit's expense object: category name to value, and
    [<category>_formula] to the formula text behind it. *)
Abbreviation expense := (gmap string jsval).

(** [expense.key], [undefined] when absent *)
Definition field (e : expense) (key : string) : jsval := default JUndefined (e !! key).

Definition formula_key (column : string) : string := column +:+ "_formula".

(** ** The formula evaluator (class [ExpensesManager]) *)

Definition allowed_char (c : ascii) : bool :=
  JSString.is_digit c
  || Ascii.eqb c "+" || Ascii.eqb c "-" || Ascii.eqb c "*" || Ascii.eqb c "/"
  || Ascii.eqb c "." || Ascii.eqb c "(" || Ascii.eqb c ")"
  || JSString.is_space c.

(** The two [replace] chains of [calculateFormula], in the order written. *)
Definition cleanExpression (expression : string) : string :=
  let cleaned :=
    JSString.collapse_runs "/"
      (JSString.collapse_runs "*"
         (JSString.collapse_runs "-"
            (JSString.collapse_runs "+" expression))) in
  JSString.replace_pair "-" "-" "+"
    (JSString.replace_pair "-" "+" "-"
       (JSString.replace_pair "+" "-" "-" cleaned)).

Definition calculateFormula (expression : string) : JSEval.completion string :=
  if JSString.is_empty expression then JSEval.Normal EmptyString
  else
    let clean := cleanExpression expression in
    if JSString.existsb (fun c => negb (allowed_char c)) clean
    then JSEval.Throw (JSEval.Error "Invalid characters in expression")
    else
      match JSEval.run clean with
      | JSEval.Normal result =>
          JSEval.Normal
            (JSNumber.toFixed 2 (JSString.parseFloat (JSEval.ToString result)))
      | JSEval.Throw e => JSEval.Throw e
      end.

(** ** Net earnings of one unit *)

Definition getValue (value : jsval) : float :=
  if negb (truthy value) then 0%float
  else
    let num := JSString.parseFloat (JSString.remove_char "," (ToString value)) in
    if is_nan num then 0%float else num.

Definition calculateNetEarn (e : expense) : string :=
  let sales := getValue (field e "sales") in
  let rental := getValue (field e "rental") in
  let electricity := getValue (field e "electricity") in
  let water := getValue (field e "water") in
  let sewage := getValue (field e "sewage") in
  let internet := getValue (field e "internet") in
  let cleaner := getValue (field e "cleaner") in
  let laundry := getValue (field e "laundry") in
  let supplies := getValue (field e "supplies") in
  let repair := getValue (field e "repair") in
  let replace := getValue (field e "replace") in
  let other := getValue (field e "other") in
  let netEarn := (sales - rental - electricity - water - sewage -
                  internet - cleaner - laundry - supplies -
                  repair - replace - other)%float in
  JSNumber.toFixed 2 netEarn.

(** ** An editable cell and its listeners ([renderExpensesTable]) *)

(** The [<input>] of one cell: its text, its [data-formula] and
    [data-display-value] attributes and its class list. *)
Record input_element := InputElement {
  value : string;
  dataset_formula : option string;
  dataset_displayValue : option string;
  classList : list string
}.

(** The [net-earn-<unitId>] cell of a row. *)
Record net_earn_cell := NetEarnCell {
  textContent : string;
  net_classList : list string
}.

(** A pending [setTimeout]: after [delay] milliseconds remove class
    [remove_class] from the cell's input. *)
Record timer := Timer { delay : nat; remove_class : string }.

(** What the listeners of one cell read and write: the manager's
    [currentExpenses], the cell's input, the net-earn cells by unit, and the
    timers set so far. *)
Record page := Page {
  currentExpenses : gmap Z expense;
  target : input_element;
  net_earn_cells : gmap Z net_earn_cell;
  timers : list timer
}.

Definition class_add (c : string) (l : list string) : list string :=
  if existsb (String.eqb c) l then l else l ++ [c].

Definition class_remove (c : string) (l : list string) : list string :=
  List.filter (fun x => negb (String.eqb c x)) l.

Definition set_target (p : page) (t : input_element) : page :=
  Page (currentExpenses p) t (net_earn_cells p) (timers p).

Definition set_expenses (p : page) (m : gmap Z expense) : page :=
  Page m (target p) (net_earn_cells p) (timers p).

(** [this.currentExpenses[unitId]], created empty when missing, then
    [this.currentExpenses[unitId][key] = v] *)
Definition store (unitId : Z) (key : string) (v : jsval) (m : gmap Z expense)
  : gmap Z expense :=
  <[unitId := <[key := v]> (default ∅ (m !! unitId))]> m.

Definition updateNetEarn (unitId : Z) (p : page) : page :=
  let e := default ∅ (currentExpenses p !! unitId) in
  let netEarn := calculateNetEarn e in
  match net_earn_cells p !! unitId with
  | Some cell =>
      let classes := class_remove "negative" (class_remove "positive" (net_classList cell)) in
      let classes :=
        if (JSString.parseFloat netEarn <? 0)%float
        then class_add "negative" classes
        else class_add "positive" classes in
      Page (currentExpenses p) (target p)
           (<[unitId := NetEarnCell netEarn classes]> (net_earn_cells p)) (timers p)
  | None => p
  end.

(** The [input] listener: the typed text goes into the record as it is. *)
Definition on_input (unitId : Z) (column : string) (p : page) : page :=
  updateNetEarn unitId
    (set_expenses p (store unitId column (JStr (value (target p))) (currentExpenses p))).

(** A [dataset] entry is a string; it is truthy when present and not empty. *)
Definition dataset_truthy (d : option string) : bool :=
  match d with
  | Some s => negb (JSString.is_empty s)
  | None => false
  end.

(** The [focus] listener: a cell with a formula shows the formula. *)
Definition on_focus (p : page) : page :=
  let t := target p in
  match dataset_formula t with
  | Some f =>
      if JSString.is_empty f then p
      else set_target p (InputElement f (dataset_formula t) (Some (value t)) (classList t))
  | None => p
  end.

(** Both [catch] blocks: the error class, and a timer that takes it off. *)
Definition calculation_error (p : page) : page :=
  let t := target p in
  Page (currentExpenses p)
       (InputElement (value t) (dataset_formula t) (dataset_displayValue t)
          (class_add "calculation-error" (classList t)))
       (net_earn_cells p)
       (timers p ++ [Timer 2000 "calculation-error"]).

(** The callback of a timer, when it runs. *)
Definition run_timer (tm : timer) (p : page) : page :=
  let t := target p in
  set_target p
    (InputElement (value t) (dataset_formula t) (dataset_displayValue t)
       (class_remove (remove_class tm) (classList t))).

Definition is_operator_char (c : ascii) : bool :=
  Ascii.eqb c "-" || Ascii.eqb c "+" || Ascii.eqb c "*" || Ascii.eqb c "/"
  || Ascii.eqb c "(" || Ascii.eqb c ")".

(** The [blur] listener of the cell of [column] in the row of [unitId]. *)
Definition on_blur (unitId : Z) (column : string) (p : page) : page :=
  let t := target p in
  let v := JSString.trim (value t) in
  if negb (JSString.is_empty v) && String.prefix "=" v then
    (* the formula is stored on the element before it is calculated *)
    let t1 := InputElement (value t) (Some v) (dataset_displayValue t) (classList t) in
    let p1 := set_target p t1 in
    let formulaExpression := JSString.tail v in
    match calculateFormula (JSString.remove_char "," formulaExpression) with
    | JSEval.Normal result =>
        let t2 := InputElement result (Some v) (dataset_displayValue t) (classList t) in
        let m := store unitId (formula_key column) (JStr v)
                   (store unitId column (JStr result) (currentExpenses p)) in
        updateNetEarn unitId (set_expenses (set_target p1 t2) m)
    | JSEval.Throw _ => calculation_error p1
    end
  else if negb (JSString.is_empty v) && JSString.existsb is_operator_char v then
    let t1 := if dataset_truthy (dataset_formula t)
              then InputElement (value t) None (dataset_displayValue t) (classList t)
              else t in
    let p1 := set_target p t1 in
    match calculateFormula (JSString.remove_char "," v) with
    | JSEval.Normal result =>
        let t2 := InputElement result (dataset_formula t1) (dataset_displayValue t1)
                    (classList t1) in
        let m := store unitId column (JStr result) (currentExpenses p) in
        let e := default ∅ (m !! unitId) in
        let m := if truthy (field e (formula_key column))
                 then <[unitId := delete (formula_key column) e]> m
                 else m in
        updateNetEarn unitId (set_expenses (set_target p1 t2) m)
    | JSEval.Throw _ => calculation_error p1
    end
  else p.

(** ** The analysis views *)

Record unit := Unit { id : Z; unit_number : string; building : string }.

(** The payload of [GET /api/expenses]: the units and, by unit id, the
    expense record of the month. *)
Record api_data := ApiData { units : list unit; expenses : gmap Z expense }.

(** The value of the unit selector: ['all'] or one unit's id. *)
Inductive unit_selection :=
| AllUnits
| OneUnit (unitId : Z).

Definition filter_units (selected : unit_selection) (us : list unit) : list unit :=
  match selected with
  | AllUnits => us
  | OneUnit unitId => List.filter (fun u => id u =? unitId) us
  end.

(** [expenses[unit.id] || {}] *)
Definition unit_expenses (data : api_data) (u : unit) : expense :=
  default ∅ (expenses data !! id u).

Definition calculatePercentChange (oldValue newValue : float) : float :=
  if (oldValue =? 0)%float then
    (if (0 <? newValue)%float then 100 else 0)%float
  else (((newValue - oldValue) / oldValue) * 100)%float.

(** [list.sort(compare)]: the sort is stable, and [compare a b > 0] asks for
    [a] after [b]; a NaN counts as 0. *)
Fixpoint sort_insert {A : Type} (compare : A -> A -> float) (a : A) (l : list A) : list A :=
  match l with
  | [] => [a]
  | b :: l' =>
      if (0 <? compare a b)%float then b :: sort_insert compare a l' else a :: l
  end.

Definition sort {A : Type} (compare : A -> A -> float) (l : list A) : list A :=
  fold_right (sort_insert compare) [] l.

(** *** Expense breakdown ([processExpenseData]) *)

Record category := Category {
  name : string;
  amount : float;
  percentage : option float
}.

Definition initial_categories : list category :=
  map (fun n => Category n 0%float None)
    ["Rental"; "Electricity"; "Water"; "Sewage"; "Internet"; "Cleaner";
     "Laundry"; "Supplies"; "Repair"; "Replace"; "Other"]%string.

(** [categories.find(c => c.name === n).amount += x] *)
Fixpoint add_amount (n : string) (x : float) (categories : list category) : list category :=
  match categories with
  | [] => []
  | c :: rest =>
      if String.eqb (name c) n
      then Category (name c) (amount c + x)%float (percentage c) :: rest
      else c :: add_amount n x rest
  end.

(** [if (v) categories.find(...).amount += parseFloat(v) || 0] *)
Definition add_expense (n : string) (v : jsval) (categories : list category) : list category :=
  if truthy v then add_amount n (number_or_zero (parseFloat v)) categories
  else categories.

(** The body of the loop over the filtered units. *)
Definition add_unit (unitExpenses : expense) (categories : list category) : list category :=
  add_expense "Other" (field unitExpenses "other")
    (add_expense "Replace" (field unitExpenses "replace")
       (add_expense "Repair" (field unitExpenses "repair")
          (add_expense "Supplies" (field unitExpenses "supplies")
             (add_expense "Laundry" (field unitExpenses "laundry")
                (add_expense "Cleaner" (field unitExpenses "cleaner")
                   (add_expense "Internet" (field unitExpenses "internet")
                      (add_expense "Sewage" (field unitExpenses "sewage")
                         (add_expense "Water" (field unitExpenses "water")
                            (add_expense "Electricity" (field unitExpenses "electricity")
                               (add_expense "Rental" (field unitExpenses "rental")
                                  categories)))))))))).

(** What [topExpense] holds: a category, or [{ name: 'None', percentage: 0 }]. *)
Record top_expense := TopExpense {
  top_name : string;
  top_amount : option float;
  top_percentage : option float
}.

Record expense_data := ExpenseData {
  total : float;
  categories : list category;
  topExpense : top_expense;
  avgPerUnit : float;
  unitCount : nat
}.

Definition category_totals (data : api_data) (filteredUnits : list unit) : list category :=
  fold_left (fun cats u => add_unit (unit_expenses data u) cats)
    filteredUnits initial_categories.

Definition by_amount_desc (a b : category) : float := (amount b - amount a)%float.

Definition processExpenseData (apiData : api_data) (unitId : unit_selection) : expense_data :=
  let filteredUnits := filter_units unitId (units apiData) in
  let categories := category_totals apiData filteredUnits in
  let nonZeroCategories := List.filter (fun cat => (0 <? amount cat)%float) categories in
  let total := fold_left (fun sum c => (sum + amount c)%float) nonZeroCategories 0%float in
  let nonZeroCategories :=
    map (fun c => Category (name c) (amount c)
                    (Some (JSNumber.round ((amount c / total) * 100)%float)))
      nonZeroCategories in
  let nonZeroCategories := sort by_amount_desc nonZeroCategories in
  let topExpense :=
    match nonZeroCategories with
    | c :: _ => TopExpense (name c) (Some (amount c)) (percentage c)
    | [] => TopExpense "None" None (Some 0%float)
    end in
  let unitCount := List.length filteredUnits in
  let avgPerUnit :=
    if (0 <? unitCount)%nat
    then JSNumber.round (total / JSNumber.of_Z (Z.of_nat unitCount))%float
    else 0%float in
  ExpenseData total nonZeroCategories topExpense avgPerUnit unitCount.

(** *** Top units by expense ([calculateTopExpenseUnits]) *)

Record unit_total := UnitTotal {
  ut_id : Z;
  ut_unit_number : string;
  total_expense : float
}.

(** [parseFloat(unitData.key || 0)] *)
Definition amount_of (unitData : expense) (key : string) : float :=
  parseFloat (or_zero (field unitData key)).

Definition unit_total_expense (unitData : expense) : float :=
  (amount_of unitData "rental" +
   amount_of unitData "electricity" +
   amount_of unitData "water" +
   amount_of unitData "sewage" +
   amount_of unitData "internet" +
   amount_of unitData "cleaner" +
   amount_of unitData "laundry" +
   amount_of unitData "supplies" +
   amount_of unitData "repair" +
   amount_of unitData "replace" +
   amount_of unitData "other")%float.

Definition by_total_desc (a b : unit_total) : float :=
  (total_expense b - total_expense a)%float.

Definition calculateTopExpenseUnits (data : api_data) : list unit_total :=
  let unitExpenses :=
    map (fun u => UnitTotal (id u) (unit_number u)
                    (unit_total_expense (unit_expenses data u)))
      (units data) in
  let nonZeroUnits := List.filter (fun u => (0 <? total_expense u)%float) unitExpenses in
  let nonZeroUnits := sort by_total_desc nonZeroUnits in
  firstn 10 nonZeroUnits.

(** *** Profit and loss ([updatePnLStatement]) *)

(** The twelve running totals of the current month. *)
Record pl_totals := PlTotals {
  totalSales : float; totalRental : float; totalElectricity : float;
  totalWater : float; totalSewage : float; totalInternet : float;
  totalCleaner : float; totalLaundry : float; totalSupplies : float;
  totalRepair : float; totalReplace : float; totalOther : float
}.

Definition pl_add_unit (t : pl_totals) (unitExpenses : expense) : pl_totals :=
  PlTotals
    (totalSales t + amount_of unitExpenses "sales")
    (totalRental t + amount_of unitExpenses "rental")
    (totalElectricity t + amount_of unitExpenses "electricity")
    (totalWater t + amount_of unitExpenses "water")
    (totalSewage t + amount_of unitExpenses "sewage")
    (totalInternet t + amount_of unitExpenses "internet")
    (totalCleaner t + amount_of unitExpenses "cleaner")
    (totalLaundry t + amount_of unitExpenses "laundry")
    (totalSupplies t + amount_of unitExpenses "supplies")
    (totalRepair t + amount_of unitExpenses "repair")
    (totalReplace t + amount_of unitExpenses "replace")
    (totalOther t + amount_of unitExpenses "other").

(** The two running totals of the previous month. *)
Definition prev_add_unit (t : float * float) (unitExpenses : expense) : float * float :=
  let '(prevTotalSales, prevTotalExpenses) := t in
  ((prevTotalSales + amount_of unitExpenses "sales")%float,
   (prevTotalExpenses
    + amount_of unitExpenses "rental"
    + amount_of unitExpenses "electricity"
    + amount_of unitExpenses "water"
    + amount_of unitExpenses "sewage"
    + amount_of unitExpenses "internet"
    + amount_of unitExpenses "cleaner"
    + amount_of unitExpenses "laundry"
    + amount_of unitExpenses "supplies"
    + amount_of unitExpenses "repair"
    + amount_of unitExpenses "replace"
    + amount_of unitExpenses "other")%float).

(** What the statement shows: the three figures of the month, of the
    previous month, and the three changes. *)
Record pl_statement := PlStatement {
  totalRevenue : float;
  totalExpenses : float;
  netIncome : float;
  prevTotalSales : float;
  prevTotalExpenses : float;
  prevNetIncome : float;
  revenueChange : float;
  expensesChange : float;
  incomeChange : float
}.

Definition updatePnLStatement (selectedUnit : unit_selection)
    (currentData prevData : api_data) : pl_statement :=
  let filteredUnits := filter_units selectedUnit (units currentData) in
  let t := fold_left (fun t u => pl_add_unit t (unit_expenses currentData u))
             filteredUnits
             (PlTotals 0 0 0 0 0 0 0 0 0 0 0 0) in
  let totalRevenue := totalSales t in
  let totalExpenses :=
    (totalRental t + totalElectricity t + totalWater t + totalSewage t +
     totalInternet t + totalCleaner t + totalLaundry t + totalSupplies t +
     totalRepair t + totalReplace t + totalOther t)%float in
  let netIncome := (totalRevenue - totalExpenses)%float in
  let filteredPrevUnits := filter_units selectedUnit (units prevData) in
  let '(prevTotalSales, prevTotalExpenses) :=
    fold_left (fun t u => prev_add_unit t (unit_expenses prevData u))
      filteredPrevUnits (0%float, 0%float) in
  let prevNetIncome := (prevTotalSales - prevTotalExpenses)%float in
  let revenueChange :=
    if (prevTotalSales =? 0)%float then 0%float
    else (((totalRevenue - prevTotalSales) / prevTotalSales) * 100)%float in
  let expensesChange :=
    if (prevTotalExpenses =? 0)%float then 0%float
    else (((totalExpenses - prevTotalExpenses) / prevTotalExpenses) * 100)%float in
  let incomeChange :=
    if (prevNetIncome =? 0)%float then 0%float
    else (((netIncome - prevNetIncome) / prevNetIncome) * 100)%float in
  PlStatement totalRevenue totalExpenses netIncome
    prevTotalSales prevTotalExpenses prevNetIncome
    revenueChange expensesChange incomeChange.

(** *** Return on investment ([updateROIAnalysis]) *)

Record roi_row := RoiRow {
  row_unit_number : string;
  netProfit : float;
  rental : float;
  roi : float;
  performance : string
}.

(** The chain of [if]s that names the performance of a percentage. *)
Definition performance_of (roi : float) : string :=
  if (50 <=? roi)%float then "Excellent"
  else if (20 <=? roi)%float then "Good"
  else if (5 <=? roi)%float then "Average"
  else "Poor".

Definition roi_of_unit (u : unit) (unitExpense : expense) : roi_row :=
  let sales := amount_of unitExpense "sales" in
  let rental := amount_of unitExpense "rental" in
  let otherExpenses :=
    (amount_of unitExpense "electricity" +
     amount_of unitExpense "water" +
     amount_of unitExpense "sewage" +
     amount_of unitExpense "internet" +
     amount_of unitExpense "cleaner" +
     amount_of unitExpense "laundry" +
     amount_of unitExpense "supplies" +
     amount_of unitExpense "repair" +
     amount_of unitExpense "replace" +
     amount_of unitExpense "other")%float in
  let netProfit := (sales - rental - otherExpenses)%float in
  let roi := if (0 <? rental)%float then ((netProfit / rental) * 100)%float else 0%float in
  RoiRow (unit_number u) netProfit rental roi (performance_of roi).

(** The table body and the "All Units" footer. *)
Record roi_analysis := RoiAnalysis {
  rows : list roi_row;
  totalNetProfit : float;
  roi_totalRental : float;
  totalRoi : float;
  totalPerformance : string
}.

Definition updateROIAnalysis (selectedUnit : unit_selection) (data : api_data)
  : roi_analysis :=
  let filteredUnits := filter_units selectedUnit (units data) in
  let rows := map (fun u => roi_of_unit u (unit_expenses data u)) filteredUnits in
  let totalNetProfit := fold_left (fun acc r => (acc + netProfit r)%float) rows 0%float in
  let totalRental := fold_left (fun acc r => (acc + rental r)%float) rows 0%float in
  let totalRoi :=
    if (0 <? totalRental)%float then ((totalNetProfit / totalRental) * 100)%float
    else 0%float in
  RoiAnalysis rows totalNetProfit totalRental totalRoi (performance_of totalRoi).

(** ** The expense table ([renderExpensesTable], [filterUnits], [exportToCsv]) *)

(** The columns of the table, in the order of the row. *)
Definition expenseColumns : list string :=
  ["sales"; "rental"; "electricity"; "water"; "sewage"; "internet"; "cleaner";
   "laundry"; "supplies"; "repair"; "replace"; "other"]%string.

(** The record with every column [''], which stands in for a unit that has
    no record. *)
Definition blank_expense : expense :=
  list_to_map (map (fun column => (column, JStr "")) expenseColumns).

(** The classes of a net-earn cell once [updateNetEarn] has shown a
    result: [remove('positive', 'negative')], then [add] of the one that
    applies. *)
Definition net_earn_classes (negative : bool) (l : list string) : list string :=
  let l := class_remove "negative" (class_remove "positive" l) in
  if negative then class_add "negative" l else class_add "positive" l.

Definition nl : string := String (ascii_of_nat 10) EmptyString.

Definition dquote : string := String (ascii_of_nat 34) EmptyString.

(** [v || ''] *)
Definition or_empty (v : jsval) : jsval := if truthy v then v else JStr "".

(** A [<tr>] of the table: its [data-unit-id] and [data-building], the text
    of the unit cell, the input of each column, the net-earn cell and
    [style.display]. *)
Record table_row := TableRow {
  row_unitId : Z;
  row_building : string;
  unit_column : string;
  row_inputs : list (string * input_element);
  row_net_earn : net_earn_cell;
  display : string
}.

(** The [save-message] element. *)
Record save_message := SaveMessage {
  message_text : string;
  message_classList : list string
}.

(** The state of an [ExpensesManager]: [currentUnits], [currentExpenses],
    the values of the month and building filters, the rows of
    [expensesData], [loadingOverlay.style.display], the save message and the
    timers set on it. *)
Record manager := Manager {
  currentUnits : list unit;
  manager_expenses : gmap Z expense;
  monthFilter : string;
  buildingFilter : string;
  expensesData : list table_row;
  loadingOverlay : string;
  saveMessage : save_message;
  message_timers : list timer
}.

Definition set_rows (rows : list table_row) (m : manager) : manager :=
  Manager (currentUnits m) (manager_expenses m) (monthFilter m) (buildingFilter m)
    rows (loadingOverlay m) (saveMessage m) (message_timers m).

Definition set_data (us : list unit) (es : gmap Z expense) (m : manager) : manager :=
  Manager us es (monthFilter m) (buildingFilter m)
    (expensesData m) (loadingOverlay m) (saveMessage m) (message_timers m).

Definition showLoading (show : bool) (m : manager) : manager :=
  Manager (currentUnits m) (manager_expenses m) (monthFilter m) (buildingFilter m)
    (expensesData m) (if show then "flex" else "none") (saveMessage m) (message_timers m).

Definition showSaveMessage (message : string) (isError : bool) (m : manager) : manager :=
  let classes := message_classList (saveMessage m) in
  let classes := if isError then class_add "error" classes else class_remove "error" classes in
  Manager (currentUnits m) (manager_expenses m) (monthFilter m) (buildingFilter m)
    (expensesData m) (loadingOverlay m)
    (SaveMessage message (class_add "show" classes))
    (message_timers m ++ [Timer 3000 "show"]).

(** The input of [column] in the row of a unit whose stored record is
    [stored]: its value, and the formula when the record has one. *)
Definition render_input (stored : option expense) (column : string) : input_element :=
  let unitExpense := default blank_expense stored in
  InputElement
    (ToString (or_empty (field unitExpense column)))
    (match stored with
     | Some e =>
         let formula := field e (formula_key column) in
         if truthy formula then Some (ToString formula) else None
     | None => None
     end)
    None [].

Definition render_row (es : gmap Z expense) (u : unit) : table_row :=
  let stored := es !! id u in
  let netEarn := calculateNetEarn (default blank_expense stored) in
  TableRow (id u) (building u) (unit_number u)
    (map (fun column => (column, render_input stored column)) expenseColumns)
    (NetEarnCell netEarn
       (class_add (if (JSString.parseFloat netEarn <? 0)%float then "negative" else "positive")
          ["net-earn"%string]))
    "".

Definition renderExpensesTable (m : manager) : manager :=
  set_rows (map (render_row (manager_expenses m)) (currentUnits m)) m.

Definition filterUnits (m : manager) : manager :=
  let building := buildingFilter m in
  set_rows
    (map (fun row =>
            TableRow (row_unitId row) (row_building row) (unit_column row)
              (row_inputs row) (row_net_earn row)
              (if String.eqb building "all" || String.eqb (row_building row) building
               then "" else "none"))
       (expensesData m)) m.

(** [updateNetEarn] on the table: the cell [net-earn-<unitId>] is the one of
    the first row of that unit. *)
Fixpoint show_net_earn (unitId : Z) (netEarn : string) (rows : list table_row)
  : list table_row :=
  match rows with
  | [] => []
  | row :: rest =>
      if row_unitId row =? unitId then
        TableRow (row_unitId row) (row_building row) (unit_column row) (row_inputs row)
          (NetEarnCell netEarn
             (net_earn_classes (JSString.parseFloat netEarn <? 0)%float
                (net_classList (row_net_earn row))))
          (display row) :: rest
      else row :: show_net_earn unitId netEarn rest
  end.

Definition manager_updateNetEarn (unitId : Z) (m : manager) : manager :=
  let netEarn := calculateNetEarn (default ∅ (manager_expenses m !! unitId)) in
  set_rows (show_net_earn unitId netEarn (expensesData m)) m.

(** [Array.prototype.join] *)
Fixpoint join (separator : string) (l : list string) : string :=
  match l with
  | [] => ""
  | [a] => a
  | a :: rest => a +:+ separator +:+ join separator rest
  end.

Definition csv_header : string :=
  "Unit,Sales,Rental,Electricity,Water,Sewage,Internet,Cleaner,Laundry,Supplies,Repair,Replace,Other,Net Earn"
  +:+ nl.

(** The values of a line: the unit, the twelve columns of its record, the
    net earnings. *)
Definition csv_values (unitName : string) (e : expense) : list string :=
  unitName :: map (fun column => ToString (or_empty (field e column))) expenseColumns
  ++ [calculateNetEarn e].

Definition csv_line (values : list string) : string :=
  join "," (map (fun value => dquote +:+ value +:+ dquote) values) +:+ nl.

(** The file that [exportToCsv] offers: the [download] name and the text. *)
Record csv_file := CsvFile { download : string; csvContent : string }.

Definition exportToCsv (m : manager) : csv_file :=
  CsvFile ("PropertyHub_Expenses_" +:+ monthFilter m +:+ ".csv")
    (fold_left
       (fun csvContent row =>
          if String.eqb (display row) "none" then csvContent
          else csvContent +:+
               csv_line (csv_values (unit_column row)
                           (default ∅ (manager_expenses m !! row_unitId row))))
       (expensesData m) csv_header).

(** [loadExpensesData], given what the two requests answer: [response] for
    [/api/expenses], [fallback] for [/api/get_units]; [None] is a request
    that failed. *)
Definition loadExpensesData (response : option api_data) (fallback : option (list unit))
    (m : manager) : manager :=
  let m := showLoading true m in
  match response with
  | Some data =>
      showLoading false
        (filterUnits (renderExpensesTable (set_data (units data) (expenses data) m)))
  | None =>
      match fallback with
      | Some us => showLoading false (filterUnits (renderExpensesTable (set_data us ∅ m)))
      | None =>
          showSaveMessage "Failed to load data. Please try again." true (showLoading false m)
      end
  end.

(** One turn of the loop of a loader: [amount.toFixed(2)] goes into [column]
    of the unit's record, made from blanks when there is none, and the
    net-earn cell is updated.  [toFixed] exists on Numbers only. *)
Definition load_value (column : string) (unitId : Z) (amount : jsval) (m : manager)
  : JSEval.completion manager :=
  match amount with
  | JNum x =>
      let text := JStr (JSNumber.toFixed 2 x) in
      let e := match manager_expenses m !! unitId with
               | Some e => <[column := text]> e
               | None => <[column := text]> blank_expense
               end in
      JSEval.Normal
        (manager_updateNetEarn unitId
           (set_data (currentUnits m) (<[unitId := e]> (manager_expenses m)) m))
  | _ => JSEval.Throw JSEval.TypeError
  end.

(** [for (const key in object)] visits the keys that are array indices (the
    integers from 0 to 2^32 - 2) in ascending order, whatever the order in
    which the object was written, and then the other keys in the order in
    which they were added.  [properties] are the properties of the object in
    the order in which they were added. *)
Definition is_array_index (key : Z) : bool := (0 <=? key) && (key <? 2 ^ 32 - 1).

Fixpoint insert_key {A : Type} (property : Z * A) (l : list (Z * A)) : list (Z * A) :=
  match l with
  | [] => [property]
  | p :: l' =>
      if fst property <=? fst p then property :: l else p :: insert_key property l'
  end.

Definition for_in {A : Type} (properties : list (Z * A)) : list (Z * A) :=
  fold_right insert_key [] (List.filter (fun p => is_array_index (fst p)) properties)
  ++ List.filter (fun p => negb (is_array_index (fst p))) properties.

(** The turns of the loop for the keys in [amounts], one after the other; an
    exception leaves the loop with what was done so far. *)
Fixpoint load_values (column : string) (amounts : list (Z * jsval)) (m : manager)
  : manager * option JSEval.error :=
  match amounts with
  | [] => (m, None)
  | (unitId, amount) :: rest =>
      match load_value column unitId amount m with
      | JSEval.Normal m' => load_values column rest m'
      | JSEval.Throw e => (m, Some e)
      end
  end.

Definition load_column (column failure : string) (response : option (list (Z * jsval)))
    (m : manager) : manager :=
  let m := showLoading true m in
  match response with
  | Some amounts =>
      match load_values column (for_in amounts) m with
      | (m', None) => showLoading false (renderExpensesTable m')
      | (m', Some _) => showSaveMessage failure true (showLoading false m')
      end
  | None => showSaveMessage failure true (showLoading false m)
  end.


Definition loadRepairCostsFromIssues :=
  load_column "repair" "Failed to load repair costs. Please try again.".

Definition loadReplaceCostsFromIssues :=
  load_column "replace" "Failed to load replacement costs. Please try again.".

(** ** The month before, and the names of the months *)

Definition monthNames : list string :=
  ["January"; "February"; "March"; "April"; "May"; "June";
   "July"; "August"; "September"; "October"; "November"; "December"]%string.

(** [array[i]] for a Number [i]: the element whose index, written in
    decimal, is the property key [String(i)]; [None] is [undefined]. *)
Fixpoint array_get_from {A : Type} (k : Z) (l : list A) (key : string) : option A :=
  match l with
  | [] => None
  | a :: l' =>
      if String.eqb (JSNumber.dec_string k) key then Some a
      else array_get_from (k + 1) l' key
  end.

Definition array_get {A : Type} (l : list A) (i : float) : option A :=
  array_get_from 0 l (JSNumber.toString i).

(** [prevYear] and [prevMonth] of [updateAnalysis] and [updatePnLStatement]. *)
Definition previous_month (year month : float) : float * float :=
  let prevYear := year in
  let prevMonth := (month - 1)%float in
  if (prevMonth =? 0)%float then ((prevYear - 1)%float, 12%float)
  else (prevYear, prevMonth).

(** [prevMonthName] of [updatePnLStatement]. *)
Definition previous_month_name (year month : float) : option string :=
  array_get monthNames (snd (previous_month year month) - 1)%float.

(** ** The expense breakdown view ([updateAnalysis], [updateExpenseDisplay]) *)

(** What the view shows: the texts of the metric cards, the pie chart, the
    summary table, the classes of [.analysis-content] and what replaced its
    content, if anything, and the top-units section. *)
Record breakdown_view := BreakdownView {
  total_expenses_value : string;
  expenses_change : string;
  top_expense_name : string;
  top_expense_amount : string;
  avg_expense_value : string;
  units_count : string;
  chart_labels : list string;
  chart_data : list float;
  summary_rows : list (string * string * string);
  summary_total_amount : string;
  content_classList : list string;
  content_innerHTML : option string;
  top_units_display : string;
  top_units_chart : option (list string * list float);
  top_units_container : option string
}.

Definition error_message (text : string) : string :=
  "<p class=" +:+ dquote +:+ "error-message" +:+ dquote +:+ ">" +:+ text +:+ "</p>".

(** The markup of the change against the previous month. *)
Definition change_html (percentChange : float) : string :=
  let formattedChange := JSNumber.toFixed 1 percentChange in
  let isPositive := (0 <? percentChange)%float in
  nl +:+ "            <span style=" +:+ dquote +:+ "color: "
  +:+ (if isPositive then "#dc3545" else "#28a745") +:+ dquote +:+ ">"
  +:+ nl +:+ "                " +:+ (if isPositive then "+" else "") +:+ formattedChange
  +:+ "% vs previous month"
  +:+ nl +:+ "            </span>"
  +:+ nl +:+ "        ".

(** [`${x}`] for a value that may be [undefined] *)
Definition template_number (x : option float) : string :=
  match x with
  | Some x => JSNumber.toString x
  | None => "undefined"
  end.

Definition set_content_classes (classes : list string) (v : breakdown_view) : breakdown_view :=
  BreakdownView (total_expenses_value v) (expenses_change v) (top_expense_name v)
    (top_expense_amount v) (avg_expense_value v) (units_count v) (chart_labels v)
    (chart_data v) (summary_rows v) (summary_total_amount v) classes
    (content_innerHTML v) (top_units_display v) (top_units_chart v) (top_units_container v).

Definition set_content_innerHTML (html : string) (v : breakdown_view) : breakdown_view :=
  BreakdownView (total_expenses_value v) (expenses_change v) (top_expense_name v)
    (top_expense_amount v) (avg_expense_value v) (units_count v) (chart_labels v)
    (chart_data v) (summary_rows v) (summary_total_amount v) (content_classList v)
    (Some html) (top_units_display v) (top_units_chart v) (top_units_container v).

Definition set_top_units (display : string) (chart : option (list string * list float))
    (container : option string) (v : breakdown_view) : breakdown_view :=
  BreakdownView (total_expenses_value v) (expenses_change v) (top_expense_name v)
    (top_expense_amount v) (avg_expense_value v) (units_count v) (chart_labels v)
    (chart_data v) (summary_rows v) (summary_total_amount v) (content_classList v)
    (content_innerHTML v) display chart container.

Section Locale.

(** [Number.prototype.toLocaleString()] with no argument: the text depends
    on the locale of the host. *)
Variable toLocaleString : float -> string.

(** [updateExpenseDisplay] writes the cards from top to bottom.  The amount
    of the top expense is read from the object that [processExpenseData]
    returned: the placeholder [{ name: 'None', percentage: 0 }] has none, and
    [undefined.toLocaleString()] is a TypeError, which leaves the rest
    unwritten. *)
Definition updateExpenseDisplay (data : expense_data) (percentChange : option float)
    (v : breakdown_view) : breakdown_view * option JSEval.error :=
  let total_text := ("RM " +:+ toLocaleString (total data))%string in
  let change := match percentChange with
                | Some pc => change_html pc
                | None => ""%string
                end in
  let top := topExpense data in
  match top_amount top with
  | None =>
      (BreakdownView total_text change (top_name top)
         (top_expense_amount v) (avg_expense_value v) (units_count v) (chart_labels v)
         (chart_data v) (summary_rows v) (summary_total_amount v) (content_classList v)
         (content_innerHTML v) (top_units_display v) (top_units_chart v)
         (top_units_container v),
       Some JSEval.TypeError)
  | Some top_amount_value =>
      (BreakdownView total_text change (top_name top)
         ("RM" +:+ toLocaleString top_amount_value +:+ " (" +:+ template_number (top_percentage top)
          +:+ "%)")
         ("RM " +:+ toLocaleString (avgPerUnit data))
         (JSNumber.dec_string (Z.of_nat (unitCount data)) +:+ " units")
         (map name (categories data))
         (map amount (categories data))
         (map (fun c => (name c, toLocaleString (amount c),
                         template_number (percentage c) +:+ "%"))%string
            (categories data))
         (toLocaleString (total data))
         (content_classList v) (content_innerHTML v) (top_units_display v)
         (top_units_chart v) (top_units_container v),
       None)
  end.

(** [fetchTopExpenseUnits], given what its request answers. *)
Definition fetchTopExpenseUnits (response : option api_data) (v : breakdown_view)
  : breakdown_view :=
  match response with
  | Some data =>
      let topUnits := calculateTopExpenseUnits data in
      set_top_units "block"
        (Some (map ut_unit_number topUnits, map total_expense topUnits))
        (top_units_container v) v
  | None =>
      set_top_units "block" (top_units_chart v)
        (Some (error_message "Failed to load top units data. Please try again.")) v
  end.

(** What both handlers of the second request do once the cards are written. *)
Definition after_display (selectedUnit : unit_selection) (top : option api_data)
    (v : breakdown_view) : breakdown_view :=
  let v := set_content_classes (class_remove "loading" (content_classList v)) v in
  match selectedUnit with
  | AllUnits => fetchTopExpenseUnits top v
  | OneUnit _ =>
      set_top_units "none" (top_units_chart v) (top_units_container v) v
  end.

(** [updateAnalysis], given what its requests answer: [current] for the
    month, [prev] for the month before, [top] for the request of
    [fetchTopExpenseUnits]; [None] is a request that failed.  The result is
    the view and the exception that no handler caught, if any.  An exception
    in the [then] handler of the second request goes to its [catch] handler,
    which writes the cards once more. *)
Definition updateAnalysis (selectedUnit : unit_selection)
    (current prev top : option api_data) (v : breakdown_view)
  : breakdown_view * option JSEval.error :=
  let v := set_content_classes (class_add "loading" (content_classList v)) v in
  match current with
  | None =>
      (set_content_innerHTML
         (error_message "Failed to load expense data. Please try again.")
         (set_content_classes (class_remove "loading" (content_classList v)) v),
       None)
  | Some currentData =>
      let currentExpenseData := processExpenseData currentData selectedUnit in
      let on_failure (v : breakdown_view) :=
        match updateExpenseDisplay currentExpenseData None v with
        | (v', None) => (after_display selectedUnit top v', None)
        | (v', Some e) => (v', Some e)
        end in
      match prev with
      | None => on_failure v
      | Some prevData =>
          let prevExpenseData := processExpenseData prevData selectedUnit in
          let percentChange :=
            calculatePercentChange (total prevExpenseData) (total currentExpenseData) in
          match updateExpenseDisplay currentExpenseData (Some percentChange) v with
          | (v', None) => (after_display selectedUnit top v', None)
          | (v', Some _) => on_failure v'
          end
      end
  end.

End Locale.

(** ** The year-on-year comparison ([fetchMonthlyDataForYear],
    [updateYoYComparisonCards]) *)

(** The answer of [/api/expenses/yearly]: the units and, by unit and by
    month, the record; either may be missing. *)
Record yearly_data := YearlyData {
  yearly_units : option (list unit);
  yearly_expenses : option (gmap Z (gmap Z expense))
}.

(** Revenue, expenses and profit by month. *)
Record processed_data := ProcessedData {
  revenue : gmap Z float;
  year_expenses : gmap Z float;
  profit : gmap Z float
}.

(** [for (let month = 1; month <= 12; month++)] *)
Definition months : list Z := [1; 2; 3; 4; 5; 6; 7; 8; 9; 10; 11; 12].

(** [object[month] += x]: a month that is not there yet reads as
    [undefined], and the sum is NaN. *)
Definition add_at (month : Z) (x : float) (by_month : gmap Z float) : gmap Z float :=
  <[month := (match by_month !! month with Some a => a | None => nan end + x)%float]>
    by_month.

Definition add_month (monthData : expense) (month : Z) (pd : processed_data)
  : processed_data :=
  let month_revenue := amount_of monthData "sales" in
  let month_expenses := unit_total_expense monthData in
  ProcessedData (add_at month month_revenue (revenue pd))
    (add_at month month_expenses (year_expenses pd))
    (add_at month (month_revenue - month_expenses)%float (profit pd)).

Definition add_year (unitExpenses : gmap Z expense) (pd : processed_data) : processed_data :=
  fold_left (fun pd month => add_month (default ∅ (unitExpenses !! month)) month pd)
    months pd.

Definition initial_months : processed_data :=
  fold_left
    (fun pd month =>
       ProcessedData (<[month := 0%float]> (revenue pd))
         (<[month := 0%float]> (year_expenses pd))
         (<[month := 0%float]> (profit pd)))
    months (ProcessedData ∅ ∅ ∅).

(** The [then] handler of [fetchMonthlyDataForYear]: the promise resolves
    with the result, or rejects with what was thrown. *)
Definition fetchMonthlyDataForYear (data : yearly_data) (unitId : unit_selection)
  : JSEval.completion processed_data :=
  match yearly_units data with
  | None => JSEval.Throw JSEval.TypeError
  | Some us =>
      match filter_units unitId us, yearly_expenses data with
      | [], _ => JSEval.Normal initial_months
      | _ :: _, None => JSEval.Throw JSEval.TypeError
      | unitsToProcess, Some es =>
          JSEval.Normal
            (fold_left (fun pd u => add_year (default ∅ (es !! id u)) pd)
               unitsToProcess initial_months)
      end
  end.

(** [by_month[currentMonth] || 0] *)
Definition month_value (by_month : gmap Z float) (month : Z) : float :=
  match by_month !! month with
  | Some x => number_or_zero x
  | None => 0%float
  end.

(** The change of the cards: against a previous value that is not positive
    it is 0. *)
Definition yoy_change (current previous : float) : float :=
  if (0 <? previous)%float then (((current - previous) / previous) * 100)%float
  else 0%float.

Definition yoy_change_text (change : float) : string :=
  (if (0 <=? change)%float then "+" else "") +:+ JSNumber.toFixed 1 change +:+ "%".

(** One card: the two amounts, the change and its colour. *)
Record yoy_card := YoyCard {
  yoy_current : string;
  yoy_previous : string;
  yoy_change_shown : string;
  yoy_color : string
}.

Record yoy_cards := YoyCards {
  yoy_revenue : yoy_card;
  yoy_expenses : yoy_card;
  yoy_profit : yoy_card
}.

Definition updateYoYComparisonCards (toLocaleString : float -> string)
    (currentYearData previousYearData : processed_data) (currentMonth : Z) : yoy_cards :=
  let card (current previous : float) (up down : string) :=
    let change := yoy_change current previous in
    YoyCard (toLocaleString (JSNumber.round current))
      (toLocaleString (JSNumber.round previous))
      (yoy_change_text change)
      (if (0 <=? change)%float then up else down) in
  YoyCards
    (card (month_value (revenue currentYearData) currentMonth)
       (month_value (revenue previousYearData) currentMonth) "#4CAF50" "#F44336")
    (card (month_value (year_expenses currentYearData) currentMonth)
       (month_value (year_expenses previousYearData) currentMonth) "#F44336" "#4CAF50")
    (card (month_value (profit currentYearData) currentMonth)
       (month_value (profit previousYearData) currentMonth) "#3F51B5" "#F44336").

(** ** Income by unit ([updateIncomeByUnitAnalysis], [updateIncomeTable]) *)

(** An element of [unitData]. *)
Record income_row := IncomeRow {
  unitNumber : string;
  salesIncome : float;
  income_netProfit : float;
  profitMargin : float
}.

Definition income_of_unit (u : unit) (unitExpense : expense) : income_row :=
  let salesIncome := amount_of unitExpense "sales" in
  let totalExpenses := unit_total_expense unitExpense in
  let netProfit := (salesIncome - totalExpenses)%float in
  let profitMargin :=
    if (0 <? salesIncome)%float then ((netProfit / salesIncome) * 100)%float else 0%float in
  IncomeRow (unit_number u) salesIncome netProfit profitMargin.

(** [sortConfig]: the field and the direction. *)
Inductive income_field :=
| UnitNumberField
| SalesIncomeField
| NetProfitField
| ProfitMarginField.

Inductive sort_direction := Asc | Desc.

Record sort_config := SortConfig {
  sort_field : income_field;
  direction : sort_direction
}.

(** [toLowerCase] on a code unit below 256: the capital letters of ASCII
    and of the Latin-1 supplement. *)
Definition to_lower (c : ascii) : ascii :=
  let n := nat_of_ascii c in
  if ((65 <=? n)%nat && (n <=? 90)%nat)
     || ((192 <=? n)%nat && (n <=? 222)%nat && negb (n =? 215)%nat)
  then ascii_of_nat (n + 32) else c.

Fixpoint toLowerCase (s : string) : string :=
  match s with
  | String c s' => String (to_lower c) (toLowerCase s')
  | EmptyString => EmptyString
  end.

(** [aValue < bValue] on the field: Numbers by value, texts, in lower case,
    by code units. *)
Definition less_than (f : income_field) (a b : income_row) : bool :=
  match f with
  | UnitNumberField => String.ltb (toLowerCase (unitNumber a)) (toLowerCase (unitNumber b))
  | SalesIncomeField => (salesIncome a <? salesIncome b)%float
  | NetProfitField => (income_netProfit a <? income_netProfit b)%float
  | ProfitMarginField => (profitMargin a <? profitMargin b)%float
  end.

(** The comparator of [updateIncomeTable]. *)
Definition income_compare (sortConfig : sort_config) (a b : income_row) : float :=
  let lt := less_than (sort_field sortConfig) a b in
  let gt := less_than (sort_field sortConfig) b a in
  match direction sortConfig with
  | Asc => if lt then (-1)%float else if gt then 1%float else 0%float
  | Desc => if gt then (-1)%float else if lt then 1%float else 0%float
  end.

(** A row of the table: the unit, the two amounts, the margin, and the
    colours of the last two. *)
Record income_table_row := IncomeTableRow {
  cell_unit : string;
  cell_sales : string;
  cell_profit : string;
  cell_profit_color : string;
  cell_margin : string;
  cell_margin_color : string
}.

(** What [updateIncomeTable] leaves: [unitData], sorted in place, the rows
    and the totals of the footer. *)
Record income_table := IncomeTable {
  income_data : list income_row;
  income_rows : list income_table_row;
  total_sales_income : string;
  total_net_profit : string;
  total_net_profit_color : string;
  total_profit_margin : string;
  total_profit_margin_color : string
}.

Definition sign_color (x : float) : string :=
  if (0 <=? x)%float then "#28a745" else "#dc3545".

(** [formatCurrency] formats with [Intl.NumberFormat('en-MY', ...)], which
    the host provides. *)
Definition updateIncomeTable (formatCurrency : float -> string)
    (unitData : list income_row) (sortConfig : sort_config) : income_table :=
  let unitData := sort (income_compare sortConfig) unitData in
  let totalSalesIncome :=
    fold_left (fun acc item => (acc + salesIncome item)%float) unitData 0%float in
  let totalNetProfit :=
    fold_left (fun acc item => (acc + income_netProfit item)%float) unitData 0%float in
  let totalMargin :=
    if (0 <? totalSalesIncome)%float
    then ((totalNetProfit / totalSalesIncome) * 100)%float else 0%float in
  IncomeTable unitData
    (map (fun item =>
            IncomeTableRow (unitNumber item)
              (formatCurrency (salesIncome item))
              (formatCurrency (income_netProfit item))
              (sign_color (income_netProfit item))
              (JSNumber.toFixed 1 (profitMargin item) +:+ "%")
              (sign_color (profitMargin item)))
       unitData)
    (formatCurrency totalSalesIncome)
    (formatCurrency totalNetProfit) (sign_color totalNetProfit)
    (JSNumber.toFixed 1 totalMargin +:+ "%") (sign_color totalMargin).

(** ** Definitions used to state the properties *)

(** The sign test [0 < x] on the specification of [x]. *)
Definition is_positive (f : spec_float) : bool :=
  match f with
  | S754_infinity false | S754_finite false _ _ => true
  | _ => false
  end.

(** [a] may stand before [b] for [list.sort(compare)]: the comparator does
    not ask for [a] after [b]. *)
Definition in_order {A : Type} (compare : A -> A -> float) (a b : A) : Prop :=
  (0 <? compare a b)%float = false.

Definition category_keys : list (string * string) :=
  [("Rental", "rental"); ("Electricity", "electricity"); ("Water", "water");
   ("Sewage", "sewage"); ("Internet", "internet"); ("Cleaner", "cleaner");
   ("Laundry", "laundry"); ("Supplies", "supplies"); ("Repair", "repair");
   ("Replace", "replace"); ("Other", "other")]%string.

Definition add_value (v : jsval) (a : float) : float :=
  if truthy v then (a + number_or_zero (parseFloat v))%float else a.

Definition category_sum (data : api_data) (key : string) (us : list unit) : float :=
  fold_left (fun a u => add_value (field (unit_expenses data u) key) a) us 0%float.

(** The sum of a unit's eleven categories other than sales, each read as
    [parseFloat(value || 0)]; the sum starts with the first of them. *)
Definition non_sales_total (e : expense) : float :=
  match map (fun nk => JSString.parseFloat
                         (match e !! snd nk with
                          | Some v => if truthy v then ToString v else "0"
                          | None => "0"
                          end))
          category_keys with
  | [] => 0%float
  | first :: rest => fold_left PrimFloat.add rest first
  end.

Definition with_percentage (total : float) (c : category) : category :=
  Category (name c) (amount c) (Some (JSNumber.round ((amount c / total) * 100)%float)).

(** [f] applied to the amount of the first category named [n]. *)
Fixpoint on_named (n : string) (f : float -> float) (cats : list category) : list category :=
  match cats with
  | [] => []
  | c :: rest =>
      if String.eqb (name c) n
      then Category (name c) (f (amount c)) (percentage c) :: rest
      else c :: on_named n f rest
  end.

Fixpoint all_digits (s : string) : bool :=
  match s with
  | String c s' => JSString.is_digit c && all_digits s'
  | EmptyString => true
  end.

(** [-]digits[.]digit digit, with at least one digit before the point. *)
Definition two_decimals (s : string) : bool :=
  let body := match s with
              | String c r => if Ascii.eqb c "-" then r else s
              | EmptyString => s
              end in
  let '(ip, rest) := JSString.span_digits body in
  negb (JSString.is_empty ip) &&
  match rest with
  | String dot (String d1 (String d2 EmptyString)) =>
      Ascii.eqb dot "." && JSString.is_digit d1 && JSString.is_digit d2
  | _ => false
  end.

Definition record_of (l : list (string * string)) : expense :=
  list_to_map (map (fun kv => (fst kv, JStr (snd kv))) l).

(** One unit, with the given record. *)
Definition one_unit (e : expense) : api_data :=
  ApiData [Unit 1 "A-1" "A"] {[ 1 := e ]}.

(** Two units with sales, with a text that is no number, with a zero and with
    a negative amount among their values. *)
Definition mixed_units : api_data :=
  ApiData [Unit 1 "A-1" "A"; Unit 2 "A-2" "A"]
    {[ 1 := record_of [("sales", "1000"); ("rental", "100"); ("electricity", "50");
                       ("water", "abc"); ("other", "-5")]%string;
       2 := record_of [("rental", "100.5"); ("electricity", "0"); ("sewage", "7")]%string ]}.

(** Four units: one with sales and two categories, one with sales only, one
    with a rental that reads as 1, and one with every category. *)
Definition four_units : api_data :=
  ApiData [Unit 1 "A-1" "A"; Unit 2 "A-2" "A"; Unit 3 "B-1" "B"; Unit 4 "B-2" "B"]
    {[ 1 := record_of [("sales", "1000"); ("rental", "100"); ("other", "5.5")]%string;
       2 := record_of [("sales", "500")]%string;
       3 := record_of [("rental", "1,234"); ("water", "0")]%string;
       4 := record_of [("sales", "4096"); ("rental", "1"); ("electricity", "2");
                       ("water", "4"); ("sewage", "8"); ("internet", "16");
                       ("cleaner", "32"); ("laundry", "64"); ("supplies", "128");
                       ("repair", "256"); ("replace", "512"); ("other", "1024")]%string ]}.

(** A cell holding [text], nothing stored yet: no record for the unit, no
    formula on the element, and the net-earn cell of unit 1 in the table. *)
Definition fresh_cell (text : string) : page :=
  Page ∅ (InputElement text None None [])
       {[ 1 := NetEarnCell "0.00" ["net-earn"; "positive"]%string ]} [].

(** The user changes the text of the cell's input to [text]: the value is
    set and the [input] listener runs. *)
Definition typed (unitId : Z) (column : string) (text : string) (p : page) : page :=
  let t := target p in
  on_input unitId column
    (set_target p
       (InputElement text (dataset_formula t) (dataset_displayValue t) (classList t))).

(** The sales cell of unit 1 after the formula [=1+2] was committed, then
    focused again and its text replaced by [text]: the state in which the
    [blur] listener finds it. *)
Definition editing (text : string) : page :=
  typed 1 "sales" text (on_focus (on_blur 1 "sales" (fresh_cell "=1+2"))).

(** Two units: one earns its rental again, the other earns nothing. *)
Definition two_units : api_data :=
  ApiData [Unit 1 "A-1" "A"; Unit 2 "A-2" "A"]
    {[ 1 := record_of [("sales", "200"); ("rental", "100")]%string;
       2 := record_of [("sales", "300"); ("rental", "300")]%string ]}.

(** What the committed text of a cell is evaluated as, if at all: the
    [calculateFormula] call of the branch of [on_blur] that it takes. *)
Definition commit_evaluation (text : string) : option (JSEval.completion string) :=
  let v := JSString.trim text in
  if negb (JSString.is_empty v) && String.prefix "=" v
  then Some (calculateFormula (JSString.remove_char "," (JSString.tail v)))
  else if negb (JSString.is_empty v) && JSString.existsb is_operator_char v
  then Some (calculateFormula (JSString.remove_char "," v))
  else None.

Definition evaluation_fails (text : string) : Prop :=
  exists e, commit_evaluation text = Some (JSEval.Throw e).

(** The last character of a text. *)
Fixpoint last_char (s : string) : option ascii :=
  match s with
  | EmptyString => None
  | String c EmptyString => Some c
  | String _ s' => last_char s'
  end.

(** The texts of a list, one after the other. *)
Definition lines (l : list string) : string := fold_right String.append "" l.

(** The text of a cell of the export: what the record holds under [key], and
    nothing where it holds nothing, [''], [0] or [null]. *)
Definition cell_text (e : expense) (key : string) : string :=
  match e !! key with
  | Some v => if truthy v then ToString v else ""
  | None => ""
  end.

(** The characters U+0022 and U+000A, and a text between quotation marks. *)
Definition quotation_mark : string :=
  String (Ascii false true false false false true false false) "".

Definition line_feed : string :=
  String (Ascii false true false true false false false false) "".

Definition quoted (s : string) : string := quotation_mark +:+ s +:+ quotation_mark.

(** The first line of the export. *)
Definition header_line : string :=
  "Unit,Sales,Rental,Electricity,Water,Sewage,Internet,Cleaner,Laundry,Supplies,Repair,Replace,Other,Net Earn"
  +:+ line_feed.

(** The line of the export for a unit, given the records [es]: the number of
    the unit, the twelve cells of its record and its net earnings, each
    between quotation marks, with commas between them and a line feed at the
    end. *)
Definition unit_line (es : gmap Z expense) (u : unit) : string :=
  let e := default ∅ (es !! id u) in
  quoted (unit_number u) +:+ "," +:+
  quoted (cell_text e "sales") +:+ "," +:+
  quoted (cell_text e "rental") +:+ "," +:+
  quoted (cell_text e "electricity") +:+ "," +:+
  quoted (cell_text e "water") +:+ "," +:+
  quoted (cell_text e "sewage") +:+ "," +:+
  quoted (cell_text e "internet") +:+ "," +:+
  quoted (cell_text e "cleaner") +:+ "," +:+
  quoted (cell_text e "laundry") +:+ "," +:+
  quoted (cell_text e "supplies") +:+ "," +:+
  quoted (cell_text e "repair") +:+ "," +:+
  quoted (cell_text e "replace") +:+ "," +:+
  quoted (cell_text e "other") +:+ "," +:+
  quoted (calculateNetEarn e) +:+ line_feed.

(** Two units of different buildings, the first with sales and a rental. *)
Definition two_buildings : api_data :=
  ApiData [Unit 1 "A-1" "A"; Unit 2 "B-1" "B"]
    {[ 1 := record_of [("sales", "100"); ("rental", "30")]%string ]}.

(** A unit of the building that the filter selects. *)
Definition in_building (selected : string) (u : unit) : bool :=
  String.eqb selected "all" || String.eqb (building u) selected.

(** The records once a loader has gone through [amounts]: each unit's
    [column] holds its amount with two decimals. *)
Definition loaded_expenses (column : string) (amounts : list (Z * float))
    (es : gmap Z expense) : gmap Z expense :=
  fold_left
    (fun es ua =>
       <[fst ua := <[column := JStr (JSNumber.toFixed 2 (snd ua))]>
                     (default blank_expense (es !! fst ua))]> es)
    amounts es.

(** Amounts as the response holds them. *)
Definition as_numbers (amounts : list (Z * float)) : list (Z * jsval) :=
  map (fun ua => (fst ua, JNum (snd ua))) amounts.

(** A table by month that holds the months 1 to 12 and no other. *)
Definition has_months (by_month : gmap Z float) : Prop :=
  forall month : Z, is_Some (by_month !! month) <-> 1 <= month <= 12.

(** The view before anything was written to it. *)
Definition blank_view : breakdown_view :=
  BreakdownView "" "" "" "" "" "" [] [] [] "" [] None "" None None.

(** [a <= b] on the field, and a field whose value compares with every
    other: a text, or a Number that is not NaN. *)
Definition at_most (f : income_field) (a b : income_row) : bool :=
  match f with
  | UnitNumberField => negb (String.ltb (toLowerCase (unitNumber b)) (toLowerCase (unitNumber a)))
  | SalesIncomeField => (salesIncome a <=? salesIncome b)%float
  | NetProfitField => (income_netProfit a <=? income_netProfit b)%float
  | ProfitMarginField => (profitMargin a <=? profitMargin b)%float
  end.

Definition comparable (f : income_field) (a : income_row) : bool :=
  match f with
  | UnitNumberField => true
  | SalesIncomeField => negb (is_nan (salesIncome a))
  | NetProfitField => negb (is_nan (income_netProfit a))
  | ProfitMarginField => negb (is_nan (profitMargin a))
  end.

(** The order that two neighbours of the sorted table are in. *)
Definition in_table_order (sortConfig : sort_config) (a b : income_row) : Prop :=
  match direction sortConfig with
  | Asc => at_most (sort_field sortConfig) a b = true
  | Desc => at_most (sort_field sortConfig) b a = true
  end.

(** ** Checks of the conversions against known results *)

Example toString_examples :
  map JSNumber.toString
    [0.5%float; 100%float; 1e21%float; 1.5e-7%float; (-2.5)%float;
     (0.1 + 0.2)%float; 123456789012345680000%float; 0.000001%float;
     5e-324%float; 1.7976931348623157e308%float; neg_zero; infinity; nan]
  = ["0.5"; "100"; "1e+21"; "1.5e-7"; "-2.5"; "0.30000000000000004";
     "123456789012345680000"; "0.000001"; "5e-324"; "1.7976931348623157e+308";
     "0"; "Infinity"; "NaN"]%string.
Proof. vm_compute. reflexivity. Qed.

Example toFixed_examples :
  map (JSNumber.toFixed 2)
    [8%float; 2%float; 1.005%float; 2.5%float; (-0.001)%float; 0.125%float;
     1e21%float; 1234.5678%float; neg_zero; 0.375%float; (-2.345)%float;
     neg_infinity; nan; 0.995%float]
  = ["8.00"; "2.00"; "1.00"; "2.50"; "-0.00"; "0.13"; "1e+21"; "1234.57";
     "0.00"; "0.38"; "-2.35"; "-Infinity"; "NaN"; "0.99"]%string.
Proof. vm_compute. reflexivity. Qed.

Example round_examples :
  map JSNumber.round [2.5%float; (-2.5)%float; 0.49%float; 33.5%float; 66.4%float; (-0.2)%float; 1e300%float]
  = [3%float; (-2)%float; 0%float; 34%float; 66%float; neg_zero; 1e300%float].
Proof. vm_compute. reflexivity. Qed.

Example parseFloat_examples :
  map JSString.parseFloat
    ["100"; "30.5"; "1,234"; "  -2.50abc"; "abc"; ""; ".5"; "5."; "1e3"; "1e"; "-0";
     "Infinity"; "-Infinityx"; "."; "+.e3"; "0.1"; "12.34.56"; "1e-7"; "=1+2"]%string
  = [100%float; 30.5%float; 1%float; (-2.5)%float; nan; nan; 0.5%float; 5%float;
     1000%float; 1%float; neg_zero; infinity; neg_infinity; nan; nan; 0.1%float;
     12.34%float; 1e-7%float; nan].
Proof. vm_compute. reflexivity. Qed.

Example replace_examples :
  (JSString.collapse_runs "-" "5--3", JSString.collapse_runs "+" "1+++2++",
   JSString.replace_pair "+" "-" "-" "5+-3+-", JSString.replace_pair "-" "-" "+" "1---2",
   JSString.trim "  = 1 + 2  ", JSString.remove_char "," "1,234,567")
  = ("5-3", "1+2+", "5-3-", "1+-2", "= 1 + 2", "1234567")%string.
Proof. vm_compute. reflexivity. Qed.

Example run_examples :
  map JSEval.run
    ["5-3"; "5+3"; "1/0"; "2*(3+4)"; "1+"; "(1"; "1)+(2"; "5++3"; "0/0"; "-1/0";
     "1.5.5"; "010"; "2 * -3"; "/3/"; "1+/3/"; "5/*3*/+2"; "(1)(2)"; "5/*3"; "/3/2";
     "1/-0"; "8/2/2"; "2-3-4"; "/+/"; "0.1+0.2"; "2+(1+/3/)"; "+ +1"; "."; "1 2"]%string
  = [JSEval.Normal (JSEval.VNum 2); JSEval.Normal (JSEval.VNum 8);
     JSEval.Normal (JSEval.VNum infinity); JSEval.Normal (JSEval.VNum 14);
     JSEval.Throw JSEval.SyntaxError; JSEval.Throw JSEval.SyntaxError;
     JSEval.Normal (JSEval.VNum 3); JSEval.Throw JSEval.SyntaxError;
     JSEval.Normal (JSEval.VNum nan); JSEval.Normal (JSEval.VNum neg_infinity);
     JSEval.Throw JSEval.SyntaxError; JSEval.Throw JSEval.SyntaxError;
     JSEval.Normal (JSEval.VNum (-6));
     JSEval.Normal (JSEval.VRegExp "3"); JSEval.Normal (JSEval.VStr "1/3/");
     JSEval.Normal (JSEval.VNum 7); JSEval.Throw JSEval.TypeError;
     JSEval.Throw JSEval.SyntaxError; JSEval.Throw JSEval.SyntaxError;
     JSEval.Normal (JSEval.VNum neg_infinity); JSEval.Normal (JSEval.VNum 2);
     JSEval.Normal (JSEval.VNum (-5)); JSEval.Throw JSEval.SyntaxError;
     JSEval.Normal (JSEval.VNum (0.1 + 0.2)); JSEval.Normal (JSEval.VStr "21/3/");
     JSEval.Normal (JSEval.VNum 1); JSEval.Throw JSEval.SyntaxError;
     JSEval.Throw JSEval.SyntaxError]%float.
Proof. vm_compute. reflexivity. Qed.

Example calculateFormula_examples :
  map calculateFormula
    ["5--3"; "5+-3"; "2*(3+4)"; "1/0"; "5-+-3"; "abc"; "1+"; ""; "10/4"; "0/0";
     "1.005*1"; "5---3"; "2**3"]%string
  = [JSEval.Normal "2.00"; JSEval.Normal "2.00"; JSEval.Normal "14.00";
     JSEval.Normal "Infinity"; JSEval.Normal "8.00";
     JSEval.Throw (JSEval.Error "Invalid characters in expression");
     JSEval.Throw JSEval.SyntaxError; JSEval.Normal ""; JSEval.Normal "2.50";
     JSEval.Normal "NaN"; JSEval.Normal "1.00"; JSEval.Normal "2.00";
     JSEval.Normal "6.00"]%string.
Proof. vm_compute. reflexivity. Qed.

Example calculateNetEarn_example :
  calculateNetEarn (record_of [("sales", "100"); ("rental", "30"); ("electricity", "10")]%string)
  = "60.00"%string.
Proof. vm_compute. reflexivity. Qed.

(** ** Signs and order of doubles *)

Lemma ltb_zero (x : float) : (0 <? x)%float = is_positive (Prim2SF x).
Proof.
  rewrite FloatAxioms.ltb_spec. change (Prim2SF 0) with (S754_zero false).
  destruct (Prim2SF x) as [[]|[]| |[] m e]; reflexivity.
Qed.

Lemma binary_round_aux_negative (m e : Z) (l : location) :
  is_positive (binary_round_aux prec emax true m e l) = false.
Proof.
  unfold binary_round_aux.
  destruct (shr_fexp prec emax m e l) as [mrs' e'].
  destruct (shr_fexp prec emax _ e' loc_Exact) as [mrs'' e''].
  destruct (shr_m mrs''); [reflexivity| |reflexivity].
  destruct (e'' <=? emax - prec); reflexivity.
Qed.

Lemma binary_normalize_nonpositive (d e : Z) :
  d <= 0 -> is_positive (binary_normalize prec emax d e false) = false.
Proof.
  destruct d as [|p|p]; intros Hd; [reflexivity|lia|].
  unfold binary_normalize, binary_round.
  destruct (shl_align p e _) as [mz ez]. apply binary_round_aux_negative.
Qed.

Lemma SFsub_positive_antisym (x y : spec_float) :
  is_positive (SF64sub y x) = true -> is_positive (SF64sub x y) = false.
Proof.
  unfold SF64sub.
  destruct x as [sx|sx| |sx mx ex], y as [sy|sy| |sy my ey];
    try (destruct sx, sy; simpl; congruence);
    try (destruct sx; simpl; congruence);
    try (destruct sy; simpl; congruence);
    try (simpl; congruence).
  unfold SFsub. rewrite (Z.min_comm ey ex).
  set (a := cond_Zopp sx _). set (b := cond_Zopp sy _). intros H.
  destruct (Z_le_gt_dec (a - b) 0) as [Hle|Hgt].
  - now apply binary_normalize_nonpositive.
  - rewrite binary_normalize_nonpositive in H by lia. discriminate.
Qed.

Lemma sub_positive_antisym (x y : float) :
  (0 <? y - x)%float = true -> (0 <? x - y)%float = false.
Proof.
  rewrite !ltb_zero, !sub_spec. apply SFsub_positive_antisym.
Qed.

Lemma positive_not_zero (x : float) :
  (0 <? x)%float = true -> (x =? 0)%float = false.
Proof.
  rewrite ltb_zero, FloatAxioms.eqb_spec. change (Prim2SF 0) with (S754_zero false).
  destruct (Prim2SF x) as [[]|[]| |[] m e]; cbv; congruence.
Qed.

Lemma SFeqb_sub (x y : spec_float) :
  SFeqb x y = true -> is_positive (SF64sub y x) = false.
Proof.
  unfold SFeqb, SF64sub.
  destruct x as [sx|sx| |sx mx ex], y as [sy|sy| |sy my ey]; simpl;
    try discriminate;
    try (destruct sx, sy; simpl; congruence);
    try (destruct sx; simpl; congruence);
    try (destruct sy; simpl; congruence).
  intros H.
  assert (sx = sy /\ ex = ey /\ mx = my) as (-> & -> & ->).
  { change (Pos.compare_cont Eq mx my) with (Pos.compare mx my) in H.
    destruct sx, sy; try discriminate;
      destruct (Z.compare_spec ex ey); try discriminate;
      destruct (Pos.compare_spec mx my); try discriminate; auto. }
  apply binary_normalize_nonpositive. lia.
Qed.

Lemma sub_positive_not_eq (x y : float) :
  (0 <? y - x)%float = true -> (x =? y)%float = false.
Proof.
  rewrite ltb_zero, sub_spec, FloatAxioms.eqb_spec. intros H.
  destruct (SFeqb (Prim2SF x) (Prim2SF y)) eqn:E; [|reflexivity].
  apply SFeqb_sub in E. congruence.
Qed.

(** ** The sign of a difference of positive doubles *)

Lemma digits2_pos_size (m : positive) : digits2_pos m = Pos.size m.
Proof. induction m; simpl; congruence. Qed.

Lemma digits2_pos_bounds (m : positive) :
  2 ^ (Zpos (digits2_pos m) - 1) <= Zpos m < 2 ^ Zpos (digits2_pos m).
Proof.
  rewrite digits2_pos_size. split.
  - pose proof (Pos.size_le m) as H.
    assert (Zpos (2 ^ Pos.size m) <= Zpos m~0) as H' by exact H.
    rewrite Pos2Z.inj_pow in H'.
    replace (Zpos (Pos.size m)) with (Z.succ (Zpos (Pos.size m) - 1)) in H' by lia.
    rewrite Z.pow_succ_r in H' by lia. lia.
  - pose proof (Pos.size_gt m) as H.
    assert (Zpos m < Zpos (2 ^ Pos.size m)) as H' by exact H.
    now rewrite Pos2Z.inj_pow in H'.
Qed.

Lemma iter_xO_value (m d : positive) : Zpos (Pos.iter xO m d) = Zpos m * 2 ^ Zpos d.
Proof.
  induction d as [|d IH] using Pos.peano_ind.
  - simpl. lia.
  - rewrite Pos.iter_succ, Pos2Z.inj_xO, IH, Pos2Z.inj_succ, Z.pow_succ_r by lia. lia.
Qed.

Lemma shl_align_value (m : positive) (e ez : Z) :
  ez <= e -> Zpos (fst (shl_align m e ez)) = Zpos m * 2 ^ (e - ez).
Proof.
  intros H. unfold shl_align. destruct (ez - e) as [|d|d] eqn:E; simpl.
  - replace (e - ez) with 0 by lia. lia.
  - lia.
  - rewrite iter_xO_value. replace (e - ez) with (Zpos d) by lia. reflexivity.
Qed.

Lemma shr_1_m (r : shr_record) : 0 <= shr_m r -> shr_m (shr_1 r) = shr_m r / 2.
Proof.
  destruct r as [m r s]. cbn [shr_m]. intros Hm.
  destruct m as [|[p|p|]|p]; cbn [shr_1 shr_m]; try lia; try reflexivity.
  - apply Z.div_unique with (r := 1); lia.
  - apply Z.div_unique with (r := 0); lia.
Qed.

Lemma iter_shr_1_m (q : positive) (r : shr_record) :
  0 <= shr_m r -> shr_m (SpecFloat.iter_pos shr_1 q r) = shr_m r / 2 ^ Zpos q.
Proof.
  revert r. induction q as [q IH|q IH|]; intros r Hr; simpl SpecFloat.iter_pos.
  - assert (H1 : 0 <= shr_m (shr_1 r)) by (rewrite shr_1_m by lia; apply Z.div_pos; lia).
    assert (H2 : 0 <= shr_m (SpecFloat.iter_pos shr_1 q (shr_1 r)))
      by (rewrite IH by lia; apply Z.div_pos; lia).
    rewrite IH, IH, shr_1_m by lia.
    rewrite !Z.div_div by lia.
    replace (Zpos q~1) with (1 + Zpos q + Zpos q) by lia.
    rewrite !Z.pow_add_r by lia. now rewrite Z.pow_1_r, Z.mul_assoc.
  - assert (H2 : 0 <= shr_m (SpecFloat.iter_pos shr_1 q r))
      by (rewrite IH by lia; apply Z.div_pos; lia).
    rewrite IH, IH by lia.
    rewrite Z.div_div by lia.
    replace (Zpos q~0) with (Zpos q + Zpos q) by lia.
    now rewrite Z.pow_add_r by lia.
  - rewrite shr_1_m by lia. now rewrite Z.pow_1_r.
Qed.

Lemma shr_record_of_loc_m (m : Z) (l : location) : shr_m (shr_record_of_loc m l) = m.
Proof. destruct l as [|[]]; reflexivity. Qed.

(** Shifting a positive mantissa down to its format exponent leaves it
    positive: at most [digits - prec] bits go. *)
Lemma shr_fexp_positive (m : positive) (e : Z) (l : location) :
  FloatOps.emin <= e ->
  0 < shr_m (fst (shr_fexp prec emax (Zpos m) e l))
  /\ FloatOps.emin <= snd (shr_fexp prec emax (Zpos m) e l).
Proof.
  intros He. unfold shr_fexp, shr, fexp. simpl Zdigits2.
  set (d := Zpos (digits2_pos m)).
  destruct (Z.max (d + e - prec) (SpecFloat.emin prec emax) - e) as [|q|q] eqn:E; simpl.
  - rewrite shr_record_of_loc_m. lia.
  - rewrite iter_shr_1_m by (rewrite shr_record_of_loc_m; lia).
    rewrite shr_record_of_loc_m.
    assert (Hq : Zpos q = d - prec) by lia.
    pose proof (digits2_pos_bounds m) as [Hlo _]. fold d in Hlo.
    split; [|lia].
    apply Z.div_str_pos. split; [lia|].
    apply Z.le_trans with (2 ^ (d - 1)); [|exact Hlo].
    apply Z.pow_le_mono_r; unfold prec in *; lia.
  - rewrite shr_record_of_loc_m. lia.
Qed.

Lemma round_nearest_even_positive (m : Z) (l : location) :
  0 < m -> 0 < round_nearest_even m l.
Proof.
  intros Hm. destruct l as [|[]]; simpl; try lia.
  destruct (Z.even m); lia.
Qed.

Lemma binary_round_aux_positive (m : positive) (e : Z) (l : location) :
  FloatOps.emin <= e ->
  is_positive (binary_round_aux prec emax false (Zpos m) e l) = true.
Proof.
  intros He. unfold binary_round_aux.
  pose proof (shr_fexp_positive m e l He) as [H1 H1'].
  destruct (shr_fexp prec emax (Zpos m) e l) as [mrs' e']. simpl in H1, H1'.
  pose proof (round_nearest_even_positive _ (loc_of_shr_record mrs') H1) as H2.
  destruct (round_nearest_even (shr_m mrs') (loc_of_shr_record mrs')) as [|m2|m2]; try lia.
  pose proof (shr_fexp_positive m2 e' loc_Exact H1') as [H3 _].
  destruct (shr_fexp prec emax (Zpos m2) e' loc_Exact) as [mrs'' e'']. simpl in H3.
  destruct (shr_m mrs'') as [|m3|m3]; try lia.
  destruct (e'' <=? emax - prec); reflexivity.
Qed.

Lemma binary_normalize_positive (d e : Z) :
  0 < d -> FloatOps.emin <= e ->
  is_positive (binary_normalize prec emax d e false) = true.
Proof.
  intros Hd He. destruct d as [|p|p]; try lia.
  unfold binary_normalize, binary_round.
  destruct (shl_align p e _) as [mz ez] eqn:E.
  apply binary_round_aux_positive.
  unfold shl_align in E. unfold fexp in E.
  destruct (Z.max _ _ - e) eqn:E'; inversion E; subst; lia.
Qed.

(** A valid mantissa has at most [prec] bits, exactly [prec] above the
    least exponent. *)
Lemma valid_finite_bounds (s : bool) (m : positive) (e : Z) :
  valid_binary (S754_finite s m e) = true ->
  FloatOps.emin <= e /\ Zpos m < 2 ^ prec
  /\ (FloatOps.emin < e -> 2 ^ (prec - 1) <= Zpos m).
Proof.
  unfold SpecFloat.valid_binary, bounded, canonical_mantissa, fexp.
  rewrite andb_true_iff, Z.eqb_eq. intros [Hc _].
  pose proof (digits2_pos_bounds m) as [Hlo Hhi].
  set (d := Zpos (digits2_pos m)) in *.
  split; [lia|]. split.
  - apply Z.lt_le_trans with (2 ^ d); [exact Hhi|].
    apply Z.pow_le_mono_r; lia.
  - intros He. replace (prec - 1) with (d - 1) by lia. exact Hlo.
Qed.

Lemma SFsub_positive_lt (x y : spec_float) :
  valid_binary x = true -> valid_binary y = true ->
  is_positive x = true -> is_positive y = true ->
  is_positive (SF64sub y x) = SFltb x y.
Proof.
  intros Vx Vy Px Py.
  destruct x as [sx|[]| |[] mx ex], y as [sy|[]| |[] my ey]; try discriminate;
    try reflexivity.
  apply valid_finite_bounds in Vx as (Hex & Hmx & Nx).
  apply valid_finite_bounds in Vy as (Hey & Hmy & Ny).
  unfold SF64sub, SFsub, SFltb, SFcompare, cond_Zopp.
  rewrite !shl_align_value by lia.
  change (Pos.compare_cont Eq mx my) with (Pos.compare mx my).
  assert (P52 : 2 ^ prec = 2 * 2 ^ (prec - 1)) by reflexivity.
  destruct (Z.compare_spec ex ey) as [Heq|Hlt|Hgt].
  - subst ey. rewrite Z.min_id, Z.sub_diag, Z.pow_0_r, !Z.mul_1_r.
    destruct (Pos.compare_spec mx my) as [->|H|H].
    + rewrite Z.sub_diag. reflexivity.
    + apply binary_normalize_positive; lia.
    + apply binary_normalize_nonpositive; lia.
  - rewrite Z.min_r by lia. rewrite Z.sub_diag, Z.pow_0_r, Z.mul_1_r.
    apply binary_normalize_positive; [|lia].
    assert (2 <= 2 ^ (ey - ex)).
    { replace 2 with (2 ^ 1) at 1 by reflexivity. apply Z.pow_le_mono_r; lia. }
    specialize (Ny ltac:(lia)). nia.
  - rewrite Z.min_l by lia. rewrite Z.sub_diag, Z.pow_0_r, Z.mul_1_r.
    apply binary_normalize_nonpositive.
    assert (2 <= 2 ^ (ex - ey)).
    { replace 2 with (2 ^ 1) at 1 by reflexivity. apply Z.pow_le_mono_r; lia. }
    specialize (Nx ltac:(lia)). nia.
Qed.

(** Among positive Numbers the comparator [b - a] is positive exactly when
    [a < b]. *)
Lemma sub_positive_lt (x y : float) :
  (0 <? x)%float = true -> (0 <? y)%float = true ->
  (0 <? y - x)%float = (x <? y)%float.
Proof.
  rewrite !ltb_zero, sub_spec, FloatAxioms.ltb_spec.
  apply SFsub_positive_lt; apply Prim2SF_valid.
Qed.

Lemma SFleb_positive (x y : spec_float) :
  is_positive x = true -> is_positive y = true ->
  SFleb y x = negb (SFltb x y).
Proof.
  unfold SFleb, SFltb.
  destruct x as [sx|[]| |[] mx ex], y as [sy|[]| |[] my ey]; try discriminate;
    try reflexivity.
  intros _ _. simpl.
  change (Pos.compare_cont Eq mx my) with (Pos.compare mx my).
  change (Pos.compare_cont Eq my mx) with (Pos.compare my mx).
  rewrite (Z.compare_antisym ex ey), (Pos.compare_antisym mx my).
  destruct (ex ?= ey); simpl; try reflexivity.
  destruct (mx ?= my)%positive; reflexivity.
Qed.

Lemma leb_positive (x y : float) :
  (0 <? x)%float = true -> (0 <? y)%float = true ->
  (y <=? x)%float = negb (x <? y)%float.
Proof.
  rewrite !ltb_zero, FloatAxioms.leb_spec, FloatAxioms.ltb_spec. apply SFleb_positive.
Qed.

(** ** Sorting with a Number-valued comparator *)

Section Sorting.
Context {A : Type} (compare : A -> A -> float).

Hypothesis compare_antisym :
  forall a b, (0 <? compare a b)%float = true -> (0 <? compare b a)%float = false.

Lemma sort_insert_HdRel (a b : A) (l : list A) :
  in_order compare b a -> HdRel (in_order compare) b l -> HdRel (in_order compare) b (sort_insert compare a l).
Proof.
  intros Hba Hl. destruct l as [|c l]; simpl.
  - now constructor.
  - destruct (0 <? compare a c)%float; constructor; auto.
    now inversion Hl.
Qed.

Lemma sort_insert_sorted (a : A) (l : list A) :
  Sorted (in_order compare) l -> Sorted (in_order compare) (sort_insert compare a l).
Proof.
  induction 1 as [|b l Hl IH Hb]; simpl.
  - repeat constructor.
  - destruct (0 <? compare a b)%float eqn:E.
    + constructor; [exact IH|]. apply sort_insert_HdRel; [|exact Hb].
      now apply compare_antisym.
    + repeat constructor; assumption.
Qed.

Lemma sort_sorted (l : list A) : Sorted (in_order compare) (sort compare l).
Proof.
  induction l as [|a l IH]; simpl; [constructor|].
  now apply sort_insert_sorted.
Qed.

Lemma sort_insert_perm (a : A) (l : list A) :
  Permutation (sort_insert compare a l) (a :: l).
Proof.
  induction l as [|b l IH]; simpl; [reflexivity|].
  destruct (0 <? compare a b)%float; [|reflexivity].
  rewrite IH. apply perm_swap.
Qed.

Lemma sort_perm (l : list A) : Permutation (sort compare l) l.
Proof.
  induction l as [|a l IH]; simpl; [reflexivity|].
  rewrite sort_insert_perm. now constructor.
Qed.

(** Stability: elements the comparator never separates keep the order in
    which they came. *)
Lemma sort_insert_filter (tie : A -> bool) (a : A) (l : list A) :
  (forall b, tie a = true -> tie b = true -> (in_order compare) a b) ->
  List.filter tie (sort_insert compare a l) = List.filter tie (a :: l).
Proof.
  intros Htie. induction l as [|b l IH]; [reflexivity|].
  simpl in *. destruct (0 <? compare a b)%float eqn:E; [|reflexivity].
  simpl. rewrite IH. destruct (tie a) eqn:Ha, (tie b) eqn:Hb; try reflexivity.
  rewrite (Htie b) in E by auto. discriminate.
Qed.

Lemma sort_stable (tie : A -> bool) (l : list A) :
  (forall a b, tie a = true -> tie b = true -> (in_order compare) a b) ->
  List.filter tie (sort compare l) = List.filter tie l.
Proof.
  intros Htie. induction l as [|a l IH]; [reflexivity|].
  simpl. rewrite sort_insert_filter by auto. simpl. now rewrite IH.
Qed.
End Sorting.

(** ** The category totals *)

Lemma add_expense_on_named (n : string) (v : jsval) (cats : list category) :
  add_expense n v cats = on_named n (add_value v) cats.
Proof.
  unfold add_expense, add_value. destruct (truthy v).
  - induction cats as [|c rest IH]; simpl; [reflexivity|].
    destruct (String.eqb (name c) n); [reflexivity|]. now rewrite IH.
  - induction cats as [|c rest IH]; simpl; [reflexivity|].
    destruct (String.eqb (name c) n); [now destruct c|]. now rewrite <- IH.
Qed.

Lemma add_unit_amounts (e : expense) (a1 a2 a3 a4 a5 a6 a7 a8 a9 a10 a11 : float) :
  add_unit e
    [Category "Rental" a1 None; Category "Electricity" a2 None;
     Category "Water" a3 None; Category "Sewage" a4 None;
     Category "Internet" a5 None; Category "Cleaner" a6 None;
     Category "Laundry" a7 None; Category "Supplies" a8 None;
     Category "Repair" a9 None; Category "Replace" a10 None;
     Category "Other" a11 None]
  = [Category "Rental" (add_value (field e "rental") a1) None;
     Category "Electricity" (add_value (field e "electricity") a2) None;
     Category "Water" (add_value (field e "water") a3) None;
     Category "Sewage" (add_value (field e "sewage") a4) None;
     Category "Internet" (add_value (field e "internet") a5) None;
     Category "Cleaner" (add_value (field e "cleaner") a6) None;
     Category "Laundry" (add_value (field e "laundry") a7) None;
     Category "Supplies" (add_value (field e "supplies") a8) None;
     Category "Repair" (add_value (field e "repair") a9) None;
     Category "Replace" (add_value (field e "replace") a10) None;
     Category "Other" (add_value (field e "other") a11) None].
Proof.
  unfold add_unit. rewrite !add_expense_on_named. reflexivity.
Qed.

Lemma category_totals_sums (data : api_data) (us : list unit) :
  category_totals data us
  = map (fun nk => Category (fst nk) (category_sum data (snd nk) us) None) category_keys.
Proof.
  unfold category_totals, category_sum, initial_categories, category_keys. simpl map.
  generalize 0%float at 1 12 as a1. generalize 0%float at 1 11 as a2.
  generalize 0%float at 1 10 as a3. generalize 0%float at 1 9 as a4.
  generalize 0%float at 1 8 as a5. generalize 0%float at 1 7 as a6.
  generalize 0%float at 1 6 as a7. generalize 0%float at 1 5 as a8.
  generalize 0%float at 1 4 as a9. generalize 0%float at 1 3 as a10.
  generalize 0%float as a11.
  induction us as [|u us IH]; intros; simpl; [reflexivity|].
  rewrite add_unit_amounts. apply IH.
Qed.

(** ** What a comma does to [parseFloat] *)










(** ** The shape of a [toFixed(2)] result *)

Lemma all_digits_app (a b : string) :
  all_digits (a +:+ b) = all_digits a && all_digits b.
Proof.
  induction a as [|c a IH]; simpl; [reflexivity|]. now rewrite IH, andb_assoc.
Qed.

Lemma all_digits_zeros (n : nat) : all_digits (JSNumber.zeros n) = true.
Proof. induction n; simpl; auto. Qed.

Lemma all_digits_uint (d : Decimal.uint) : all_digits (NilEmpty.string_of_uint d) = true.
Proof. induction d; simpl; auto. Qed.

Lemma all_digits_dec_string (n : Z) : all_digits (JSNumber.dec_string n) = true.
Proof.
  unfold JSNumber.dec_string, NilZero.string_of_uint.
  destruct (N.to_uint (Z.to_N n)) eqn:E; try reflexivity;
    rewrite <- E; apply all_digits_uint.
Qed.

Lemma length_app (a b : string) :
  String.length (a +:+ b) = (String.length a + String.length b)%nat.
Proof. induction a as [|c a IH]; simpl; [reflexivity|]. now rewrite IH. Qed.

Lemma length_zeros (n : nat) : String.length (JSNumber.zeros n) = n.
Proof. induction n; simpl; auto. Qed.

Lemma substring_prefix (a b : string) :
  substring 0 (String.length a) (a +:+ b) = a.
Proof.
  induction a as [|c a IH]; simpl; [now destruct b|]. now rewrite IH.
Qed.

Lemma substring_all (b : string) : substring 0 (String.length b) b = b.
Proof. induction b as [|c b IH]; simpl; [reflexivity|]. now rewrite IH. Qed.

Lemma substring_suffix (a b : string) :
  substring (String.length a) (String.length b) (a +:+ b) = b.
Proof.
  induction a as [|c a IH]; simpl; [apply substring_all|exact IH].
Qed.

Lemma last_two (m : string) :
  (2 <= String.length m)%nat ->
  exists a d1 d2, m = a +:+ String d1 (String d2 EmptyString).
Proof.
  induction m as [|c m IH]; simpl; [lia|]. intros H.
  destruct m as [|d m]; simpl in *; [lia|].
  destruct m as [|x m].
  - now exists EmptyString, c, d.
  - destruct IH as (a & d1 & d2 & E); [simpl; lia|].
    exists (String c a), d1, d2. rewrite E. reflexivity.
Qed.

Lemma span_digits_point (a r : string) :
  all_digits a = true -> JSString.span_digits (a +:+ String "." r) = (a, String "." r).
Proof.
  induction a as [|c a IH]; simpl; [reflexivity|].
  intros H. apply andb_true_iff in H as [Hc Ha]. now rewrite Hc, IH.
Qed.

Lemma digit_is_not_minus (c : ascii) : JSString.is_digit c = true -> Ascii.eqb c "-" = false.
Proof.
  intros H. destruct (Ascii.eqb_spec c "-") as [->|]; [discriminate|reflexivity].
Qed.

Lemma two_decimals_unsigned (c : ascii) (a : string) (d1 d2 : ascii) :
  all_digits (String c a) = true -> JSString.is_digit d1 = true -> JSString.is_digit d2 = true ->
  two_decimals (String c (a +:+ String "." (String d1 (String d2 EmptyString)))) = true.
Proof.
  intros Ha H1 H2. simpl in Ha. apply andb_true_iff in Ha as [Hc Ha].
  unfold two_decimals. rewrite (digit_is_not_minus c Hc).
  cbn [JSString.span_digits]. rewrite Hc, (span_digits_point a _ Ha).
  cbn. now rewrite H1, H2.
Qed.

(** The digits of [n], padded to three, with a point before the last two. *)
Lemma point_before_last_two (m : string) (neg : bool) :
  all_digits m = true -> (3 <= String.length m)%nat ->
  two_decimals
    ((if neg then "-" else "") +:+
     (substring 0 (String.length m - 2) m +:+ "." +:+
      substring (String.length m - 2) 2 m)) = true.
Proof.
  intros Hd Hl. destruct (last_two m) as (a & d1 & d2 & ->); [lia|].
  rewrite length_app in *. cbn [String.length] in *.
  replace (String.length a + 2 - 2)%nat with (String.length a) by lia.
  rewrite substring_prefix.
  pose proof (substring_suffix a (String d1 (String d2 EmptyString))) as Hsuf.
  cbn [String.length] in Hsuf. rewrite Hsuf. clear Hsuf.
  rewrite all_digits_app in Hd. apply andb_true_iff in Hd as [Ha Hd].
  simpl in Hd. rewrite andb_true_r in Hd. apply andb_true_iff in Hd as [H1 H2].
  destruct a as [|c a]; [simpl in Hl; lia|].
  pose proof (two_decimals_unsigned c a d1 d2 Ha H1 H2) as Hbody.
  destruct neg; [|exact Hbody].
  unfold two_decimals in *.
  change ("-" +:+ (String c a +:+ "." +:+ String d1 (String d2 EmptyString)))%string
    with (String "-" (String c (a +:+ String "." (String d1 (String d2 EmptyString))))).
  cbv iota. rewrite Ascii.eqb_refl.
  simpl in Ha. apply andb_true_iff in Ha as [Hc Ha].
  rewrite (digit_is_not_minus c Hc) in Hbody. exact Hbody.
Qed.

Lemma toFixed_two_decimals (x : float) :
  is_finite x = true -> (1e21 <=? abs x)%float = false ->
  two_decimals (JSNumber.toFixed 2 x) = true.
Proof.
  intros Hfin Hsmall. unfold JSNumber.toFixed. rewrite Hfin, Hsmall. cbn [negb].
  set (n := match JSNumber.exact_abs (abs x) with Some _ => _ | None => 0 end).
  set (m0 := JSNumber.dec_string n).
  set (m := if (String.length m0 <=? 2)%nat then _ else m0).
  apply point_before_last_two.
  - unfold m. destruct (String.length m0 <=? 2)%nat;
      [rewrite all_digits_app, all_digits_zeros|]; apply all_digits_dec_string.
  - unfold m. destruct (Nat.leb_spec (String.length m0) 2).
    + rewrite length_app, length_zeros. lia.
    + lia.
Qed.

(** ** Descending order *)

(** On positive Numbers, a list that [sort] left in the comparator's order
    [b - a] is in descending order. *)
Lemma descending_of_in_order {A : Type} (f : A -> float) (l : list A) :
  Forall (fun x => (0 <? f x)%float = true) l ->
  Sorted (in_order (fun a b => (f b - f a)%float)) l ->
  Sorted (fun a b => (f b <=? f a)%float = true) l.
Proof.
  intros Hpos Hs. induction Hs as [|a l Hs IH Hhd]; [constructor|].
  inversion Hpos as [|? ? Ha Hl]; subst.
  constructor; [now apply IH|].
  destruct Hhd as [|b l' Hab]; constructor.
  inversion Hl as [|? ? Hb _]; subst.
  unfold in_order in Hab.
  rewrite leb_positive, <- sub_positive_lt, Hab by assumption. reflexivity.
Qed.

Lemma In_sort_filter_positive {A : Type} (compare : A -> A -> float) (f : A -> float)
    (l : list A) :
  Forall (fun x => (0 <? f x)%float = true)
    (sort compare (List.filter (fun x => (0 <? f x)%float) l)).
Proof.
  rewrite List.Forall_forall. intros x Hx.
  apply (Permutation_in _ (sort_perm compare _)) in Hx.
  now apply filter_In in Hx as [_ Hx].
Qed.

(** ** The properties of the specification *)

(** *** The formula evaluator *)

(** C1.  The text "5--3" is an implicit formula body.  The normalization
    rules are applied in the order stated - runs of one operator are
    collapsed first, the sign rewrites come after, each once - and so the
    run [--] has become [-] before the rewrite of [--] to [+] can see it: the
    normalized text is "5-3" and the result is "2.00", in [calculateFormula]
    and in the cell that commits the text.  ("5+-3" gives "2.00" as well.) *)
Theorem calculateFormula_double_minus :
  JSString.collapse_runs "-" "5--3" = "5-3"%string
  /\ cleanExpression "5--3" = "5-3"%string
  /\ calculateFormula "5--3" = JSEval.Normal "2.00"%string
  /\ commit_evaluation "5--3" = Some (JSEval.Normal "2.00"%string)
  /\ value (target (on_blur 1 "sales" (fresh_cell "5--3"))) = "2.00"%string
  /\ cleanExpression "5+-3" = "5-3"%string
  /\ calculateFormula "5+-3" = JSEval.Normal "2.00"%string.
Proof. repeat split; vm_compute; reflexivity. Qed.

(** C1 as stated fails: the result for "5--3" is not "8.00". *)
Lemma calculateFormula_double_minus_is_not_8 :
  calculateFormula "5--3" <> JSEval.Normal "8.00"%string.
Proof. vm_compute. discriminate. Qed.

(** C2.  A division by zero does not fail.  [calculateFormula] has no test
    for a finite result: whenever the text passes the character check and
    its evaluation completes, the value is formatted and returned, so "1/0"
    gives "Infinity", "-1/0" gives "-Infinity" and "0/0" gives "NaN"; the
    cell that commits "=1/0" shows "Infinity", stores it with the formula and
    raises no error. *)
Theorem calculateFormula_returns_non_finite :
  calculateFormula "1/0" = JSEval.Normal "Infinity"%string
  /\ calculateFormula "-1/0" = JSEval.Normal "-Infinity"%string
  /\ calculateFormula "0/0" = JSEval.Normal "NaN"%string
  /\ (forall (expression : string) (result : JSEval.value),
        JSString.is_empty expression = false ->
        JSString.existsb (fun c => negb (allowed_char c)) (cleanExpression expression) = false ->
        JSEval.run (cleanExpression expression) = JSEval.Normal result ->
        calculateFormula expression
        = JSEval.Normal
            (JSNumber.toFixed 2 (JSString.parseFloat (JSEval.ToString result))))
  /\ (let p := on_blur 1 "sales" (fresh_cell "=1/0") in
      value (target p) = "Infinity"%string
      /\ currentExpenses p !! 1
         = Some ({[ "sales" := JStr "Infinity"; "sales_formula" := JStr "=1/0" ]} : expense)
      /\ classList (target p) = []).
Proof.
  split; [vm_compute; reflexivity|]. split; [vm_compute; reflexivity|].
  split; [vm_compute; reflexivity|]. split.
  - intros expression result Hne Hok Hrun. unfold calculateFormula.
    now rewrite Hne, Hok, Hrun.
  - repeat split; vm_compute; reflexivity.
Qed.

(** C2 as stated fails: "1/0" is no failure, neither of [calculateFormula]
    nor of the cell, whose text is replaced. *)
Lemma division_by_zero_does_not_fail :
  ~ (exists e, calculateFormula "1/0" = JSEval.Throw e)
  /\ ~ evaluation_fails "1/0"
  /\ value (target (on_blur 1 "sales" (fresh_cell "1/0"))) <> "1/0"%string.
Proof.
  split; [|split].
  - intros [e H]. vm_compute in H. discriminate.
  - intros [e H]. vm_compute in H. discriminate.
  - vm_compute. discriminate.
Qed.

Lemma class_remove_gone (c : string) (l : list string) :
  List.existsb (String.eqb c) (class_remove c l) = false.
Proof.
  induction l as [|x l IH]; simpl; [reflexivity|].
  destruct (String.eqb c x) eqn:E; simpl; [exact IH|]. now rewrite E.
Qed.

Ltac on_blur_simpl :=
  unfold calculation_error, run_timer, set_target;
  cbn [value target classList dataset_formula dataset_displayValue
       currentExpenses net_earn_cells timers remove_class].

(** C4.  When the text committed in a cell fails evaluation, the [blur]
    listener leaves the displayed value, the in-memory expense records (the
    values and the formula texts stored in them) and the net-earn cells as
    they were at the commit.  It only adds the class [calculation-error] to
    the input and sets a timer of 2000 ms; when that timer runs the class is
    gone again and nothing else has changed. *)
Theorem on_blur_failure (unitId : Z) (column : string) (p : page) :
  evaluation_fails (value (target p)) ->
  let p' := on_blur unitId column p in
  value (target p') = value (target p)
  /\ currentExpenses p' = currentExpenses p
  /\ net_earn_cells p' = net_earn_cells p
  /\ dataset_displayValue (target p') = dataset_displayValue (target p)
  /\ classList (target p') = class_add "calculation-error" (classList (target p))
  /\ timers p' = timers p ++ [Timer 2000 "calculation-error"]
  /\ (let cleared := run_timer (Timer 2000 "calculation-error") p' in
      List.existsb (String.eqb "calculation-error") (classList (target cleared)) = false
      /\ value (target cleared) = value (target p)
      /\ currentExpenses cleared = currentExpenses p
      /\ net_earn_cells cleared = net_earn_cells p).
Proof.
  intros [e He] p'. unfold commit_evaluation in He. unfold p', on_blur.
  destruct (negb (JSString.is_empty (JSString.trim (value (target p))))
            && String.prefix "=" (JSString.trim (value (target p)))).
  - injection He as ->. on_blur_simpl.
    repeat split. apply class_remove_gone.
  - destruct (negb (JSString.is_empty (JSString.trim (value (target p))))
              && JSString.existsb is_operator_char (JSString.trim (value (target p))));
      [|discriminate].
    injection He as ->.
    destruct (dataset_truthy (dataset_formula (target p))); on_blur_simpl;
      repeat split; apply class_remove_gone.
Qed.

(** The failed commit at the cell whose formula [=1+2] was edited to [=1+]. *)
Lemma on_blur_failure_witness :
  evaluation_fails (value (target (editing "=1+")))
  /\ value (target (on_blur 1 "sales" (editing "=1+"))) = "=1+"%string
  /\ currentExpenses (on_blur 1 "sales" (editing "=1+"))
     = {[ 1 := {[ "sales" := JStr "=1+"; "sales_formula" := JStr "=1+2" ]} ]}
  /\ classList (target (on_blur 1 "sales" (editing "=1+"))) = ["calculation-error"%string].
Proof.
  assert (H : evaluation_fails (value (target (editing "=1+")))).
  { exists JSEval.SyntaxError. vm_compute. reflexivity. }
  split; [exact H|].
  pose proof (on_blur_failure 1 "sales" (editing "=1+") H) as (Hv & He & _ & _ & Hc & _).
  split; [rewrite Hv; vm_compute; reflexivity|].
  split; [rewrite He; vm_compute; reflexivity|].
  rewrite Hc. vm_compute. reflexivity.
Defined.

(** C4 as stated fails: the formula text stored on the input does not
    survive a failed commit.  The cell held [=1+2]; committing [=1+] leaves
    [=1+] as its formula, committing [1+] leaves none.  (The record, for its
    part, took the typed text when it was typed, before the commit.) *)
Lemma on_blur_failure_changes_formula :
  evaluation_fails (value (target (editing "=1+")))
  /\ dataset_formula (target (editing "=1+")) = Some "=1+2"%string
  /\ dataset_formula (target (on_blur 1 "sales" (editing "=1+"))) = Some "=1+"%string
  /\ dataset_formula (target (on_blur 1 "sales" (editing "=1+")))
     <> dataset_formula (target (editing "=1+"))
  /\ evaluation_fails (value (target (editing "1+")))
  /\ dataset_formula (target (editing "1+")) = Some "=1+2"%string
  /\ dataset_formula (target (on_blur 1 "sales" (editing "1+"))) = None
  /\ dataset_formula (target (on_blur 1 "sales" (editing "1+")))
     <> dataset_formula (target (editing "1+"))
  /\ currentExpenses (editing "=1+")
     = {[ 1 := {[ "sales" := JStr "=1+"; "sales_formula" := JStr "=1+2" ]} ]}.
Proof.
  repeat split; try (vm_compute; reflexivity); try (vm_compute; discriminate);
    exists JSEval.SyntaxError; vm_compute; reflexivity.
Qed.

(** *** The aggregation views *)

(** C8.  [calculatePercentChange previous current] is
    [(current - previous) / previous * 100] when [previous] is not 0; when
    it is 0 the result is 100 for a positive [current] and 0 otherwise.  So
    (0, 50) gives 100, (0, 0) gives 0 and (100, 50) gives -50. *)
Theorem calculatePercentChange_spec :
  (forall previous current : float,
      ((previous =? 0)%float = false ->
       calculatePercentChange previous current
       = (((current - previous) / previous) * 100)%float)
      /\ ((previous =? 0)%float = true -> (0 <? current)%float = true ->
          calculatePercentChange previous current = 100%float)
      /\ ((previous =? 0)%float = true -> (0 <? current)%float = false ->
          calculatePercentChange previous current = 0%float))
  /\ calculatePercentChange 0 50 = 100%float
  /\ calculatePercentChange 0 0 = 0%float
  /\ calculatePercentChange 100 50 = (-50)%float.
Proof.
  split; [|repeat split; vm_compute; reflexivity].
  intros previous current. unfold calculatePercentChange.
  repeat split; intros; repeat match goal with H : _ = _ |- _ => rewrite H end;
    reflexivity.
Qed.

(** C3.  The profit-and-loss statement computes its three changes in place:
    [(current - previous) / previous * 100], and 0 when the previous total is
    0, whatever the current one.  That is [calculatePercentChange] except
    where the previous total is 0 and the current one positive. *)
Theorem updatePnLStatement_changes
    (selectedUnit : unit_selection) (currentData prevData : api_data) :
  let s := updatePnLStatement selectedUnit currentData prevData in
  let change (previous current : float) :=
    if (previous =? 0)%float then 0%float
    else (((current - previous) / previous) * 100)%float in
  revenueChange s = change (prevTotalSales s) (totalRevenue s)
  /\ expensesChange s = change (prevTotalExpenses s) (totalExpenses s)
  /\ incomeChange s = change (prevNetIncome s) (netIncome s)
  /\ netIncome s = (totalRevenue s - totalExpenses s)%float
  /\ prevNetIncome s = (prevTotalSales s - prevTotalExpenses s)%float
  /\ (forall previous current : float,
        (previous =? 0)%float = true -> change previous current = 0%float)
  /\ (forall previous current : float,
        (previous =? 0)%float = false \/ (0 <? current)%float = false ->
        change previous current = calculatePercentChange previous current).
Proof.
  intros s change. unfold s, updatePnLStatement.
  destruct (fold_left _ (filter_units selectedUnit (units prevData)) _)
    as [prevSales prevExpenses].
  cbn [revenueChange expensesChange incomeChange netIncome prevNetIncome
       prevTotalSales prevTotalExpenses totalRevenue totalExpenses].
  repeat split.
  - intros previous current H. unfold change. now rewrite H.
  - intros previous current H. unfold change, calculatePercentChange.
    destruct (previous =? 0)%float; [|reflexivity].
    destruct H as [H|H]; [discriminate|now rewrite H].
Qed.

(** C3 as stated fails: with no sales the month before and sales of 50 now,
    the statement reports a change of 0 where [calculatePercentChange]
    gives 100. *)
Lemma updatePnLStatement_zero_guard_differs :
  let s := updatePnLStatement AllUnits
             (one_unit {[ "sales" := JStr "50" ]}) (one_unit ∅) in
  prevTotalSales s = 0%float
  /\ totalRevenue s = 50%float
  /\ revenueChange s = 0%float
  /\ calculatePercentChange (prevTotalSales s) (totalRevenue s) = 100%float
  /\ revenueChange s <> calculatePercentChange (prevTotalSales s) (totalRevenue s).
Proof.
  repeat split; try (vm_compute; reflexivity).
  vm_compute. intros H.
  assert (E : (0 =? 100)%float = true) by (rewrite H; reflexivity).
  vm_compute in E. discriminate.
Qed.

Lemma by_amount_desc_antisym (a b : category) :
  (0 <? by_amount_desc a b)%float = true -> (0 <? by_amount_desc b a)%float = false.
Proof. apply sub_positive_antisym. Qed.

Lemma by_total_desc_antisym (a b : unit_total) :
  (0 <? by_total_desc a b)%float = true -> (0 <? by_total_desc b a)%float = false.
Proof. apply sub_positive_antisym. Qed.

Lemma filter_positive_nil {A : Type} (f : A -> float) (l : list A) :
  Forall (fun x => (f x =? 0)%float = true) l ->
  List.filter (fun x => (0 <? f x)%float) l = [].
Proof.
  induction 1 as [|x l Hx _ IH]; simpl; [reflexivity|].
  destruct (0 <? f x)%float eqn:E; [|exact IH].
  apply positive_not_zero in E. congruence.
Qed.

Lemma Sorted_firstn {A : Type} (R : A -> A -> Prop) (n : nat) (l : list A) :
  Sorted R l -> Sorted R (firstn n l).
Proof.
  intros H. revert n. induction H as [|a l Hl IH Ha]; intros [|n]; simpl; try constructor.
  - apply IH.
  - destruct Ha as [|b l' Hab]; destruct n; simpl; constructor; assumption.
Qed.

Lemma In_firstn {A : Type} (n : nat) (l : list A) (x : A) :
  In x (firstn n l) -> In x l.
Proof.
  revert n. induction l as [|a l IH]; intros [|n]; simpl; try tauto.
  intros [->|H]; eauto.
Qed.

Lemma round_nearest (x : float) (s : bool) (m : positive) (e : Z) :
  Prim2SF x = S754_finite s m e ->
  if 0 <=? e then JSNumber.round x = x
  else exists n : Z,
      (2 * n - 1) * 2 ^ (- e) <= 2 * (if s then Z.neg m else Z.pos m) < (2 * n + 1) * 2 ^ (- e)
      /\ JSNumber.round x = if (n =? 0) && s then neg_zero else JSNumber.of_Z n.
Proof.
  intros Hx. unfold JSNumber.round.
  assert (Hfin : negb (is_finite x) || is_zero x = false).
  { unfold is_finite, is_nan, is_infinity, is_zero.
    rewrite !FloatAxioms.eqb_spec, abs_spec, Hx.
    change (Prim2SF infinity) with (S754_infinity false).
    change (Prim2SF zero) with (S754_zero false).
    unfold SFeqb. cbn [SFabs SFcompare].
    rewrite Z.compare_refl, Pos.compare_cont_refl.
    now destruct s. }
  rewrite Hfin, Hx.
  destruct (0 <=? e) eqn:He; [reflexivity|].
  apply Z.leb_gt in He. cbv zeta.
  set (num := if s then Z.neg m else Z.pos m).
  set (den := 2 ^ (- e)).
  assert (Hden : 0 < den) by (apply Z.pow_pos_nonneg; lia).
  exists ((2 * num + den) / (2 * den)). split; [|reflexivity].
  pose proof (Z.mul_div_le (2 * num + den) (2 * den) ltac:(lia)) as Hlow.
  pose proof (Z.mul_succ_div_gt (2 * num + den) (2 * den) ltac:(lia)) as Hhigh.
  nia.
Qed.

Lemma category_names_differ (data : api_data) (us : list unit) (a b : category) :
  let totals :=
    map (fun nk => Category (fst nk) (category_sum data (snd nk) us) None) category_keys in
  In a totals -> In b totals -> name a = name b -> a = b.
Proof.
  cbv zeta. unfold category_keys. cbn [map fst snd In].
  intros Ha Hb.
  repeat (destruct Ha as [<-|Ha]; [|]); try contradiction;
    (repeat (destruct Hb as [<-|Hb]; [|]); try contradiction);
    cbn [name]; intros E; try reflexivity; discriminate E.
Qed.

(** C5.  [processExpenseData] sums each of the eleven categories over the
    units that the selection keeps - every unit, or the units with the
    selected id -, keeps the categories whose sum is greater than 0, takes as
    total the sum of the kept ones, gives each its share of that total in
    whole percent, and returns them in descending order of amount.  A sum of
    0 is dropped, and so is a negative one or NaN: no category of that name
    is in the list.  The top category is the first of the list; when every
    category sums to zero the list is empty and the top category is
    [{ name: 'None', percentage: 0 }].  The share is rounded as [Math.round]
    does: [x = m * 2^e] with [e < 0] gives the integer [n] with
    [n - 1/2 <= x < n + 1/2].  The examples: two units, selected together
    and one alone, and shares of 99.5 and 0.5 percent. *)
Theorem processExpenseData_categories (apiData : api_data) (unitId : unit_selection) :
  let filteredUnits :=
    match unitId with
    | AllUnits => units apiData
    | OneUnit selected => List.filter (fun u => id u =? selected) (units apiData)
    end in
  let totals :=
    map (fun nk => Category (fst nk) (category_sum apiData (snd nk) filteredUnits) None)
      category_keys in
  let surviving := List.filter (fun c => (0 <? amount c)%float) totals in
  let result := processExpenseData apiData unitId in
  total result = fold_left (fun sum c => (sum + amount c)%float) surviving 0%float
  /\ Permutation (categories result) (map (with_percentage (total result)) surviving)
  /\ Sorted (fun a b => (amount b <=? amount a)%float = true) (categories result)
  /\ Forall (fun c => (0 <? amount c)%float = true /\ (amount c =? 0)%float = false)
       (categories result)
  /\ (forall c, In c totals -> (0 <? amount c)%float = false ->
                ~ In (name c) (map name (categories result)))
  /\ topExpense result
     = match categories result with
       | c :: _ => TopExpense (name c) (Some (amount c)) (percentage c)
       | [] => TopExpense "None" None (Some 0%float)
       end
  /\ (Forall (fun c => (amount c =? 0)%float = true) totals ->
      categories result = []
      /\ topExpense result = TopExpense "None" None (Some 0%float))
  /\ (forall (x : float) (s : bool) (m : positive) (e : Z),
        Prim2SF x = S754_finite s m e -> e < 0 ->
        exists n : Z,
          (2 * n - 1) * 2 ^ (- e) <= 2 * (if s then Z.neg m else Z.pos m)
                                  < (2 * n + 1) * 2 ^ (- e)
          /\ JSNumber.round x = if (n =? 0) && s then neg_zero else JSNumber.of_Z n)
  /\ (let both := processExpenseData mixed_units AllUnits in
      total both = 257.5%float
      /\ categories both
         = [Category "Rental" 200.5 (Some 78%float);
            Category "Electricity" 50 (Some 19%float);
            Category "Sewage" 7 (Some 3%float)])
  /\ (let second := processExpenseData mixed_units (OneUnit 2) in
      total second = 107.5%float
      /\ categories second
         = [Category "Rental" 100.5 (Some 93%float); Category "Sewage" 7 (Some 7%float)])
  /\ categories
       (processExpenseData
          (one_unit (record_of [("rental", "199"); ("water", "1")]%string)) AllUnits)
     = [Category "Rental" 199 (Some 100%float); Category "Water" 1 (Some 1%float)].
Proof.
  intros filteredUnits totals surviving result.
  assert (Hunits : filter_units unitId (units apiData) = filteredUnits)
    by (unfold filteredUnits; now destruct unitId).
  assert (Hcats : categories result
                  = sort by_amount_desc (map (with_percentage (total result)) surviving)).
  { unfold result, processExpenseData, surviving, totals. cbv zeta.
    now rewrite Hunits, category_totals_sums. }
  assert (Htotal : total result
                   = fold_left (fun sum c => (sum + amount c)%float) surviving 0%float).
  { unfold result, processExpenseData, surviving, totals. cbv zeta.
    now rewrite Hunits, category_totals_sums. }
  assert (Htop : topExpense result
                 = match categories result with
                   | c :: _ => TopExpense (name c) (Some (amount c)) (percentage c)
                   | [] => TopExpense "None" None (Some 0%float)
                   end) by reflexivity.
  split; [exact Htotal|].
  split; [rewrite Hcats; apply sort_perm|].
  assert (Hpos : Forall (fun c => (0 <? amount c)%float = true) (categories result)).
  { rewrite List.Forall_forall. intros c Hc. rewrite Hcats in Hc.
    apply (Permutation_in _ (sort_perm by_amount_desc _)) in Hc.
    apply in_map_iff in Hc as (c0 & <- & Hc0).
    apply filter_In in Hc0 as [_ Hc0]. exact Hc0. }
  split.
  { apply (descending_of_in_order amount); [exact Hpos|].
    rewrite Hcats. apply (sort_sorted by_amount_desc by_amount_desc_antisym). }
  split.
  { eapply List.Forall_impl; [|exact Hpos]. intros c Hc.
    split; [exact Hc|now apply positive_not_zero]. }
  split.
  { intros c Hc Hdrop Hin.
    apply in_map_iff in Hin as (c1 & Hname & Hc1). rewrite Hcats in Hc1.
    apply (Permutation_in _ (sort_perm by_amount_desc _)) in Hc1.
    apply in_map_iff in Hc1 as (c0 & <- & Hc0).
    apply filter_In in Hc0 as [Hc0 Hkept].
    assert (E : c0 = c) by (apply (category_names_differ apiData filteredUnits); assumption).
    rewrite E in Hkept. congruence. }
  split; [exact Htop|].
  split.
  { intros Hzero.
    assert (Hnil : categories result = []).
    { rewrite Hcats. unfold surviving. now rewrite filter_positive_nil. }
    split; [exact Hnil|]. now rewrite Htop, Hnil. }
  split.
  { intros x s m e Hx He. pose proof (round_nearest x s m e Hx) as Hround.
    destruct (Z.leb_spec 0 e); [lia|exact Hround]. }
  split; [split; vm_compute; reflexivity|].
  split; [split; vm_compute; reflexivity|].
  vm_compute. reflexivity.
Qed.

(** C5 as stated fails: a category that sums to -5, which is not zero, is not
    in the list, and it does not count in the total either: the rental of
    100 is 100 percent of it. *)
Lemma processExpenseData_drops_negative_sum :
  let data := one_unit (record_of [("rental", "100"); ("other", "-5")]%string) in
  let result := processExpenseData data AllUnits in
  category_sum data "other" (units data) = (-5)%float
  /\ ((-5) =? 0)%float = false
  /\ categories result = [Category "Rental" 100 (Some 100%float)]
  /\ ~ In "Other"%string (map name (categories result))
  /\ total result = 100%float.
Proof.
  repeat split; try (vm_compute; reflexivity).
  vm_compute. intros [H|[]]. discriminate H.
Qed.

Lemma SFeqb_tie (x y t : spec_float) :
  SFeqb x t = true -> SFeqb y t = true -> SFeqb x y = true.
Proof.
  unfold SFeqb.
  destruct x as [sx|sx| |sx mx ex], y as [sy|sy| |sy my ey], t as [st|st| |st mt et];
    simpl; try discriminate; try reflexivity;
    try (destruct sx, sy, st; simpl; congruence);
    try (destruct sx, st; simpl; congruence);
    try (destruct sy, st; simpl; congruence).
  change (Pos.compare_cont Eq mx mt) with (Pos.compare mx mt).
  change (Pos.compare_cont Eq my mt) with (Pos.compare my mt).
  change (Pos.compare_cont Eq mx my) with (Pos.compare mx my).
  intros Hx Hy.
  assert (sx = st /\ ex = et /\ mx = mt) as (-> & -> & ->).
  { destruct sx, st; try discriminate;
      destruct (Z.compare_spec ex et); try discriminate;
      destruct (Pos.compare_spec mx mt); try discriminate; auto. }
  assert (sy = st /\ ey = et /\ my = mt) as (-> & -> & ->).
  { destruct sy, st; try discriminate;
      destruct (Z.compare_spec ey et); try discriminate;
      destruct (Pos.compare_spec my mt); try discriminate; auto. }
  exact Hx.
Qed.

Lemma tie_in_order (x y t : float) :
  (x =? t)%float = true -> (y =? t)%float = true -> (0 <? y - x)%float = false.
Proof.
  rewrite !FloatAxioms.eqb_spec. intros Hx Hy.
  destruct (0 <? y - x)%float eqn:E; [|reflexivity].
  apply sub_positive_not_eq in E. rewrite FloatAxioms.eqb_spec in E.
  rewrite (SFeqb_tie _ _ _ Hx Hy) in E. discriminate.
Qed.

Lemma amount_of_text (e : expense) (key : string) :
  amount_of e key
  = JSString.parseFloat
      (match e !! key with
       | Some v => if truthy v then ToString v else "0"
       | None => "0"
       end).
Proof.
  unfold amount_of, parseFloat, or_zero, field.
  destruct (e !! key) as [v|]; [|reflexivity].
  change (default JUndefined (Some v)) with v. now destruct (truthy v).
Qed.

Lemma unit_total_expense_sum (e : expense) : unit_total_expense e = non_sales_total e.
Proof.
  unfold unit_total_expense, non_sales_total. rewrite !amount_of_text. reflexivity.
Qed.

(** C7.  [calculateTopExpenseUnits] totals the eleven categories other than
    sales of each unit ([non_sales_total]: rental, electricity, water,
    sewage, internet, cleaner, laundry, supplies, repair, replace and other),
    keeps the units whose total is positive - none with total 0 -, and
    returns the first 10 of them in descending order of total.  The order is
    that of a stable sort: units of equal total stay in the order of the unit
    list.  Of the four units of the example, the one with sales only is left
    out, and the sales of the others do not count. *)
Theorem calculateTopExpenseUnits_ranking (data : api_data) :
  let totals :=
    map (fun u => UnitTotal (id u) (unit_number u)
                    (non_sales_total (default ∅ (expenses data !! id u))))
      (units data) in
  let nonZero := List.filter (fun u => (0 <? total_expense u)%float) totals in
  let result := calculateTopExpenseUnits data in
  (exists ranked,
    result = firstn 10 ranked
    /\ Permutation ranked nonZero
    /\ Sorted (fun a b => (total_expense b <=? total_expense a)%float = true) ranked
    /\ (forall t, List.filter (fun u => (total_expense u =? t)%float) ranked
                  = List.filter (fun u => (total_expense u =? t)%float) nonZero)
    /\ Sorted (fun a b => (total_expense b <=? total_expense a)%float = true) result
    /\ (List.length result <= 10)%nat
    /\ Forall (fun u => (0 <? total_expense u)%float = true
                        /\ (total_expense u =? 0)%float = false) result)
  /\ calculateTopExpenseUnits four_units
     = [UnitTotal 4 "B-2" 2047; UnitTotal 1 "A-1" 105.5; UnitTotal 3 "B-1" 1].
Proof.
  intros totals nonZero result. split; [|vm_compute; reflexivity].
  exists (sort by_total_desc nonZero).
  assert (Hsorted : Sorted (fun a b => (total_expense b <=? total_expense a)%float = true)
                      (sort by_total_desc nonZero)).
  { apply (descending_of_in_order total_expense).
    - apply In_sort_filter_positive.
    - apply (sort_sorted by_total_desc by_total_desc_antisym). }
  assert (Hresult : result = firstn 10 (sort by_total_desc nonZero)).
  { unfold result, calculateTopExpenseUnits, nonZero, totals. cbv zeta.
    do 3 f_equal. apply map_ext. intros u. f_equal. apply unit_total_expense_sum. }
  split; [exact Hresult|]. rewrite Hresult.
  split; [apply sort_perm|].
  split; [exact Hsorted|].
  split.
  { intros t. apply sort_stable. intros a b Ha Hb. now apply (tie_in_order _ _ t). }
  split; [now apply Sorted_firstn|].
  split; [apply firstn_le_length|].
  - rewrite List.Forall_forall. intros u Hu.
    apply In_firstn in Hu.
    apply (Permutation_in _ (sort_perm by_total_desc _)) in Hu.
    apply filter_In in Hu as [_ Hpos].
    split; [exact Hpos|now apply positive_not_zero].
Qed.

(** The thresholds of [performance_of] are nested: a percentage that reaches
    a higher one reaches the lower ones. *)
Lemma SFleb_lower_exponent (ma mb : positive) (ea eb : Z) (x : spec_float) :
  eb < ea ->
  SFleb (S754_finite false ma ea) x = true ->
  SFleb (S754_finite false mb eb) x = true.
Proof.
  intros Hlt. unfold SFleb, SFcompare.
  destruct x as [s|[]| |[] m e]; try discriminate; try reflexivity.
  destruct (Z.compare_spec ea e), (Z.compare_spec eb e);
    try discriminate; try reflexivity; lia.
Qed.

Lemma leb_50_20 (x : float) : (50 <=? x)%float = true -> (20 <=? x)%float = true.
Proof.
  rewrite !FloatAxioms.leb_spec.
  set (a := Prim2SF 50). set (b := Prim2SF 20). vm_compute in a, b. subst a b.
  apply SFleb_lower_exponent. lia.
Qed.

Lemma leb_20_5 (x : float) : (20 <=? x)%float = true -> (5 <=? x)%float = true.
Proof.
  rewrite !FloatAxioms.leb_spec.
  set (a := Prim2SF 20). set (b := Prim2SF 5). vm_compute in a, b. subst a b.
  apply SFleb_lower_exponent. lia.
Qed.

(** C6.  Each row of the ROI table has
    [netProfit = sales - rental - (sum of the ten other categories)],
    [roi = netProfit / rental * 100] for a positive rental and 0 otherwise,
    and the performance Excellent from 50, Good from 20, Average from 5 and
    Poor below.  The "All Units" footer applies the same formula and the same
    thresholds to the summed net profits and rentals: with one unit at 100%
    and one at 0% on three times the rental it shows 25%, not the mean 50%. *)
Theorem updateROIAnalysis_spec (selectedUnit : unit_selection) (data : api_data) :
  let analysis := updateROIAnalysis selectedUnit data in
  rows analysis
  = map (fun u => roi_of_unit u (unit_expenses data u))
      (filter_units selectedUnit (units data))
  /\ (forall (u : unit) (e : expense),
        let row := roi_of_unit u e in
        netProfit row
        = (amount_of e "sales" - amount_of e "rental"
           - (amount_of e "electricity" + amount_of e "water" + amount_of e "sewage"
              + amount_of e "internet" + amount_of e "cleaner" + amount_of e "laundry"
              + amount_of e "supplies" + amount_of e "repair" + amount_of e "replace"
              + amount_of e "other"))%float
        /\ rental row = amount_of e "rental"
        /\ roi row = (if (0 <? rental row)%float
                      then ((netProfit row / rental row) * 100)%float else 0%float)
        /\ performance row = performance_of (roi row))
  /\ (forall roiPercent : float,
        ((50 <=? roiPercent)%float = true -> performance_of roiPercent = "Excellent"%string)
        /\ ((50 <=? roiPercent)%float = false -> (20 <=? roiPercent)%float = true ->
            performance_of roiPercent = "Good"%string)
        /\ ((20 <=? roiPercent)%float = false -> (5 <=? roiPercent)%float = true ->
            performance_of roiPercent = "Average"%string)
        /\ ((5 <=? roiPercent)%float = false -> performance_of roiPercent = "Poor"%string))
  /\ totalNetProfit analysis
     = fold_left (fun acc r => (acc + netProfit r)%float) (rows analysis) 0%float
  /\ roi_totalRental analysis
     = fold_left (fun acc r => (acc + rental r)%float) (rows analysis) 0%float
  /\ totalRoi analysis
     = (if (0 <? roi_totalRental analysis)%float
        then ((totalNetProfit analysis / roi_totalRental analysis) * 100)%float
        else 0%float)
  /\ totalPerformance analysis = performance_of (totalRoi analysis)
  /\ (let row := roi_of_unit (Unit 1 "A-1" "A")
                   (record_of [("sales", "1000"); ("rental", "500"); ("other", "100")]%string) in
      netProfit row = 400%float /\ roi row = 80%float
      /\ performance row = "Excellent"%string)
  /\ (let all := updateROIAnalysis AllUnits two_units in
      map roi (rows all) = [100%float; 0%float]
      /\ totalNetProfit all = 100%float /\ roi_totalRental all = 400%float
      /\ totalRoi all = 25%float /\ totalPerformance all = "Good"%string).
Proof.
  intros analysis. split; [reflexivity|]. split.
  { intros u e row. repeat split. }
  split.
  { intros x. unfold performance_of. repeat split.
    - intros H. now rewrite H.
    - intros H H0. now rewrite H, H0.
    - intros H H0.
      destruct (50 <=? x)%float eqn:E50;
        [apply leb_50_20 in E50; congruence|now rewrite H, H0].
    - intros H.
      destruct (20 <=? x)%float eqn:E20; [apply leb_20_5 in E20; congruence|].
      destruct (50 <=? x)%float eqn:E50; [apply leb_50_20 in E50; congruence|].
      now rewrite H. }
  split; [reflexivity|]. split; [reflexivity|]. split; [reflexivity|].
  split; [reflexivity|].
  split; repeat split; vm_compute; reflexivity.
Qed.

(** C9.  [calculateNetEarn] subtracts the eleven non-sales values from the
    sales value, one after the other, and renders the result with
    [toFixed(2)].  A value that is missing, [null], empty or 0 counts as 0; a
    text is read by [parseFloat] after its commas are removed, and counts as
    0 when that gives NaN.  The rendering has exactly two decimal places
    whenever the result is finite and below 10^21 in magnitude.  The record
    with sales "100", rental "30" and electricity "10" gives "60.00". *)
Theorem calculateNetEarn_spec (e : expense) :
  let v key := getValue (field e key) in
  let netEarn :=
    (v "sales" - v "rental" - v "electricity" - v "water" - v "sewage"
     - v "internet" - v "cleaner" - v "laundry" - v "supplies"
     - v "repair" - v "replace" - v "other")%float in
  calculateNetEarn e = JSNumber.toFixed 2 netEarn
  /\ (forall value : jsval, truthy value = false -> getValue value = 0%float)
  /\ (e !! "sales" = None -> v "sales" = 0%float)
  /\ getValue JUndefined = 0%float /\ getValue JNull = 0%float
  /\ getValue (JStr "") = 0%float
  /\ (forall s : string,
        JSString.is_empty s = false ->
        let num := JSString.parseFloat (JSString.remove_char "," s) in
        getValue (JStr s) = if is_nan num then 0%float else num)
  /\ (is_finite netEarn = true -> (1e21 <=? abs netEarn)%float = false ->
      two_decimals (calculateNetEarn e) = true)
  /\ calculateNetEarn
       (record_of [("sales", "100"); ("rental", "30"); ("electricity", "10")]%string)
     = "60.00"%string.
Proof.
  intros v netEarn. split; [reflexivity|]. split.
  { intros value H. unfold getValue. now rewrite H. }
  split.
  { intros H. unfold v, field. now rewrite H. }
  split; [reflexivity|]. split; [reflexivity|]. split; [reflexivity|]. split.
  { intros s Hs num. unfold getValue. cbn [truthy]. now rewrite Hs. }
  split.
  { intros Hfin Hsmall. now apply toFixed_two_decimals. }
  vm_compute. reflexivity.
Qed.

(** C9 as stated fails: a result of 10^21 or more, or an infinite one, is
    rendered without decimal places. *)
Lemma calculateNetEarn_not_always_two_decimals :
  calculateNetEarn {[ "sales" := JStr "1e21" ]} = "1e+21"%string
  /\ two_decimals (calculateNetEarn {[ "sales" := JStr "1e21" ]}) = false
  /\ calculateNetEarn {[ "sales" := JStr "Infinity" ]} = "Infinity"%string
  /\ two_decimals (calculateNetEarn {[ "sales" := JStr "Infinity" ]}) = false.
Proof. repeat split; vm_compute; reflexivity. Qed.


(** ** Further properties of the code *)

(** *** Characters the formula evaluator refuses *)

Lemma existsb_collapse_runs (p : ascii -> bool) (c : ascii) (s : string) :
  p c = false ->
  JSString.existsb p (JSString.collapse_runs c s) = JSString.existsb p s.
Proof.
  intros Hc. induction s as [|a s IH]; [reflexivity|].
  destruct s as [|b s']; [reflexivity|].
  change (JSString.collapse_runs c (String a (String b s')))
    with (if Ascii.eqb a c && Ascii.eqb b c
          then JSString.collapse_runs c (String b s')
          else String a (JSString.collapse_runs c (String b s'))).
  destruct (Ascii.eqb_spec a c) as [->|]; cbn [andb].
  - destruct (Ascii.eqb b c).
    + rewrite IH. cbn [JSString.existsb]. now rewrite Hc.
    + cbn [JSString.existsb] in *. now rewrite IH.
  - cbn [JSString.existsb] in *. now rewrite IH.
Qed.

Lemma existsb_replace_pair (p : ascii -> bool) (a b r : ascii) (s : string) :
  p a = false -> p b = false -> p r = false ->
  JSString.existsb p (JSString.replace_pair a b r s) = JSString.existsb p s.
Proof.
  intros Ha Hb Hr.
  assert (H : forall n s, (String.length s <= n)%nat ->
              JSString.existsb p (JSString.replace_pair a b r s) = JSString.existsb p s).
  { clear s. induction n as [|n IH]; intros s Hn.
    - destruct s; [reflexivity|simpl in Hn; lia].
    - destruct s as [|x [|y s'']]; [reflexivity|reflexivity|].
      change (JSString.replace_pair a b r (String x (String y s'')))
        with (if Ascii.eqb x a && Ascii.eqb y b
              then String r (JSString.replace_pair a b r s'')
              else String x (JSString.replace_pair a b r (String y s''))).
      simpl in Hn.
      destruct (Ascii.eqb_spec x a) as [->|]; cbn [andb].
      + destruct (Ascii.eqb_spec y b) as [->|].
        * cbn [JSString.existsb]. rewrite IH by lia. now rewrite Ha, Hb, Hr.
        * cbn [JSString.existsb]. rewrite IH by (simpl; lia). reflexivity.
      + cbn [JSString.existsb]. rewrite IH by (simpl; lia). reflexivity. }
  now apply (H (String.length s)).
Qed.

Lemma existsb_cleanExpression (p : ascii -> bool) (expression : string) :
  p "+"%char = false -> p "-"%char = false -> p "*"%char = false -> p "/"%char = false ->
  JSString.existsb p (cleanExpression expression) = JSString.existsb p expression.
Proof.
  intros Hplus Hminus Hstar Hslash. unfold cleanExpression.
  now rewrite !existsb_replace_pair, !existsb_collapse_runs.
Qed.

Lemma eval_no_Error (e : JSEval.expr) (message : string) :
  JSEval.eval e <> JSEval.Throw (JSEval.Error message).
Proof.
  induction e as [x|body|negate e IH|op e1 IH1 e2 IH2|f IH|f IHf arg IHarg]; simpl;
    try discriminate.
  - destruct (JSEval.eval e) as [v|err]; [discriminate|]. congruence.
  - destruct (JSEval.eval e1) as [a|err]; [|congruence].
    destruct (JSEval.eval e2) as [b|err]; [discriminate|congruence].
  - destruct (JSEval.eval f) as [v|err]; [discriminate|congruence].
  - destruct (JSEval.eval f) as [v|err]; [|congruence].
    destruct (JSEval.eval arg) as [b|err]; [discriminate|congruence].
Qed.

Lemma run_no_Error (text message : string) :
  JSEval.run text <> JSEval.Throw (JSEval.Error message).
Proof.
  unfold JSEval.run.
  destruct (JSEval.tokenize _) as [ts|]; [|discriminate].
  destruct (JSEval.parse ts) as [e|]; [apply eval_no_Error|discriminate].
Qed.

(** X1.  [calculateFormula] refuses an expression exactly when it holds a
    character other than a digit, [+ - * / . ( )] or white space. The clean-up
    only rewrites operators, so such a character always reaches the check, and
    the error 'Invalid characters in expression' has no other cause: what the
    evaluation itself throws is a SyntaxError or a TypeError. *)
Theorem calculateFormula_invalid_characters (expression : string) :
  (JSString.existsb (fun c => negb (allowed_char c)) expression = true ->
   calculateFormula expression
   = JSEval.Throw (JSEval.Error "Invalid characters in expression"))
  /\ (forall message : string,
        calculateFormula expression = JSEval.Throw (JSEval.Error message) ->
        JSString.existsb (fun c => negb (allowed_char c)) expression = true
        /\ message = "Invalid characters in expression"%string).
Proof.
  assert (Hclean : JSString.existsb (fun c => negb (allowed_char c)) (cleanExpression expression)
                   = JSString.existsb (fun c => negb (allowed_char c)) expression)
    by (apply existsb_cleanExpression; reflexivity).
  unfold calculateFormula. rewrite Hclean. split.
  - intros H. destruct expression; [discriminate|]. cbn [JSString.is_empty]. now rewrite H.
  - intros message. destruct (JSString.is_empty expression); [discriminate|].
    destruct (JSString.existsb _ expression).
    + intros H. injection H as <-. split; reflexivity.
    + destruct (JSEval.run _) as [v|err] eqn:E; [discriminate|].
      intros H. injection H as ->. now apply run_no_Error in E.
Qed.

(** *** The result of a formula is never empty *)

Lemma is_empty_app (a b : string) :
  JSString.is_empty (a +:+ b) = JSString.is_empty a && JSString.is_empty b.
Proof. now destruct a. Qed.

Lemma dec_string_not_empty (n : Z) : JSString.is_empty (JSNumber.dec_string n) = false.
Proof.
  unfold JSNumber.dec_string, NilZero.string_of_uint.
  now destruct (N.to_uint (Z.to_N n)).
Qed.

Lemma layout_not_empty (digits : string) (n : Z) :
  JSString.is_empty digits = false -> JSString.is_empty (JSNumber.layout digits n) = false.
Proof.
  intros H. unfold JSNumber.layout.
  repeat match goal with
         | |- context [if ?b then _ else _] => destruct b
         end;
    rewrite ?is_empty_app, ?H, ?andb_false_r; try reflexivity.
Qed.

Lemma toString_not_empty (x : float) : JSString.is_empty (JSNumber.toString x) = false.
Proof.
  unfold JSNumber.toString.
  destruct (is_nan x); [reflexivity|].
  destruct (is_zero x); [reflexivity|].
  destruct (is_infinity x); [now destruct (get_sign x)|].
  destruct (JSNumber.exact_abs x) as [[num den]|]; [|reflexivity].
  destruct (JSNumber.shortest _ _ _ _ _ _) as [s sc].
  destruct (JSNumber.strip_zeros s sc) as [s' sc'].
  rewrite is_empty_app, layout_not_empty by apply dec_string_not_empty.
  apply andb_false_r.
Qed.

Lemma toFixed_not_empty (fd : nat) (x : float) :
  JSString.is_empty (JSNumber.toFixed fd x) = false.
Proof.
  unfold JSNumber.toFixed.
  destruct (negb (is_finite x)); [apply toString_not_empty|].
  destruct (1e21 <=? abs x)%float.
  - rewrite is_empty_app, toString_not_empty. apply andb_false_r.
  - rewrite is_empty_app. destruct fd as [|fd].
    + rewrite dec_string_not_empty. apply andb_false_r.
    + rewrite !is_empty_app. cbn [JSString.is_empty andb]. now rewrite !andb_false_r.
Qed.

(** X2.  The result of [calculateFormula] is the empty text for the empty
    expression and for no other: what a non-empty expression evaluates to is
    rendered by [toFixed(2)], which is never empty, so a result that was
    computed is a truthy value of the record. *)
Theorem calculateFormula_empty_result (expression result : string) :
  calculateFormula expression = JSEval.Normal result ->
  (JSString.is_empty result = true <-> JSString.is_empty expression = true)
  /\ (JSString.is_empty expression = false -> truthy (JStr result) = true).
Proof.
  unfold calculateFormula.
  destruct (JSString.is_empty expression) eqn:He.
  - intros [= <-]. split; [tauto|discriminate].
  - destruct (JSString.existsb _ _); [discriminate|].
    destruct (JSEval.run _) as [v|err]; [|discriminate].
    intros [= <-]. cbn [truthy]. rewrite toFixed_not_empty. split; [|reflexivity].
    split; discriminate.
Qed.

Lemma calculateFormula_empty_result_witness :
  truthy (JStr "3.00") = true
  /\ value (target (on_blur 1 "sales" (fresh_cell "="))) = ""%string.
Proof.
  split.
  - apply (calculateFormula_empty_result "1+2" "3.00");
      [vm_compute; reflexivity|reflexivity].
  - vm_compute. reflexivity.
Defined.

(** *** A cell through commit, focus and commit again *)

Lemma formula_key_neq (column : string) : formula_key column <> column.
Proof.
  unfold formula_key. intros H. apply (f_equal String.length) in H.
  rewrite length_app in H. simpl in H. lia.
Qed.

Lemma prefix_not_empty (v : string) :
  String.prefix "=" v = true -> JSString.is_empty v = false.
Proof. now destruct v. Qed.

Lemma existsb_not_empty (p : ascii -> bool) (v : string) :
  JSString.existsb p v = true -> JSString.is_empty v = false.
Proof. now destruct v. Qed.

Lemma trim_end_cons (c : ascii) (s : string) :
  JSString.trim_end (String c s)
  = match JSString.trim_end s with
    | EmptyString => if JSString.is_space c then EmptyString else String c EmptyString
    | String d t => String c (String d t)
    end.
Proof. reflexivity. Qed.

Lemma trim_end_idem (s : string) : JSString.trim_end (JSString.trim_end s) = JSString.trim_end s.
Proof.
  induction s as [|c s IH]; [reflexivity|].
  rewrite (trim_end_cons c s).
  destruct (JSString.trim_end s) as [|d t] eqn:E.
  - destruct (JSString.is_space c) eqn:Hc; [reflexivity|].
    rewrite trim_end_cons. cbn [JSString.trim_end]. now rewrite Hc.
  - rewrite trim_end_cons, IH. reflexivity.
Qed.

Lemma trim_end_head (c : ascii) (s : string) :
  JSString.is_space c = false ->
  exists t, JSString.trim_end (String c s) = String c t.
Proof.
  intros Hc. rewrite trim_end_cons.
  destruct (JSString.trim_end s); rewrite ?Hc; eauto.
Qed.

Lemma skip_space_head (s : string) :
  JSString.skip_space s = EmptyString
  \/ exists c t, JSString.skip_space s = String c t /\ JSString.is_space c = false.
Proof.
  induction s as [|c s IH]; [now left|].
  simpl. destruct (JSString.is_space c) eqn:Hc; [exact IH|].
  right. now exists c, s.
Qed.

(** [trim] is idempotent. *)
Lemma trim_idem (s : string) : JSString.trim (JSString.trim s) = JSString.trim s.
Proof.
  unfold JSString.trim.
  destruct (skip_space_head s) as [->|(c & t & -> & Hc)]; [reflexivity|].
  destruct (trim_end_head c t Hc) as [t' Ht]. rewrite Ht.
  cbn [JSString.skip_space]. rewrite Hc, <- Ht. apply trim_end_idem.
Qed.

Lemma updateNetEarn_rest (unitId : Z) (p : page) :
  currentExpenses (updateNetEarn unitId p) = currentExpenses p
  /\ target (updateNetEarn unitId p) = target p
  /\ timers (updateNetEarn unitId p) = timers p.
Proof.
  unfold updateNetEarn. destruct (net_earn_cells p !! unitId); repeat split.
Qed.

Lemma store_lookup (unitId : Z) (key : string) (v : jsval) (m : gmap Z expense) :
  store unitId key v m !! unitId = Some (<[key := v]> (default ∅ (m !! unitId))).
Proof. unfold store. apply lookup_insert_eq. Qed.

Lemma store_id (unitId : Z) (key : string) (v : jsval) (m : gmap Z expense) (e : expense) :
  m !! unitId = Some e -> e !! key = Some v -> store unitId key v m = m.
Proof.
  intros Hm He. unfold store. rewrite Hm. cbn [default].
  rewrite (insert_id e key v He). now apply insert_id.
Qed.

Lemma class_remove_not_in (c : string) (l : list string) :
  List.existsb (String.eqb c) l = false -> class_remove c l = l.
Proof.
  induction l as [|x l IH]; [reflexivity|]. simpl.
  destruct (String.eqb c x); [discriminate|]. intros H. simpl. now rewrite IH.
Qed.

Lemma existsb_class_remove (c d : string) (l : list string) :
  List.existsb (String.eqb c) (class_remove d l)
  = negb (String.eqb c d) && List.existsb (String.eqb c) l.
Proof.
  induction l as [|x l IH]; simpl; [now rewrite andb_false_r|].
  destruct (String.eqb_spec d x) as [->|Hdx]; simpl.
  - rewrite IH. destruct (String.eqb c x); reflexivity.
  - rewrite IH. destruct (String.eqb_spec c x) as [->|]; simpl; [|reflexivity].
    destruct (String.eqb_spec x d) as [->|]; [congruence|reflexivity].
Qed.

Lemma class_remove_app (c : string) (l l' : list string) :
  class_remove c (l ++ l') = class_remove c l ++ class_remove c l'.
Proof. unfold class_remove. apply List.filter_app. Qed.

Lemma net_earn_classes_idem (negative : bool) (l : list string) :
  net_earn_classes negative (net_earn_classes negative l) = net_earn_classes negative l.
Proof.
  unfold net_earn_classes. cbv zeta.
  set (base := class_remove "negative" (class_remove "positive" l)).
  assert (Hneg : List.existsb (String.eqb "negative") base = false)
    by apply class_remove_gone.
  assert (Hpos : List.existsb (String.eqb "positive") base = false).
  { unfold base. rewrite existsb_class_remove, class_remove_gone. reflexivity. }
  destruct negative; unfold class_add; rewrite ?Hneg, ?Hpos;
    rewrite !class_remove_app, !(class_remove_not_in _ base) by assumption.
  - change (class_remove "negative" (class_remove "positive" ["negative"%string])) with (@nil string).
    rewrite app_nil_r, Hneg. reflexivity.
  - change (class_remove "positive" ["positive"%string]) with (@nil string).
    change (class_remove "negative" (@nil string)) with (@nil string).
    rewrite app_nil_r, Hpos. reflexivity.
Qed.

Lemma updateNetEarn_cells (unitId : Z) (p : page) :
  net_earn_cells (updateNetEarn unitId p)
  = match net_earn_cells p !! unitId with
    | Some cell =>
        let netEarn := calculateNetEarn (default ∅ (currentExpenses p !! unitId)) in
        <[unitId := NetEarnCell netEarn
                      (net_earn_classes (JSString.parseFloat netEarn <? 0)%float
                         (net_classList cell))]> (net_earn_cells p)
    | None => net_earn_cells p
    end.
Proof.
  unfold updateNetEarn, net_earn_classes.
  destruct (net_earn_cells p !! unitId); [|reflexivity].
  cbn [net_earn_cells]. now destruct (_ <? _)%float.
Qed.

Lemma updateNetEarn_idem (unitId : Z) (p : page) :
  net_earn_cells (updateNetEarn unitId (updateNetEarn unitId p))
  = net_earn_cells (updateNetEarn unitId p).
Proof.
  rewrite (updateNetEarn_cells unitId (updateNetEarn unitId p)).
  destruct (updateNetEarn_rest unitId p) as (-> & _ & _).
  rewrite (updateNetEarn_cells unitId p).
  destruct (net_earn_cells p !! unitId) as [cell|] eqn:E; [|now rewrite E].
  cbn zeta. rewrite lookup_insert_eq. cbn [net_classList].
  rewrite net_earn_classes_idem. apply insert_insert_eq.
Qed.

(** X3.  A text that starts with [=] and evaluates: the [blur] listener shows
    the result, keeps the trimmed text as the formula of the input, stores the
    result under the column and the text under [<column>_formula], and leaves
    the other keys of the record alone. A [focus] after that brings the formula
    back into the input and keeps the result as the display value. *)
Theorem on_blur_formula_round_trip (unitId : Z) (column : string) (p : page) (result : string) :
  let v := JSString.trim (value (target p)) in
  String.prefix "=" v = true ->
  calculateFormula (JSString.remove_char "," (JSString.tail v)) = JSEval.Normal result ->
  let p1 := on_blur unitId column p in
  let record := default ∅ (currentExpenses p1 !! unitId) in
  value (target p1) = result
  /\ dataset_formula (target p1) = Some v
  /\ record !! column = Some (JStr result)
  /\ record !! formula_key column = Some (JStr v)
  /\ (forall key, key <> column -> key <> formula_key column ->
        record !! key = default ∅ (currentExpenses p !! unitId) !! key)
  /\ value (target (on_focus p1)) = v
  /\ dataset_displayValue (target (on_focus p1)) = Some result
  /\ dataset_formula (target (on_focus p1)) = Some v.
Proof.
  intros v Hv Hcalc p1 record.
  assert (Hne : JSString.is_empty v = false) by now apply prefix_not_empty.
  assert (Hp1 : p1 = updateNetEarn unitId
                       (set_expenses
                          (set_target (set_target p (InputElement (value (target p)) (Some v)
                                                       (dataset_displayValue (target p))
                                                       (classList (target p))))
                             (InputElement result (Some v) (dataset_displayValue (target p))
                                (classList (target p))))
                          (store unitId (formula_key column) (JStr v)
                             (store unitId column (JStr result) (currentExpenses p))))).
  { unfold p1, on_blur. cbv zeta. fold v. rewrite Hne, Hv. cbn [negb andb].
    now rewrite Hcalc. }
  destruct (updateNetEarn_rest unitId
              (set_expenses
                 (set_target (set_target p (InputElement (value (target p)) (Some v)
                                              (dataset_displayValue (target p))
                                              (classList (target p))))
                    (InputElement result (Some v) (dataset_displayValue (target p))
                       (classList (target p))))
                 (store unitId (formula_key column) (JStr v)
                    (store unitId column (JStr result) (currentExpenses p)))))
    as (Hexp & Htarget & _).
  rewrite <- Hp1 in Hexp, Htarget. cbn [set_expenses set_target currentExpenses target] in Hexp, Htarget.
  assert (Hrecord : record = <[formula_key column := JStr v]>
                               (<[column := JStr result]>
                                  (default ∅ (currentExpenses p !! unitId)))).
  { unfold record. rewrite Hexp, store_lookup. cbn [default]. now rewrite store_lookup. }
  assert (Hfocus : target (on_focus p1)
                   = InputElement v (Some v) (Some result) (classList (target p))).
  { unfold on_focus. rewrite Htarget. cbn [dataset_formula]. rewrite Hne.
    unfold set_target. reflexivity. }
  rewrite Htarget, Hfocus, Hrecord. cbn [value dataset_formula dataset_displayValue].
  split; [reflexivity|]. split; [reflexivity|].
  split. { rewrite lookup_insert_ne by apply formula_key_neq. apply lookup_insert_eq. }
  split; [apply lookup_insert_eq|].
  split. { intros key H1 H2. now rewrite !lookup_insert_ne by congruence. }
  repeat split.
Qed.

Lemma on_blur_formula_round_trip_witness :
  value (target (on_blur 1 "sales" (fresh_cell " =1+2 "))) = "3.00"%string
  /\ value (target (on_focus (on_blur 1 "sales" (fresh_cell " =1+2 ")))) = "=1+2"%string.
Proof.
  pose proof (on_blur_formula_round_trip 1 "sales" (fresh_cell " =1+2 ") "3.00"
                ltac:(vm_compute; reflexivity) ltac:(vm_compute; reflexivity))
    as (H1 & _ & _ & _ & _ & H2 & _).
  split; [exact H1|]. rewrite H2. vm_compute. reflexivity.
Defined.

Lemma on_blur_explicit (unitId : Z) (column : string) (p : page) (result : string) :
  let v := JSString.trim (value (target p)) in
  String.prefix "=" v = true ->
  calculateFormula (JSString.remove_char "," (JSString.tail v)) = JSEval.Normal result ->
  on_blur unitId column p
  = updateNetEarn unitId
      (Page (store unitId (formula_key column) (JStr v)
               (store unitId column (JStr result) (currentExpenses p)))
            (InputElement result (Some v) (dataset_displayValue (target p))
               (classList (target p)))
            (net_earn_cells p) (timers p)).
Proof.
  intros v Hv Hcalc. unfold on_blur. cbv zeta. fold v.
  rewrite (prefix_not_empty v Hv), Hv. cbn [negb andb]. now rewrite Hcalc.
Qed.

Lemma updateNetEarn_target_irrelevant (unitId : Z) (m : gmap Z expense)
    (t t' : input_element) (cells : gmap Z net_earn_cell) (tm tm' : list timer) :
  net_earn_cells (updateNetEarn unitId (Page m t cells tm))
  = net_earn_cells (updateNetEarn unitId (Page m t' cells tm')).
Proof.
  unfold updateNetEarn. cbn [net_earn_cells currentExpenses].
  destruct (cells !! unitId); reflexivity.
Qed.

(** X4.  Committing a formula twice changes nothing: after the commit, a [focus]
    followed by a [blur] with no typing in between evaluates the same formula
    again and leaves the value, the formula and the classes of the input, the
    records, the net-earn cells and the timers as the first commit left them. *)
Theorem on_blur_again_changes_nothing (unitId : Z) (column : string) (p : page) (result : string) :
  let v := JSString.trim (value (target p)) in
  String.prefix "=" v = true ->
  calculateFormula (JSString.remove_char "," (JSString.tail v)) = JSEval.Normal result ->
  let p1 := on_blur unitId column p in
  let p3 := on_blur unitId column (on_focus p1) in
  value (target p3) = value (target p1)
  /\ dataset_formula (target p3) = dataset_formula (target p1)
  /\ classList (target p3) = classList (target p1)
  /\ currentExpenses p3 = currentExpenses p1
  /\ net_earn_cells p3 = net_earn_cells p1
  /\ timers p3 = timers p1.
Proof.
  intros v Hv Hcalc p1 p3.
  assert (Hne : JSString.is_empty v = false) by now apply prefix_not_empty.
  pose proof (on_blur_explicit unitId column p result Hv Hcalc) as Hp1.
  fold v p1 in Hp1.
  set (m1 := store unitId (formula_key column) (JStr v)
               (store unitId column (JStr result) (currentExpenses p))) in *.
  set (q := Page m1 (InputElement result (Some v) (dataset_displayValue (target p))
                       (classList (target p))) (net_earn_cells p) (timers p)) in *.
  destruct (updateNetEarn_rest unitId q) as (Hexp & Htarget & Htimers).
  rewrite <- Hp1 in Hexp, Htarget, Htimers.
  cbn [q currentExpenses target timers] in Hexp, Htarget, Htimers.
  set (p2 := on_focus p1).
  assert (Hp2 : p2 = Page m1 (InputElement v (Some v) (Some result) (classList (target p)))
                       (net_earn_cells p1) (timers p)).
  { unfold p2, on_focus. rewrite Htarget. cbn [dataset_formula]. rewrite Hne.
    unfold set_target. rewrite Hexp, Htimers. reflexivity. }
  assert (Hv2 : JSString.trim (value (target p2)) = v).
  { rewrite Hp2. cbn [target value]. apply trim_idem. }
  assert (Hstore : store unitId (formula_key column) (JStr v)
                     (store unitId column (JStr result) m1) = m1).
  { assert (H1 : m1 !! unitId
                 = Some (<[formula_key column := JStr v]>
                           (<[column := JStr result]>
                              (default ∅ (currentExpenses p !! unitId))))).
    { unfold m1. rewrite store_lookup. cbn [default]. now rewrite store_lookup. }
    rewrite (store_id unitId column (JStr result) m1 _ H1).
    - apply (store_id _ _ _ _ _ H1). apply lookup_insert_eq.
    - rewrite lookup_insert_ne by apply formula_key_neq. apply lookup_insert_eq. }
  assert (Hp3 : p3 = updateNetEarn unitId
                       (Page m1 (InputElement result (Some v) (Some result)
                                   (classList (target p)))
                             (net_earn_cells p1) (timers p))).
  { unfold p3. fold p2.
    rewrite (on_blur_explicit unitId column p2 result); rewrite Hv2; try assumption.
    rewrite Hp2. cbn [currentExpenses target dataset_displayValue classList net_earn_cells timers].
    now rewrite Hstore. }
  destruct (updateNetEarn_rest unitId
              (Page m1 (InputElement result (Some v) (Some result) (classList (target p)))
                 (net_earn_cells p1) (timers p))) as (Hexp3 & Htarget3 & Htimers3).
  rewrite <- Hp3 in Hexp3, Htarget3, Htimers3.
  cbn [currentExpenses target timers] in Hexp3, Htarget3, Htimers3.
  rewrite Htarget3, Htarget, Hexp3, Hexp, Htimers3, Htimers.
  cbn [value dataset_formula classList].
  repeat split.
  rewrite Hp3, Hp1.
  rewrite (updateNetEarn_target_irrelevant unitId m1 _
             (InputElement result (Some v) (dataset_displayValue (target p))
                (classList (target p))) _ _ (timers p)).
  replace (Page m1 (InputElement result (Some v) (dataset_displayValue (target p))
                      (classList (target p)))
             (net_earn_cells (updateNetEarn unitId q)) (timers p))
    with (updateNetEarn unitId q).
  - apply updateNetEarn_idem.
  - unfold updateNetEarn, q. cbn [net_earn_cells currentExpenses target timers].
    destruct (net_earn_cells p !! unitId); reflexivity.
Qed.

Lemma on_blur_again_changes_nothing_witness :
  let p1 := on_blur 1 "sales" (fresh_cell "=1+2") in
  let p3 := on_blur 1 "sales" (on_focus p1) in
  value (target p3) = "3.00"%string
  /\ currentExpenses p3 = currentExpenses p1
  /\ net_earn_cells p3 = net_earn_cells p1.
Proof.
  pose proof (on_blur_again_changes_nothing 1 "sales" (fresh_cell "=1+2") "3.00"
                ltac:(vm_compute; reflexivity) ltac:(vm_compute; reflexivity))
    as (H1 & _ & _ & H2 & H3 & _).
  split; [rewrite H1; vm_compute; reflexivity|]. split; assumption.
Defined.

Lemma prefix_false_branch (v : string) :
  String.prefix "=" v = false ->
  negb (JSString.is_empty v) && String.prefix "=" v = false.
Proof. intros ->. apply andb_false_r. Qed.

(** X5.  A text with an operator and no leading [=] that evaluates: the [blur]
    listener shows and stores the result and leaves no formula behind, neither
    on the input nor, as a truthy value, in the record; a [focus] after that
    changes nothing. *)
Theorem on_blur_implicit_drops_formula (unitId : Z) (column : string) (p : page)
    (result : string) :
  let v := JSString.trim (value (target p)) in
  String.prefix "=" v = false ->
  JSString.existsb is_operator_char v = true ->
  calculateFormula (JSString.remove_char "," v) = JSEval.Normal result ->
  let p1 := on_blur unitId column p in
  let record := default ∅ (currentExpenses p1 !! unitId) in
  value (target p1) = result
  /\ record !! column = Some (JStr result)
  /\ truthy (field record (formula_key column)) = false
  /\ dataset_truthy (dataset_formula (target p1)) = false
  /\ on_focus p1 = p1.
Proof.
  intros v Hprefix Hop Hcalc p1 record.
  assert (Hne : JSString.is_empty v = false) by now apply (existsb_not_empty is_operator_char).
  set (t1 := if dataset_truthy (dataset_formula (target p))
             then InputElement (value (target p)) None (dataset_displayValue (target p))
                    (classList (target p))
             else target p).
  set (m := store unitId column (JStr result) (currentExpenses p)).
  set (e := default ∅ (m !! unitId)).
  set (m' := if truthy (field e (formula_key column))
             then <[unitId := delete (formula_key column) e]> m else m).
  assert (Hp1 : p1 = updateNetEarn unitId
                       (Page m' (InputElement result (dataset_formula t1)
                                   (dataset_displayValue t1) (classList t1))
                          (net_earn_cells p) (timers p))).
  { unfold p1, on_blur. cbv zeta. fold v. rewrite Hne, Hprefix, Hop. cbn [negb andb].
    now rewrite Hcalc. }
  destruct (updateNetEarn_rest unitId
              (Page m' (InputElement result (dataset_formula t1)
                          (dataset_displayValue t1) (classList t1))
                 (net_earn_cells p) (timers p))) as (Hexp & Htarget & _).
  rewrite <- Hp1 in Hexp, Htarget. cbn [currentExpenses target] in Hexp, Htarget.
  assert (He : e = <[column := JStr result]> (default ∅ (currentExpenses p !! unitId))).
  { unfold e, m. now rewrite store_lookup. }
  assert (Hformula : dataset_truthy (dataset_formula t1) = false).
  { unfold t1. destruct (dataset_truthy (dataset_formula (target p))) eqn:E;
      [reflexivity|exact E]. }
  assert (Hrecord : record = if truthy (field e (formula_key column))
                             then delete (formula_key column) e else e).
  { unfold record. rewrite Hexp. unfold m'.
    destruct (truthy (field e (formula_key column))); [now rewrite lookup_insert_eq|reflexivity]. }
  rewrite Htarget. cbn [value dataset_formula].
  split; [reflexivity|].
  split.
  { rewrite Hrecord. destruct (truthy (field e (formula_key column))).
    - rewrite lookup_delete_ne by apply formula_key_neq. rewrite He. apply lookup_insert_eq.
    - rewrite He. apply lookup_insert_eq. }
  split.
  { rewrite Hrecord. destruct (truthy (field e (formula_key column))) eqn:E; [|exact E].
    unfold field. now rewrite lookup_delete_eq. }
  split; [exact Hformula|].
  unfold on_focus. rewrite Htarget. cbn [dataset_formula].
  destruct (dataset_formula t1) as [f|]; [|reflexivity].
  cbn [dataset_truthy] in Hformula. apply negb_false_iff in Hformula. now rewrite Hformula.
Qed.

Lemma on_blur_implicit_drops_formula_witness :
  value (target (on_blur 1 "sales" (editing "4*5"))) = "20.00"%string
  /\ dataset_formula (target (editing "4*5")) = Some "=1+2"%string
  /\ dataset_truthy (dataset_formula (target (on_blur 1 "sales" (editing "4*5")))) = false
  /\ on_focus (on_blur 1 "sales" (editing "4*5")) = on_blur 1 "sales" (editing "4*5").
Proof.
  pose proof (on_blur_implicit_drops_formula 1 "sales" (editing "4*5") "20.00"
                ltac:(vm_compute; reflexivity) ltac:(vm_compute; reflexivity)
                ltac:(vm_compute; reflexivity))
    as (H1 & _ & _ & H2 & H3).
  split; [exact H1|]. split; [vm_compute; reflexivity|]. split; assumption.
Defined.

(** *** Text that is no number yet *)

Lemma calculateNetEarn_ext (e e' : expense) :
  (forall column, In column expenseColumns ->
     getValue (field e column) = getValue (field e' column)) ->
  calculateNetEarn e = calculateNetEarn e'.
Proof.
  intros H. unfold calculateNetEarn.
  rewrite !(H _) by (unfold expenseColumns; simpl; tauto). reflexivity.
Qed.

Lemma getValue_formula_text (text : string) :
  String.prefix "=" text = true -> getValue (JStr text) = 0%float.
Proof.
  destruct text as [|c rest]; [discriminate|]. cbn [String.prefix].
  destruct (ascii_dec "=" c) as [<-|]; [|discriminate]. intros _.
  unfold getValue. cbn [truthy JSString.is_empty negb ToString].
  change (JSString.remove_char "," (String "=" rest))
    with (String "="%char (JSString.remove_char "," rest)).
  reflexivity.
Qed.

(** X6.  While a formula is being typed the [input] listener stores the text as
    it is, and a text that starts with [=] counts as 0 in the net earnings: the
    net-earn cell shows what it would show for an empty cell. *)
Theorem on_input_formula_counts_as_nothing (unitId : Z) (column : string) (p : page) :
  String.prefix "=" (value (target p)) = true ->
  let e := default ∅ (currentExpenses p !! unitId) in
  let typed_record := <[column := JStr (value (target p))]> e in
  currentExpenses (on_input unitId column p) !! unitId = Some typed_record
  /\ getValue (JStr (value (target p))) = 0%float
  /\ calculateNetEarn typed_record = calculateNetEarn (<[column := JStr ""]> e)
  /\ (forall cell, net_earn_cells p !! unitId = Some cell ->
        exists cell',
          net_earn_cells (on_input unitId column p) !! unitId = Some cell'
          /\ textContent cell' = calculateNetEarn (<[column := JStr ""]> e)).
Proof.
  intros Hprefix e typed_record.
  assert (Hzero : getValue (JStr (value (target p))) = 0%float)
    by now apply getValue_formula_text.
  assert (Hsame : calculateNetEarn typed_record = calculateNetEarn (<[column := JStr ""]> e)).
  { apply calculateNetEarn_ext. intros c _. unfold typed_record, field.
    destruct (decide (column = c)) as [->|Hc].
    - rewrite !lookup_insert_eq. exact Hzero.
    - now rewrite !lookup_insert_ne by exact Hc. }
  assert (Hrecord : currentExpenses (on_input unitId column p) !! unitId = Some typed_record).
  { unfold on_input. destruct (updateNetEarn_rest unitId
      (set_expenses p (store unitId column (JStr (value (target p))) (currentExpenses p))))
      as (-> & _ & _).
    cbn [set_expenses currentExpenses]. apply store_lookup. }
  split; [exact Hrecord|]. split; [exact Hzero|]. split; [exact Hsame|].
  intros cell Hcell. unfold on_input. rewrite updateNetEarn_cells.
  cbn [set_expenses net_earn_cells currentExpenses]. rewrite Hcell. cbv zeta.
  rewrite store_lookup. cbn [default]. fold e. fold typed_record.
  eexists. split; [apply lookup_insert_eq|]. exact Hsame.
Qed.

Lemma on_input_formula_counts_as_nothing_witness :
  String.prefix "=" (value (target (typed 1 "sales" "=1+" (fresh_cell "")))) = true
  /\ getValue (JStr (value (target (typed 1 "sales" "=1+" (fresh_cell ""))))) = 0%float.
Proof.
  split; [reflexivity|].
  apply (on_input_formula_counts_as_nothing 1 "sales" (typed 1 "sales" "=1+" (fresh_cell ""))).
  reflexivity.
Defined.

(** *** What [updateNetEarn] shows *)

Lemma In_existsb (c : string) (l : list string) :
  List.existsb (String.eqb c) l = true <-> In c l.
Proof.
  rewrite existsb_exists. split.
  - intros (x & Hx & E). apply String.eqb_eq in E. now subst.
  - intros H. exists c. split; [exact H|apply String.eqb_refl].
Qed.

Lemma In_class_remove (c d : string) (l : list string) :
  In c (class_remove d l) <-> c <> d /\ In c l.
Proof.
  unfold class_remove. rewrite filter_In. split.
  - intros [H E]. split; [|exact H]. intros ->. now rewrite String.eqb_refl in E.
  - intros [H E]. split; [exact E|]. apply negb_true_iff.
    apply String.eqb_neq. congruence.
Qed.

Lemma In_class_add (c d : string) (l : list string) :
  In c (class_add d l) <-> c = d \/ In c l.
Proof.
  unfold class_add. destruct (List.existsb (String.eqb d) l) eqn:E.
  - apply In_existsb in E. split; [tauto|]. intros [->|H]; assumption.
  - rewrite in_app_iff. simpl. split.
    + intros [H|[H|[]]]; [now right|now left].
    + intros [->|H]; [right; now left|now left].
Qed.

(** X7.  [updateNetEarn] makes the net-earn cell of the unit show
    [calculateNetEarn] of its record, with exactly one of the classes [negative]
    (the text reads below 0) and [positive] (otherwise); the other classes of
    the cell, the cells of the other units and the records stay as they were. *)
Theorem updateNetEarn_shows_the_record (unitId : Z) (p : page) (cell : net_earn_cell) :
  net_earn_cells p !! unitId = Some cell ->
  let netEarn := calculateNetEarn (default ∅ (currentExpenses p !! unitId)) in
  let negative := (JSString.parseFloat netEarn <? 0)%float in
  exists cell',
    net_earn_cells (updateNetEarn unitId p) !! unitId = Some cell'
    /\ textContent cell' = netEarn
    /\ (In "negative"%string (net_classList cell') <-> negative = true)
    /\ (In "positive"%string (net_classList cell') <-> negative = false)
    /\ (forall c : string, c <> "negative"%string -> c <> "positive"%string ->
          (In c (net_classList cell') <-> In c (net_classList cell)))
    /\ (forall other : Z, other <> unitId ->
          net_earn_cells (updateNetEarn unitId p) !! other = net_earn_cells p !! other)
    /\ currentExpenses (updateNetEarn unitId p) = currentExpenses p.
Proof.
  intros Hcell netEarn negative.
  rewrite updateNetEarn_cells, Hcell. cbv zeta. fold netEarn negative.
  eexists. split; [apply lookup_insert_eq|]. cbn [textContent net_classList].
  split; [reflexivity|].
  assert (Hcls : forall c, In c (net_earn_classes negative (net_classList cell))
                           <-> c = (if negative then "negative" else "positive")%string
                               \/ (c <> "negative"%string /\ c <> "positive"%string
                                   /\ In c (net_classList cell))).
  { intros c. unfold net_earn_classes. cbv zeta.
    destruct negative; rewrite In_class_add, !In_class_remove; tauto. }
  split. { rewrite Hcls. destruct negative; intuition (try discriminate; congruence). }
  split. { rewrite Hcls. destruct negative; intuition (try discriminate; congruence). }
  split. { intros c H1 H2. rewrite Hcls. destruct negative; intuition congruence. }
  split. { intros other H. now apply lookup_insert_ne. }
  apply updateNetEarn_rest.
Qed.

Lemma updateNetEarn_shows_the_record_witness :
  exists cell',
    net_earn_cells (updateNetEarn 1 (editing "=1+")) !! 1 = Some cell'
    /\ textContent cell' = "0.00"%string.
Proof.
  destruct (updateNetEarn_shows_the_record 1 (editing "=1+")
              (NetEarnCell "0.00" ["net-earn"; "positive"]%string)
              ltac:(vm_compute; reflexivity)) as (cell' & H1 & H2 & _).
  exists cell'. split; [exact H1|]. rewrite H2. vm_compute. reflexivity.
Defined.

(** *** Net earnings and the keys of a record *)

Lemma last_char_app (a : string) (c : ascii) (b : string) :
  last_char (a +:+ String c b) = last_char (String c b).
Proof.
  induction a as [|x a IH]; [reflexivity|].
  change (String x a +:+ String c b)%string with (String x (a +:+ String c b)).
  destruct a; exact IH.
Qed.

Lemma formula_key_not_a_column (column : string) : ~ In (formula_key column) expenseColumns.
Proof.
  intros H.
  assert (Hlast : last_char (formula_key column) = Some "a"%char)
    by (unfold formula_key; now rewrite last_char_app).
  unfold expenseColumns in H. simpl in H.
  repeat (destruct H as [H|H]; [rewrite <- H in Hlast; discriminate|]).
  exact H.
Qed.

Lemma calculateNetEarn_insert (e : expense) (key : string) (v : jsval) :
  ~ In key expenseColumns -> calculateNetEarn (<[key := v]> e) = calculateNetEarn e.
Proof.
  intros H. unfold calculateNetEarn, field.
  rewrite !lookup_insert_ne; [reflexivity|..];
    intros ->; apply H; unfold expenseColumns; simpl; tauto.
Qed.

Lemma calculateNetEarn_delete (e : expense) (key : string) :
  ~ In key expenseColumns -> calculateNetEarn (delete key e) = calculateNetEarn e.
Proof.
  intros H. unfold calculateNetEarn, field.
  rewrite !lookup_delete_ne; [reflexivity|..];
    intros ->; apply H; unfold expenseColumns; simpl; tauto.
Qed.

(** X8.  The net earnings do not depend on the formula texts kept in the record,
    nor on any key that is no column of the table: writing or deleting
    [<column>_formula] leaves [calculateNetEarn] unchanged. *)
Theorem calculateNetEarn_ignores_formulas (e : expense) (column : string) (v : jsval) :
  calculateNetEarn (<[formula_key column := v]> e) = calculateNetEarn e
  /\ calculateNetEarn (delete (formula_key column) e) = calculateNetEarn e
  /\ (forall (key : string), ~ In key expenseColumns ->
        calculateNetEarn (<[key := v]> e) = calculateNetEarn e).
Proof.
  split; [apply calculateNetEarn_insert, formula_key_not_a_column|].
  split; [apply calculateNetEarn_delete, formula_key_not_a_column|].
  intros key. apply calculateNetEarn_insert.
Qed.

Lemma getValue_falsy (v : jsval) : truthy v = false -> getValue v = 0%float.
Proof. intros H. unfold getValue. now rewrite H. Qed.

(** X9.  A record in which every column is missing or falsy (the empty text,
    [null], 0) has the net earnings 0.00; that is what the table shows for a
    unit without a record. *)
Theorem calculateNetEarn_nothing_entered (e : expense) :
  (forall column : string, In column expenseColumns -> truthy (field e column) = false) ->
  calculateNetEarn e = "0.00"%string.
Proof.
  intros H. unfold calculateNetEarn.
  rewrite !getValue_falsy by (apply H; unfold expenseColumns; simpl; tauto).
  vm_compute. reflexivity.
Qed.

Lemma calculateNetEarn_nothing_entered_witness :
  calculateNetEarn blank_expense = "0.00"%string
  /\ calculateNetEarn (<["sales_formula" := JStr "=1+"]> blank_expense) = "0.00"%string.
Proof.
  split.
  - apply calculateNetEarn_nothing_entered. intros column H.
    unfold expenseColumns in H. simpl in H.
    repeat (destruct H as [<-|H]; [vm_compute; reflexivity|]). destruct H.
  - apply calculateNetEarn_nothing_entered. intros column H.
    unfold expenseColumns in H. simpl in H.
    repeat (destruct H as [<-|H]; [vm_compute; reflexivity|]). destruct H.
Defined.

(** *** The largest amounts come first *)

Lemma SFleb_trans_positive (x y z : spec_float) :
  is_positive x = true -> is_positive y = true -> is_positive z = true ->
  SFleb x y = true -> SFleb y z = true -> SFleb x z = true.
Proof.
  unfold SFleb, SFcompare.
  destruct x as [sx|[]| |[] mx ex]; try discriminate;
    destruct y as [sy|[]| |[] my ey]; try discriminate;
    destruct z as [sz|[]| |[] mz ez]; try discriminate; intros _ _ _; try reflexivity;
    try discriminate.
  change (Pos.compare_cont Eq mx my) with (Pos.compare mx my).
  change (Pos.compare_cont Eq my mz) with (Pos.compare my mz).
  change (Pos.compare_cont Eq mx mz) with (Pos.compare mx mz).
  destruct (Z.compare_spec ex ey), (Z.compare_spec ey ez), (Z.compare_spec ex ez);
    try lia; try discriminate; try reflexivity;
    destruct (Pos.compare_spec mx my), (Pos.compare_spec my mz), (Pos.compare_spec mx mz);
    try lia; try discriminate; reflexivity.
Qed.

Lemma leb_trans_positive (x y z : float) :
  (0 <? x)%float = true -> (0 <? y)%float = true -> (0 <? z)%float = true ->
  (x <=? y)%float = true -> (y <=? z)%float = true -> (x <=? z)%float = true.
Proof.
  rewrite !ltb_zero, !FloatAxioms.leb_spec. apply SFleb_trans_positive.
Qed.

Lemma leb_refl_positive (x : float) : (0 <? x)%float = true -> (x <=? x)%float = true.
Proof.
  rewrite ltb_zero, FloatAxioms.leb_spec. unfold SFleb, SFcompare.
  destruct (Prim2SF x) as [s|[]| |[] m e]; try discriminate; intros _; [reflexivity|].
  rewrite Z.compare_refl.
  change (Pos.compare_cont Eq m m) with (Pos.compare m m). now rewrite Pos.compare_refl.
Qed.

(** A list of positive Numbers in descending order: every element is at
    least every later one. *)
Lemma descending_strongly {A : Type} (f : A -> float) (l : list A) :
  Forall (fun x => (0 <? f x)%float = true) l ->
  Sorted (fun a b => (f b <=? f a)%float = true) l ->
  StronglySorted (fun a b => (f b <=? f a)%float = true) l.
Proof.
  intros Hpos Hs. induction Hs as [|a l Hs IH Hhd]; [constructor|].
  inversion Hpos as [|? ? Ha Hl]; subst.
  specialize (IH Hl). constructor; [exact IH|].
  destruct Hhd as [|b l' Hab]; [constructor|].
  inversion Hl as [|? ? Hb Hl']; subst.
  constructor; [exact Hab|].
  apply StronglySorted_inv in IH as [_ Hall].
  rewrite List.Forall_forall in Hall, Hl'. rewrite List.Forall_forall.
  intros c Hc. apply (leb_trans_positive _ (f b)); auto.
Qed.

Lemma StronglySorted_app {A : Type} (R : A -> A -> Prop) (l1 l2 : list A) :
  StronglySorted R (l1 ++ l2) -> forall a b, In a l1 -> In b l2 -> R a b.
Proof.
  induction l1 as [|x l1 IH]; simpl; intros Hs a b Ha Hb; [destruct Ha|].
  apply StronglySorted_inv in Hs as [Hs Hall].
  destruct Ha as [->|Ha]; [|now apply IH].
  rewrite List.Forall_forall in Hall. apply Hall. apply in_or_app. now right.
Qed.

(** X10.  [calculateTopExpenseUnits] returns 10 units, or all the units with a
    positive total when they are fewer, and they are the largest: every unit
    with a positive total that is left out has a total at most that of every
    unit in the list. *)
Theorem calculateTopExpenseUnits_largest (data : api_data) :
  let totals :=
    map (fun u => UnitTotal (id u) (unit_number u)
                    (unit_total_expense (unit_expenses data u)))
      (units data) in
  let nonZero := List.filter (fun u => (0 <? total_expense u)%float) totals in
  let result := calculateTopExpenseUnits data in
  List.length result = Nat.min 10 (List.length nonZero)
  /\ exists rest,
       Permutation nonZero (result ++ rest)
       /\ forall a b, In a result -> In b rest ->
            (total_expense b <=? total_expense a)%float = true.
Proof.
  intros totals nonZero result.
  set (ranked := sort by_total_desc nonZero).
  assert (Hresult : result = firstn 10 ranked) by reflexivity.
  assert (Hperm : Permutation ranked nonZero) by apply sort_perm.
  split.
  { rewrite Hresult, length_firstn. now rewrite (Permutation_length Hperm). }
  exists (skipn 10 ranked). rewrite Hresult, firstn_skipn.
  split; [now symmetry|].
  assert (Hpos : Forall (fun u => (0 <? total_expense u)%float = true) ranked)
    by apply In_sort_filter_positive.
  assert (Hs : StronglySorted (fun a b => (total_expense b <=? total_expense a)%float = true)
                 ranked).
  { apply descending_strongly; [exact Hpos|].
    apply (descending_of_in_order total_expense); [exact Hpos|].
    apply (sort_sorted by_total_desc by_total_desc_antisym). }
  rewrite <- (firstn_skipn 10 ranked) in Hs.
  apply (StronglySorted_app _ _ _ Hs).
Qed.

Lemma processExpenseData_descending (apiData : api_data) (unitId : unit_selection) :
  let result := processExpenseData apiData unitId in
  Forall (fun c => (0 <? amount c)%float = true) (categories result)
  /\ Sorted (fun a b => (amount b <=? amount a)%float = true) (categories result).
Proof.
  intros result.
  set (surviving := List.filter (fun c => (0 <? amount c)%float)
                      (category_totals apiData (filter_units unitId (units apiData)))).
  assert (Hcats : categories result
                  = sort by_amount_desc (map (with_percentage (total result)) surviving))
    by reflexivity.
  assert (Hpos : Forall (fun c => (0 <? amount c)%float = true) (categories result)).
  { rewrite List.Forall_forall. intros c Hc. rewrite Hcats in Hc.
    apply (Permutation_in _ (sort_perm by_amount_desc _)) in Hc.
    apply in_map_iff in Hc as (c0 & <- & Hc0).
    apply filter_In in Hc0 as [_ Hc0]. exact Hc0. }
  split; [exact Hpos|].
  apply (descending_of_in_order amount); [exact Hpos|].
  rewrite Hcats. apply (sort_sorted by_amount_desc by_amount_desc_antisym).
Qed.

(** X11.  The top expense of [processExpenseData] is the first category of the
    list, and no category of the list has a larger amount; with no category it
    is the placeholder named 'None'. *)
Theorem processExpenseData_top_is_largest (apiData : api_data) (unitId : unit_selection) :
  let result := processExpenseData apiData unitId in
  match categories result with
  | [] => topExpense result = TopExpense "None" None (Some 0%float)
  | first :: _ =>
      topExpense result = TopExpense (name first) (Some (amount first)) (percentage first)
      /\ Forall (fun c => (amount c <=? amount first)%float = true) (categories result)
  end.
Proof.
  intros result.
  destruct (processExpenseData_descending apiData unitId) as (Hpos & Hsorted).
  fold result in Hsorted, Hpos.
  assert (Htop : topExpense result
                 = match categories result with
                   | c :: _ => TopExpense (name c) (Some (amount c)) (percentage c)
                   | [] => TopExpense "None" None (Some 0%float)
                   end) by reflexivity.
  destruct (categories result) as [|first rest] eqn:E; [exact Htop|].
  split; [exact Htop|].
  apply (descending_strongly amount) in Hsorted; [|exact Hpos].
  apply StronglySorted_inv in Hsorted as [_ Hall].
  constructor; [|exact Hall].
  inversion Hpos as [|? ? H _]; subst. now apply leb_refl_positive.
Qed.

(** *** The table: what is rendered, shown and exported *)

Lemma append_assoc (a b c : string) : ((a +:+ b) +:+ c = a +:+ (b +:+ c))%string.
Proof.
  induction a as [|x a IH]; [reflexivity|].
  change (String x ((a +:+ b) +:+ c) = String x (a +:+ (b +:+ c))). now rewrite IH.
Qed.

Lemma append_empty_r (a : string) : (a +:+ "" = a)%string.
Proof.
  induction a as [|x a IH]; [reflexivity|].
  change (String x (a +:+ "") = String x a). now rewrite IH.
Qed.

Lemma export_rows (es : gmap Z expense) (rows : list table_row) (acc : string) :
  fold_left
    (fun csvContent row =>
       if String.eqb (display row) "none" then csvContent
       else csvContent +:+
            csv_line (csv_values (unit_column row) (default ∅ (es !! row_unitId row))))%string
    rows acc
  = (acc +:+
     lines (map (fun row => csv_line (csv_values (unit_column row)
                                        (default ∅ (es !! row_unitId row))))
              (List.filter (fun row => negb (String.eqb (display row) "none")) rows)))%string.
Proof.
  revert acc. induction rows as [|row rows IH]; intros acc.
  - cbn [fold_left List.filter map lines fold_right]. now rewrite append_empty_r.
  - cbn [fold_left List.filter]. rewrite IH.
    destruct (String.eqb (display row) "none"); cbn [negb]; [reflexivity|].
    cbn [map lines fold_right]. now rewrite append_assoc.
Qed.

Lemma filter_map_rows {A B : Type} (g : A -> B) (p : B -> bool) (l : list A) :
  List.filter p (map g l) = map g (List.filter (fun a => p (g a)) l).
Proof.
  induction l as [|a l IH]; simpl; [reflexivity|].
  rewrite IH. now destruct (p (g a)).
Qed.

Lemma cell_text_value (e : expense) (key : string) :
  ToString (or_empty (field e key)) = cell_text e key.
Proof.
  unfold cell_text, or_empty, field.
  destruct (e !! key) as [v|]; [|reflexivity].
  change (default JUndefined (Some v)) with v. now destruct (truthy v).
Qed.

Lemma unit_line_values (es : gmap Z expense) (u : unit) :
  csv_line (csv_values (unit_number u) (default ∅ (es !! id u))) = unit_line es u.
Proof.
  unfold csv_line, csv_values, unit_line, quoted, expenseColumns. cbv zeta.
  cbn [map app join]. rewrite !cell_text_value, !append_assoc. reflexivity.
Qed.

Lemma export_filtered (m : manager) :
  csvContent (exportToCsv (filterUnits (renderExpensesTable m)))
  = (csv_header +:+
     lines (map (unit_line (manager_expenses m))
              (List.filter (in_building (buildingFilter m)) (currentUnits m))))%string.
Proof.
  unfold exportToCsv, filterUnits, renderExpensesTable, set_rows.
  cbn [csvContent expensesData manager_expenses buildingFilter].
  rewrite export_rows. f_equal. f_equal.
  rewrite !filter_map_rows, !map_map. cbn [display unit_column row_unitId row_building render_row].
  assert (Hf : forall u,
             negb (String.eqb (if String.eqb (buildingFilter m) "all"
                                  || String.eqb (building u) (buildingFilter m)
                               then "" else "none") "none")
             = in_building (buildingFilter m) u).
  { intros u. unfold in_building.
    now destruct (String.eqb (buildingFilter m) "all" || String.eqb (building u) (buildingFilter m)). }
  rewrite (List.filter_ext _ _ Hf). apply map_ext. intros u. apply unit_line_values.
Qed.

(** X12.  After [loadExpensesData] got its answer, [exportToCsv] writes the
    line of the column titles and then one line for each unit of the building
    that the filter selects ('all' selects every unit), in the order of the
    answer.  The line of a unit holds fourteen values between quotation marks,
    with commas between them and a line feed at the end: the number of the
    unit, the twelve columns of its record from sales to other - nothing for a
    column without a value - and its net earnings.  The file is named after
    the month of the filter, and the overlay is hidden.  For the two units of
    [two_buildings] and the filter 'A', the text is the titles and the line of
    the first unit. *)
Theorem exportToCsv_after_load (data : api_data) (fallback : option (list unit)) (m : manager) :
  let loaded := loadExpensesData (Some data) fallback m in
  csvContent (exportToCsv loaded)
  = (header_line +:+
     lines (map (unit_line (expenses data))
              (List.filter
                 (fun u => String.eqb (buildingFilter m) "all"
                           || String.eqb (building u) (buildingFilter m))
                 (units data))))%string
  /\ download (exportToCsv loaded)
     = ("PropertyHub_Expenses_" +:+ monthFilter m +:+ ".csv")%string
  /\ loadingOverlay loaded = "none"%string
  /\ csvContent
       (exportToCsv
          (loadExpensesData (Some two_buildings) None
             (Manager [] ∅ "2025-03" "A" [] "" (SaveMessage "" []) [])))
     = (header_line +:+
        quoted "A-1" +:+ "," +:+ quoted "100" +:+ "," +:+ quoted "30" +:+ "," +:+
        quoted "" +:+ "," +:+ quoted "" +:+ "," +:+ quoted "" +:+ "," +:+
        quoted "" +:+ "," +:+ quoted "" +:+ "," +:+ quoted "" +:+ "," +:+
        quoted "" +:+ "," +:+ quoted "" +:+ "," +:+ quoted "" +:+ "," +:+
        quoted "" +:+ "," +:+ quoted "70.00" +:+ line_feed)%string.
Proof.
  intros loaded. split; [|split; [|split]].
  - exact (export_filtered (set_data (units data) (expenses data) (showLoading true m))).
  - reflexivity.
  - reflexivity.
  - vm_compute. reflexivity.
Qed.

(** *** Rendering and updating agree *)

Lemma net_earn_classes_rendered (negative : bool) :
  net_earn_classes negative
    (class_add (if negative then "negative" else "positive") ["net-earn"%string])
  = class_add (if negative then "negative" else "positive") ["net-earn"%string].
Proof. destruct negative; vm_compute; reflexivity. Qed.

Lemma calculateNetEarn_blank (stored : option expense) :
  calculateNetEarn (default ∅ stored) = calculateNetEarn (default blank_expense stored).
Proof. destruct stored; [reflexivity|vm_compute; reflexivity]. Qed.

(** X13.  [updateNetEarn] right after [renderExpensesTable] changes nothing: the
    net-earn cell a row is rendered with is the one [updateNetEarn] would show,
    for a unit with a record and for a unit without. *)
Theorem updateNetEarn_after_render (m : manager) (unitId : Z) :
  manager_updateNetEarn unitId (renderExpensesTable m) = renderExpensesTable m.
Proof.
  unfold manager_updateNetEarn, renderExpensesTable, set_rows.
  cbn [manager_expenses expensesData currentUnits monthFilter buildingFilter loadingOverlay
       saveMessage message_timers].
  f_equal.
  induction (currentUnits m) as [|u us IH]; [reflexivity|].
  cbn [map show_net_earn].
  change (row_unitId (render_row (manager_expenses m) u)) with (id u).
  destruct (Z.eqb_spec (id u) unitId) as [<-|Hne]; [|now rewrite IH].
  f_equal. unfold render_row. cbv zeta.
  cbn [row_unitId row_building unit_column row_inputs row_net_earn display net_classList].
  rewrite <- calculateNetEarn_blank. now rewrite net_earn_classes_rendered.
Qed.

(** *** The loaders *)


















Lemma show_net_earn_inputs (unitId : Z) (netEarn : string) (rows : list table_row) :
  map row_inputs (show_net_earn unitId netEarn rows) = map row_inputs rows
  /\ map display (show_net_earn unitId netEarn rows) = map display rows.
Proof.
  induction rows as [|row rows [IH1 IH2]]; [now split|].
  cbn [show_net_earn]. destruct (row_unitId row =? unitId).
  - now split.
  - cbn [map]. now rewrite IH1, IH2.
Qed.

Lemma load_values_rows (column : string) (amounts : list (Z * jsval)) (m m' : manager)
    (err : option JSEval.error) :
  load_values column amounts m = (m', err) ->
  map row_inputs (expensesData m') = map row_inputs (expensesData m)
  /\ map display (expensesData m') = map display (expensesData m)
  /\ saveMessage m' = saveMessage m
  /\ message_timers m' = message_timers m.
Proof.
  revert m. induction amounts as [|[k v] amounts IH]; intros m H.
  - injection H as <- _. now repeat split.
  - cbn [load_values] in H. destruct v as [| |x|s]; cbn [load_value] in H;
      try (injection H as <- _; now repeat split).
    apply IH in H as (H1 & H2 & H3 & H4). rewrite H1, H2, H3, H4.
    unfold manager_updateNetEarn, set_rows, set_data.
    cbn [expensesData saveMessage message_timers manager_expenses].
    destruct (show_net_earn_inputs k
                (calculateNetEarn
                   (default ∅
                      (<[k := match manager_expenses m !! k with
                              | Some e => <[column := JStr (JSNumber.toFixed 2 x)]> e
                              | None => <[column := JStr (JSNumber.toFixed 2 x)]> blank_expense
                              end]> (manager_expenses m) !! k)))
                (expensesData m)) as [-> ->].
    now repeat split.
Qed.

Lemma load_values_bad_amount (column : string) (before : list (Z * float)) (k : Z) (v : jsval)
    (after : list (Z * jsval)) (m : manager) :
  (forall x, v <> JNum x) ->
  exists m',
    load_values column (as_numbers before ++ (k, v) :: after) m = (m', Some JSEval.TypeError)
    /\ manager_expenses m' = loaded_expenses column before (manager_expenses m).
Proof.
  intros Hv. revert m. induction before as [|[k' x'] before IH]; intros m.
  - exists m. cbn [as_numbers map app load_values].
    destruct v as [| |x|s]; try (now split). now destruct (Hv x).
  - cbn [as_numbers map app fst snd load_values load_value].
    set (m1 := manager_updateNetEarn k' _).
    destruct (IH m1) as (m' & Hload & He).
    exists m'. unfold as_numbers in Hload. rewrite Hload. split; [reflexivity|].
    rewrite He. unfold loaded_expenses. cbn [fold_left fst snd]. f_equal.
    unfold m1, manager_updateNetEarn, set_rows, set_data.
    cbn [manager_expenses]. now destruct (manager_expenses m !! k').
Qed.

(** X16.  A loader goes through the amounts in the order of [for...in]: the
    unit ids in ascending order, whatever the order of the response.  An
    amount that is no Number ([null], a text) stops it at that unit with a
    TypeError: the units visited before it have their new values in the
    records, the table is not rendered again (the inputs and the visibility of
    the rows are unchanged), the overlay is hidden, and the failure message is
    shown with the classes [error] and [show] and a timer of 3000 ms.  So a
    response [{"2": 5, "1": null}] writes nothing: unit 1 comes first. *)
Theorem load_column_stops_at_a_bad_amount (column failure : string)
    (response : list (Z * jsval)) (before : list (Z * float)) (k : Z) (v : jsval)
    (after : list (Z * jsval)) (m : manager) :
  (forall x, v <> JNum x) ->
  for_in response = as_numbers before ++ (k, v) :: after ->
  let loaded := load_column column failure (Some response) m in
  manager_expenses loaded = loaded_expenses column before (manager_expenses m)
  /\ map row_inputs (expensesData loaded) = map row_inputs (expensesData m)
  /\ map display (expensesData loaded) = map display (expensesData m)
  /\ loadingOverlay loaded = "none"%string
  /\ message_text (saveMessage loaded) = failure
  /\ In "error"%string (message_classList (saveMessage loaded))
  /\ In "show"%string (message_classList (saveMessage loaded))
  /\ message_timers loaded = message_timers m ++ [Timer 3000 "show"]
  /\ for_in [(2, JNum 5); (1, JNull)] = [(1, JNull); (2, JNum 5)]
  /\ manager_expenses (load_column column failure (Some [(2, JNum 5); (1, JNull)]) m)
     = manager_expenses m.
Proof.
  intros Hv Horder loaded.
  destruct (load_values_bad_amount column before k v after (showLoading true m) Hv)
    as (m' & Hload & He).
  destruct (load_values_rows _ _ _ _ _ Hload) as (Hin & Hdis & Hmsg & Htm).
  assert (Hloaded : loaded = showSaveMessage failure true (showLoading false m')).
  { unfold loaded, load_column. cbv zeta. now rewrite Horder, Hload. }
  rewrite Hloaded. unfold showSaveMessage, showLoading.
  cbn [manager_expenses expensesData loadingOverlay saveMessage message_text
       message_classList message_timers].
  rewrite He, Hin, Hdis, Htm. cbn [manager_expenses expensesData message_timers showLoading].
  repeat split.
  - rewrite In_class_add. right. rewrite In_class_add. now left.
  - rewrite In_class_add. now left.
Qed.

(** The response [{"3": 5, "2": null, "1": 40}]: unit 1 is written, unit 2
    stops the loop, unit 3 is not reached. *)
Lemma load_column_stops_at_a_bad_amount_witness :
  let m := Manager [Unit 1 "A-1" "A"; Unit 2 "B-1" "B"] ∅
             "2025-03" "all" [] "none" (SaveMessage "" []) [] in
  let loaded := loadRepairCostsFromIssues
                  (Some [(3, JNum 5); (2, JNull); (1, JNum 40)]) m in
  manager_expenses loaded = loaded_expenses "repair" [(1, 40%float)] ∅
  /\ message_text (saveMessage loaded)
     = "Failed to load repair costs. Please try again."%string.
Proof.
  intros m loaded.
  destruct (load_column_stops_at_a_bad_amount "repair"
              "Failed to load repair costs. Please try again."
              [(3, JNum 5); (2, JNull); (1, JNum 40)]
              [(1, 40%float)] 2 JNull [(3, JNum 5)] m ltac:(discriminate)
              ltac:(reflexivity))
    as (H1 & _ & _ & _ & H2 & _).
  split; [exact H1|exact H2].
Defined.

(** *** The month before *)

(** X17.  The month before: for a month from 1 to 12, [prevMonth] is the month
    before in the same year, except that January gives December of the year
    before; the name looked up for it in [monthNames] is always there. *)
Theorem previous_month_wraps (year : float) (month : Z) :
  1 <= month <= 12 ->
  previous_month year (JSNumber.of_Z month)
  = (if month =? 1 then ((year - 1)%float, 12%float)
     else (year, JSNumber.of_Z (month - 1)))
  /\ previous_month_name year (JSNumber.of_Z month)
     = nth_error monthNames (Z.to_nat ((month + 10) mod 12)).
Proof.
  intros H.
  assert (Hm : month = 1 \/ month = 2 \/ month = 3 \/ month = 4 \/ month = 5 \/ month = 6
               \/ month = 7 \/ month = 8 \/ month = 9 \/ month = 10 \/ month = 11
               \/ month = 12) by lia.
  unfold previous_month_name, previous_month.
  repeat (destruct Hm as [->|Hm]; [split; reflexivity|]).
  subst. split; reflexivity.
Qed.

Lemma previous_month_wraps_witness :
  previous_month 2025 (JSNumber.of_Z 1) = ((2025 - 1)%float, 12%float)
  /\ previous_month_name 2025 (JSNumber.of_Z 1) = Some "December"%string
  /\ previous_month_name 2025 (JSNumber.of_Z 3) = Some "February"%string.
Proof.
  split; [apply (previous_month_wraps 2025 1); lia|].
  split.
  - rewrite (proj2 (previous_month_wraps 2025 1 ltac:(lia))). reflexivity.
  - rewrite (proj2 (previous_month_wraps 2025 3 ltac:(lia))). reflexivity.
Defined.

(** *** The breakdown of a month without expenses *)

Lemma processExpenseData_top_amount (apiData : api_data) (unitId : unit_selection) :
  let data := processExpenseData apiData unitId in
  top_amount (topExpense data)
  = match categories data with
    | c :: _ => Some (amount c)
    | [] => None
    end
  /\ top_name (topExpense data)
     = match categories data with
       | c :: _ => name c
       | [] => "None"%string
       end.
Proof.
  intros data.
  assert (Htop : topExpense data
                 = match categories data with
                   | c :: _ => TopExpense (name c) (Some (amount c)) (percentage c)
                   | [] => TopExpense "None" None (Some 0%float)
                   end) by reflexivity.
  rewrite Htop. now destruct (categories data).
Qed.

Ltac view_simpl :=
  cbv zeta;
  cbn [fst snd set_content_classes set_content_innerHTML set_top_units
       total_expenses_value expenses_change top_expense_name top_expense_amount
       avg_expense_value units_count chart_labels chart_data summary_rows
       summary_total_amount content_classList content_innerHTML top_units_display
       top_units_chart top_units_container].

(** X18.  [updateAnalysis], with the markup of the view in place, on a month
    without a positive category: [updateExpenseDisplay] throws a TypeError at the amount of the placeholder
    top expense, in the [then] handler and again in the [catch] handler, so the
    error is caught by nothing, the cards after the name of the top expense keep
    their old texts and [.analysis-content] keeps its class [loading], whatever
    the request for the month before answered. With at least one category
    nothing is thrown, the class is removed and the top-units section is shown
    for 'all' and hidden for one unit. *)
Theorem updateAnalysis_without_expenses (toLocaleString : float -> string)
    (selectedUnit : unit_selection) (currentData : api_data)
    (prev top : option api_data) (v : breakdown_view) :
  content_innerHTML v = None ->
  let data := processExpenseData currentData selectedUnit in
  let outcome := updateAnalysis toLocaleString selectedUnit (Some currentData) prev top v in
  match categories data with
  | [] =>
      snd outcome = Some JSEval.TypeError
      /\ In "loading"%string (content_classList (fst outcome))
      /\ total_expenses_value (fst outcome) = ("RM " +:+ toLocaleString (total data))%string
      /\ top_expense_name (fst outcome) = "None"%string
      /\ top_expense_amount (fst outcome) = top_expense_amount v
      /\ avg_expense_value (fst outcome) = avg_expense_value v
      /\ units_count (fst outcome) = units_count v
      /\ chart_labels (fst outcome) = chart_labels v
      /\ summary_rows (fst outcome) = summary_rows v
      /\ top_units_display (fst outcome) = top_units_display v
      /\ top_units_chart (fst outcome) = top_units_chart v
  | first :: _ =>
      snd outcome = None
      /\ ~ In "loading"%string (content_classList (fst outcome))
      /\ top_expense_name (fst outcome) = name first
      /\ chart_labels (fst outcome) = map name (categories data)
      /\ top_units_display (fst outcome)
         = match selectedUnit with AllUnits => "block" | OneUnit _ => "none" end%string
  end.
Proof.
  intros _ data outcome.
  destruct (processExpenseData_top_amount currentData selectedUnit) as [Hamount Hname].
  fold data in Hamount, Hname.
  unfold outcome, updateAnalysis. cbv zeta. fold data.
  destruct (categories data) as [|first rest] eqn:Hcats.
  - unfold updateExpenseDisplay. cbv zeta. rewrite Hamount, Hname.
    destruct prev as [prevData|]; view_simpl;
      (split; [reflexivity|]); (split; [|repeat split]);
      apply In_class_add; now left.
  - unfold updateExpenseDisplay. cbv zeta. rewrite Hamount, Hname.
    destruct prev as [prevData|]; destruct selectedUnit as [|k]; destruct top as [topData|];
      unfold after_display, fetchTopExpenseUnits; view_simpl; rewrite ?Hcats;
      (split; [reflexivity|]); (split; [|repeat split]);
      rewrite In_class_remove; tauto.
Qed.

Lemma updateAnalysis_without_expenses_witness :
  let outcome := updateAnalysis JSNumber.toString AllUnits (Some (one_unit ∅))
                   (Some (one_unit ∅)) (Some (one_unit ∅)) blank_view in
  snd outcome = Some JSEval.TypeError
  /\ In "loading"%string (content_classList (fst outcome)).
Proof.
  pose proof (updateAnalysis_without_expenses JSNumber.toString AllUnits (one_unit ∅)
                (Some (one_unit ∅)) (Some (one_unit ∅)) blank_view ltac:(reflexivity)) as H.
  cbv zeta in H.
  change (categories (processExpenseData (one_unit ∅) AllUnits)) with (@nil category) in H.
  destruct H as (H1 & H2 & _). split; assumption.
Defined.

(** *** The year by month *)

Lemma add_at_is_Some (month k : Z) (x : float) (by_month : gmap Z float) :
  is_Some (add_at month x by_month !! k) <-> month = k \/ is_Some (by_month !! k).
Proof.
  unfold add_at. rewrite lookup_insert_is_Some.
  destruct (decide (month = k)); tauto.
Qed.

Lemma has_months_add_at (month : Z) (x : float) (by_month : gmap Z float) :
  1 <= month <= 12 -> has_months by_month -> has_months (add_at month x by_month).
Proof.
  intros Hm H k. rewrite add_at_is_Some, (H k). lia.
Qed.

Lemma has_months_add_year (unitExpenses : gmap Z expense) (pd : processed_data) :
  has_months (revenue pd) /\ has_months (year_expenses pd) /\ has_months (profit pd) ->
  has_months (revenue (add_year unitExpenses pd))
  /\ has_months (year_expenses (add_year unitExpenses pd))
  /\ has_months (profit (add_year unitExpenses pd)).
Proof.
  unfold add_year.
  assert (Hall : Forall (fun month => 1 <= month <= 12) months)
    by (unfold months; repeat constructor; lia).
  revert pd. induction Hall as [|month l Hm _ IH]; intros pd H; [exact H|].
  cbn [fold_left]. apply IH. unfold add_month. cbv zeta. cbn [revenue year_expenses profit].
  destruct H as (H1 & H2 & H3). split; [|split]; now apply has_months_add_at.
Qed.

Lemma has_months_initial :
  has_months (revenue initial_months) /\ has_months (year_expenses initial_months)
  /\ has_months (profit initial_months).
Proof.
  unfold initial_months, months. cbn [fold_left revenue year_expenses profit].
  assert (He : forall month : Z, is_Some ((∅ : gmap Z float) !! month) <-> False).
  { intros month. rewrite lookup_empty. split; [intros [x Hx]; discriminate|tauto]. }
  split; [|split]; intros month; rewrite !lookup_insert_is_Some', He; lia.
Qed.

Lemma initial_months_zero (month : Z) :
  1 <= month <= 12 ->
  revenue initial_months !! month = Some 0%float
  /\ year_expenses initial_months !! month = Some 0%float
  /\ profit initial_months !! month = Some 0%float.
Proof.
  intros H.
  assert (Hm : month = 1 \/ month = 2 \/ month = 3 \/ month = 4 \/ month = 5 \/ month = 6
               \/ month = 7 \/ month = 8 \/ month = 9 \/ month = 10 \/ month = 11
               \/ month = 12) by lia.
  repeat (destruct Hm as [->|Hm]; [repeat split; vm_compute; reflexivity|]).
  subst. repeat split; vm_compute; reflexivity.
Qed.

Lemma has_months_fold (es : gmap Z (gmap Z expense)) (l : list unit) (pd : processed_data) :
  has_months (revenue pd) /\ has_months (year_expenses pd) /\ has_months (profit pd) ->
  let pd' := fold_left (fun pd u => add_year (default ∅ (es !! id u)) pd) l pd in
  has_months (revenue pd') /\ has_months (year_expenses pd') /\ has_months (profit pd').
Proof.
  revert pd. induction l as [|u l IH]; intros pd H; [exact H|].
  cbn [fold_left]. apply IH. now apply has_months_add_year.
Qed.

(** X19.  [fetchMonthlyDataForYear]: an answer without [units] rejects with a
    TypeError; every result holds the months 1 to 12 and no other, in revenue,
    expenses and profit; when no unit matches, every month is 0. *)
Theorem fetchMonthlyDataForYear_months (data : yearly_data) (unitId : unit_selection) :
  (yearly_units data = None ->
   fetchMonthlyDataForYear data unitId = JSEval.Throw JSEval.TypeError)
  /\ (forall pd : processed_data,
        fetchMonthlyDataForYear data unitId = JSEval.Normal pd ->
        has_months (revenue pd) /\ has_months (year_expenses pd) /\ has_months (profit pd))
  /\ (forall us : list unit,
        yearly_units data = Some us -> filter_units unitId us = [] ->
        fetchMonthlyDataForYear data unitId = JSEval.Normal initial_months
        /\ forall month, 1 <= month <= 12 ->
             revenue initial_months !! month = Some 0%float
             /\ year_expenses initial_months !! month = Some 0%float
             /\ profit initial_months !! month = Some 0%float).
Proof.
  split; [unfold fetchMonthlyDataForYear; intros ->; reflexivity|]. split.
  - pose proof has_months_initial as Hinit. unfold fetchMonthlyDataForYear.
    revert Hinit. generalize initial_months as init. intros init Hinit pd.
    destruct (yearly_units data) as [us|]; [|discriminate].
    destruct (filter_units unitId us) as [|u rest].
    + intros [= <-]. exact Hinit.
    + destruct (yearly_expenses data) as [es|]; [|discriminate].
      intros [= <-]. exact (has_months_fold es (u :: rest) init Hinit).
  - intros us Hus Hnone. split; [|apply initial_months_zero].
    unfold fetchMonthlyDataForYear. now rewrite Hus, Hnone.
Qed.

Lemma yoy_change_text_zero : yoy_change_text 0 = "+0.0%"%string.
Proof. vm_compute. reflexivity. Qed.

Lemma yoy_change_positive (current previous : float) :
  (0 <? previous)%float = true ->
  yoy_change current previous = calculatePercentChange previous current.
Proof.
  intros H. unfold yoy_change, calculatePercentChange.
  now rewrite H, (positive_not_zero previous H).
Qed.

(** X20.  The cards of the year-on-year comparison: against a previous amount
    that is missing, 0, negative or NaN the change shown is +0.0% in the colour
    of a rise, whatever the current amount; against a positive one it is
    [calculatePercentChange previous current]. *)
Theorem updateYoYComparisonCards_change (toLocaleString : float -> string)
    (currentYearData previousYearData : processed_data) (currentMonth : Z) :
  let cards :=
    updateYoYComparisonCards toLocaleString currentYearData previousYearData currentMonth in
  let shown (by_month : processed_data -> gmap Z float) (card : yoy_card) (zero : string) :=
    let current := month_value (by_month currentYearData) currentMonth in
    let previous := month_value (by_month previousYearData) currentMonth in
    ((0 <? previous)%float = false ->
     yoy_change_shown card = "+0.0%"%string /\ yoy_color card = zero)
    /\ ((0 <? previous)%float = true ->
        yoy_change_shown card = yoy_change_text (calculatePercentChange previous current))
    /\ (by_month previousYearData !! currentMonth = None -> (0 <? previous)%float = false) in
  shown revenue (yoy_revenue cards) "#4CAF50"%string
  /\ shown year_expenses (yoy_expenses cards) "#F44336"%string
  /\ shown profit (yoy_profit cards) "#3F51B5"%string.
Proof.
  intros cards shown. unfold shown, cards, updateYoYComparisonCards. cbv zeta.
  cbn [yoy_revenue yoy_expenses yoy_profit yoy_change_shown yoy_color].
  split; [|split]; (split; [|split]).
  all: try (intros H; unfold yoy_change; rewrite H; split; [apply yoy_change_text_zero|reflexivity]).
  all: try (intros H; now rewrite yoy_change_positive).
  all: intros H; unfold month_value; now rewrite H.
Qed.

(** *** The income table in the chosen order *)

Lemma SFltb_asym (x y : spec_float) : SFltb x y = true -> SFltb y x = false.
Proof.
  unfold SFltb, SFcompare.
  destruct x as [sx|sx| |sx mx ex], y as [sy|sy| |sy my ey];
    try discriminate; try reflexivity;
    try (destruct sx; discriminate || reflexivity);
    try (destruct sy; discriminate || reflexivity);
    try (destruct sx, sy; discriminate || reflexivity).
  change (Pos.compare_cont Eq mx my) with (Pos.compare mx my).
  change (Pos.compare_cont Eq my mx) with (Pos.compare my mx).
  rewrite (Z.compare_antisym ex ey), (Pos.compare_antisym mx my).
  destruct sx, sy; try discriminate; try reflexivity;
    destruct (ex ?= ey); cbn [CompOpp]; try discriminate; try reflexivity;
    destruct (mx ?= my)%positive; cbn [CompOpp]; try discriminate; reflexivity.
Qed.

Lemma ltb_asym (x y : float) : (x <? y)%float = true -> (y <? x)%float = false.
Proof. rewrite !FloatAxioms.ltb_spec. apply SFltb_asym. Qed.

Lemma string_ltb_asym (a b : string) : String.ltb a b = true -> String.ltb b a = false.
Proof.
  unfold String.ltb. rewrite (String.compare_antisym b a).
  now destruct (a ?= b)%string.
Qed.

Lemma less_than_asym (f : income_field) (a b : income_row) :
  less_than f a b = true -> less_than f b a = false.
Proof. destruct f; cbn [less_than]; [apply string_ltb_asym|apply ltb_asym..]. Qed.

Lemma income_compare_after (sortConfig : sort_config) (a b : income_row) :
  (0 <? income_compare sortConfig a b)%float
  = match direction sortConfig with
    | Asc => negb (less_than (sort_field sortConfig) a b)
             && less_than (sort_field sortConfig) b a
    | Desc => negb (less_than (sort_field sortConfig) b a)
              && less_than (sort_field sortConfig) a b
    end.
Proof.
  unfold income_compare. cbv zeta.
  destruct (direction sortConfig), (less_than (sort_field sortConfig) a b),
    (less_than (sort_field sortConfig) b a); reflexivity.
Qed.

Lemma income_compare_antisym (sortConfig : sort_config) (a b : income_row) :
  (0 <? income_compare sortConfig a b)%float = true ->
  (0 <? income_compare sortConfig b a)%float = false.
Proof.
  rewrite !income_compare_after.
  destruct (direction sortConfig), (less_than (sort_field sortConfig) a b),
    (less_than (sort_field sortConfig) b a); cbn; congruence.
Qed.

Lemma SFcompare_antisym (x y : spec_float) :
  SFcompare y x = option_map CompOpp (SFcompare x y).
Proof.
  unfold SFcompare.
  destruct x as [sx|sx| |sx mx ex], y as [sy|sy| |sy my ey]; try reflexivity;
    try (destruct sx; reflexivity); try (destruct sy; reflexivity);
    try (destruct sx, sy; reflexivity).
  change (Pos.compare_cont Eq mx my) with (Pos.compare mx my).
  change (Pos.compare_cont Eq my mx) with (Pos.compare my mx).
  rewrite (Z.compare_antisym ex ey), (Pos.compare_antisym mx my).
  destruct sx, sy; try reflexivity;
    destruct (ex ?= ey); cbn [CompOpp option_map]; try reflexivity;
    destruct (mx ?= my)%positive; reflexivity.
Qed.

Lemma not_nan_spec (x : float) : is_nan x = false -> Prim2SF x <> S754_nan.
Proof.
  unfold is_nan. rewrite FloatAxioms.eqb_spec. intros H E. rewrite E in H. discriminate.
Qed.

Lemma leb_not_ltb (x y : float) :
  is_nan x = false -> is_nan y = false -> (x <=? y)%float = negb (y <? x)%float.
Proof.
  intros Hx Hy. apply not_nan_spec in Hx, Hy.
  rewrite FloatAxioms.leb_spec, FloatAxioms.ltb_spec. unfold SFleb, SFltb.
  rewrite (SFcompare_antisym (Prim2SF x) (Prim2SF y)).
  destruct (SFcompare (Prim2SF x) (Prim2SF y)) as [[]|] eqn:E; try reflexivity.
  exfalso. unfold SFcompare in E.
  destruct (Prim2SF x) as [sx|sx| |sx mx ex], (Prim2SF y) as [sy|sy| |sy my ey];
    congruence.
Qed.

Lemma at_most_not_less (f : income_field) (a b : income_row) :
  comparable f a = true -> comparable f b = true ->
  at_most f a b = negb (less_than f b a).
Proof.
  destruct f; cbn [comparable at_most less_than]; [reflexivity|..];
    intros Ha Hb; apply negb_true_iff in Ha, Hb; now apply leb_not_ltb.
Qed.

Lemma in_order_income (sortConfig : sort_config) (a b : income_row) :
  comparable (sort_field sortConfig) a = true ->
  comparable (sort_field sortConfig) b = true ->
  in_order (income_compare sortConfig) a b -> in_table_order sortConfig a b.
Proof.
  intros Ha Hb. unfold in_order, in_table_order. rewrite income_compare_after.
  destruct (direction sortConfig).
  - rewrite (at_most_not_less _ a b Ha Hb).
    destruct (less_than (sort_field sortConfig) a b) eqn:E; cbn [negb andb].
    + intros _. now rewrite (less_than_asym _ _ _ E).
    + now intros ->.
  - rewrite (at_most_not_less _ b a Hb Ha).
    destruct (less_than (sort_field sortConfig) b a) eqn:E; cbn [negb andb].
    + intros _. now rewrite (less_than_asym _ _ _ E).
    + now intros ->.
Qed.

Lemma Sorted_impl_In {A : Type} (R R' : A -> A -> Prop) (l : list A) :
  (forall a b, In a l -> In b l -> R a b -> R' a b) -> Sorted R l -> Sorted R' l.
Proof.
  intros H Hs. induction Hs as [|a l Hl IH Ha]; constructor.
  - apply IH. intros x y Hx Hy. apply H; now right.
  - destruct Ha as [|b l' Hab]; constructor. apply H; [now left|right; now left|exact Hab].
Qed.

(** X21.  [updateIncomeTable] orders [unitData] by the chosen field: provided no
    value of the field is NaN, the result is a permutation in which every row is
    at most the next one (ascending) or at least the next one (descending); rows
    that the field does not tell apart keep their order, and the rows of the
    table and the total follow the sorted order. *)
Theorem updateIncomeTable_order (formatCurrency : float -> string)
    (unitData : list income_row) (sortConfig : sort_config) :
  Forall (fun item => comparable (sort_field sortConfig) item = true) unitData ->
  let table := updateIncomeTable formatCurrency unitData sortConfig in
  Permutation (income_data table) unitData
  /\ Sorted (in_table_order sortConfig) (income_data table)
  /\ (forall tie : income_row -> bool,
        (forall a b, tie a = true -> tie b = true ->
           less_than (sort_field sortConfig) a b = false) ->
        List.filter tie (income_data table) = List.filter tie unitData)
  /\ map cell_unit (income_rows table) = map unitNumber (income_data table)
  /\ total_sales_income table
     = formatCurrency
         (fold_left (fun acc item => (acc + salesIncome item)%float) (income_data table)
            0%float).
Proof.
  intros Hcomparable table.
  assert (Hdata : income_data table = sort (income_compare sortConfig) unitData) by reflexivity.
  rewrite Hdata.
  split; [apply sort_perm|].
  split.
  { apply (Sorted_impl_In (in_order (income_compare sortConfig)));
      [|apply sort_sorted, income_compare_antisym].
    rewrite List.Forall_forall in Hcomparable.
    intros a b Ha Hb. apply in_order_income; apply Hcomparable;
      eapply Permutation_in; try apply sort_perm; eassumption. }
  split.
  { intros tie Htie. apply sort_stable. intros a b Ha Hb.
    unfold in_order. rewrite income_compare_after.
    rewrite (Htie a b Ha Hb), (Htie b a Hb Ha). now destruct (direction sortConfig). }
  split; [|reflexivity].
  unfold table, updateIncomeTable. cbv zeta. cbn [income_rows]. now rewrite map_map.
Qed.

Lemma updateIncomeTable_order_witness :
  let unitData := map (fun u => income_of_unit u (unit_expenses two_units u))
                    (units two_units) in
  map unitNumber
    (income_data (updateIncomeTable JSNumber.toString unitData
                    (SortConfig NetProfitField Desc)))
  = ["A-1"; "A-2"]%string.
Proof.
  intros unitData.
  pose proof (updateIncomeTable_order JSNumber.toString unitData
                (SortConfig NetProfitField Desc)
                ltac:(repeat constructor)) as (_ & _ & _ & H & _).
  rewrite <- H. vm_compute. reflexivity.
Defined.
